(** * MorseWriter: the Morse timing decoder and action dispatch of
    [MorseCodeGUI.py], embedded in Rocq

  The development follows the Python source function by function.  The
  engine state is the set of attributes of [Window] that the key and
  timer callbacks read or write; every callback is a computation in a
  small state / exception / output monad, so that a Python [try] block,
  an early [return] and the calls made to the collaborators ([keyboard],
  [mouse], the audio player, the keypad view, [logging]) all appear as
  they are written.

  Conventions
  - [time.time()] and the configured durations are Python floats; they
    are taken here as exact rationals ([Q]).
  - Strings are strings of 8-bit characters.
  - A [QTimer] is represented by the attribute of [Window] that holds it:
    [None] when the attribute is [None], [Some t] once a timer has been
    created and started.  [endCharacter] rebinds [repeat_character_timer]
    without stopping the timer it held; such a timer is a child of the
    window and goes on firing, and is kept in [orphaned_repeat_timers].
  - [logging.debug] produces no output event; [info], [warning] and
    [error] do.  The text of an exception is not rendered: the handler's
    message is recorded together with the exception's class. *)

From Stdlib Require Import ZArith QArith String Ascii List Bool Lia DecimalString.
From stdpp Require Import base option gmap strings.
Import ListNotations.

(** ** Python values used by the source *)

Module Py.

Inductive Exn := AttributeError | IndexError | KeyError | TypeError | ValueError.

(** The result of evaluating a Python expression or block. *)
Inductive Outcome (A : Type) : Type :=
| Returns (a : A)
| Raises (e : Exn).
Arguments Returns {A} a.
Arguments Raises {A} e.

(** [str(n)] for an [int]. *)
Definition str (n : Z) : string := NilZero.string_of_int (Z.to_int n).

(** [len(s)] *)
Definition len (s : string) : Z := Z.of_nat (String.length s).

(** [s[i]] for [0 <= i]; [None] stands for an index out of range. *)
Definition index (s : string) (i : Z) : option ascii :=
  if (i <? 0)%Z then None else String.get (Z.to_nat i) s.

(** [s[i:]] for [0 <= i] *)
Definition slice_from (s : string) (i : Z) : string :=
  substring (Z.to_nat i) (String.length s - Z.to_nat i) s.

(** [s[:n]] for [0 <= n] *)
Definition slice_to (s : string) (n : Z) : string :=
  substring 0 (Z.to_nat n) s.

(** [s[:-1]] *)
Definition drop_last (s : string) : string :=
  substring 0 (String.length s - 1) s.

(** The characters [str.split()] treats as separators (ASCII range). *)
Definition isspace (c : ascii) : bool :=
  let n := nat_of_ascii c in
  ((9 <=? n) && (n <=? 13)) || ((28 <=? n) && (n <=? 32)).

Fixpoint split_from (word : string) (s : string) : list string :=
  match s with
  | EmptyString => if String.eqb word "" then [] else [word]
  | String c rest =>
      if isspace c
      then (if String.eqb word "" then split_from "" rest
            else word :: split_from "" rest)
      else split_from (word +:+ String c "") rest
  end.

(** [s.split()] *)
Definition split (s : string) : list string := split_from "" s.

(** [s.replace(old, new)] for one-character [old] and [new]. *)
Fixpoint replace (old new : ascii) (s : string) : string :=
  match s with
  | EmptyString => EmptyString
  | String c rest =>
      String (if Ascii.eqb c old then new else c) (replace old new rest)
  end.

(** The characters of a string, as [for c in s] visits them. *)
Fixpoint chars (s : string) : list string :=
  match s with
  | EmptyString => []
  | String c rest => String c "" :: chars rest
  end.

(** [int(x)] for a float [x]: truncation towards zero. *)
Definition int_of_float (x : Q) : Z := Z.quot (Qnum x) (Zpos (Qden x)).

(** [a < b] on floats *)
Definition lt (a b : Q) : bool := (Qnum a * QDen b <? Qnum b * QDen a)%Z.

End Py.

Import Py.

(** ** Data model *)

(** [addDit] appends [1] and [addDah] appends [2] to [currentCharacter]. *)
Inductive MorseSymbol := Dit | Dah.

Definition symbol_value (s : MorseSymbol) : Z :=
  match s with Dit => 1 | Dah => 2 end.

(** The radio button that is checked ([keySelectionRadio...Key]). *)
Inductive InputMode := OneKey | TwoKey | ThreeKey.

Definition keySelectionRadioOneKey_isChecked (mode : InputMode) : bool :=
  match mode with OneKey => true | _ => false end.

Definition keySelectionRadioTwoKey_isChecked (mode : InputMode) : bool :=
  match mode with TwoKey => true | _ => false end.

(** The entries of [config] the engine reads.  [maxDitTime] and
    [SoundTyping] are read with [config.get] and may be absent;
    [fastMorseMode] and [debug] hold the value [config.get(.., False)]
    yields; [withsound] and [minLetterPause] are read with [config[..]]
    and are present in every configuration the program builds. *)
Record Config := mkConfig {
  maxDitTime : option Q;
  minLetterPause : Q;
  fastMorseMode : bool;
  withsound : bool;
  SoundTyping : option string;
  debug : bool
}.

Inductive MouseButton := LEFT | RIGHT.

(** The classes of [item['_action']], with the attributes [perform] reads. *)
Inductive Action :=
| ActionLegacy (key : option string)
| ActionKeyStroke (key : string) (character : option string) (toggle_action : bool)
| ChangeLayoutAction (layout_name : string)
| PredictionSelectLayoutAction (target : Z)
| RepeatOnAction.

(** A layout item: [item.get('code')] and [item['_action']] ([None] when
    [set_actions] found no action of that name). *)
Record Item := mkItem {
  code : option string;
  _action : option Action
}.

Record Layout := mkLayout {
  items : list Item
}.

Record LayoutManager := mkLayoutManager {
  layouts : gmap string Layout;
  active_layout_name : option string
}.

(** [TypeState.expanded_text] holds [None], a string, or the tuple
    [(None, None)] that [get_abbreviation] stores in its handler. *)
Inductive ExpandedText := ExpNone | ExpStr (s : string) | ExpNonePair.

Record TypeState := mkTypeState {
  text : string;
  predictions : option (list string);
  presage_predict : string -> Outcome (list string);
  abbreviations : gmap string string;
  expanded_text : ExpandedText;
  keyLength : option nat
}.

(** A started [QTimer]: its period in ms and whether it is single-shot.
    Each of the three timer attributes of [Window] is created at one place
    of the source and connected there to one slot, so the slot is not
    stored: [endCharacterTimer] calls [endCharacter],
    [repeat_character_timer] calls [handleMorseCode(previousCharacter)] and
    [fast_morse_mode_timer] calls [repeat_key(key, role)] with the [key]
    and [role] its lambda captured. *)
Record QTimer := mkQTimer {
  interval : Z;
  singleShot : bool
}.

Record RepeatKeyTimer := mkRepeatKeyTimer {
  timer : QTimer;
  captured_key : string;
  captured_role : nat
}.

Record Window := mkWindow {
  config : Config;
  keySelectionRadio : InputMode;
  layoutManager : LayoutManager;
  typestate : option TypeState;
  currentCharacter : list Z;
  previousCharacter : list Z;
  lastKeyDownTime : option Q;
  endCharacterTimer : option QTimer;
  inputDisabled : bool;
  fast_morse_mode_timer : option RepeatKeyTimer;
  repeat_character_timer : option QTimer;
  repeaton : bool;
  (** the running [QTimer(self)] children that [repeat_character_timer]
      referred to when it was rebound: no attribute reaches them *)
  orphaned_repeat_timers : list QTimer
}.

(** The program state: the [Window], the module-level variable
    [typestate] (line 61 of the source) and the physical keyboard as
    [keyboard.is_pressed] reports it. *)
Record Machine := mkMachine {
  window : Window;
  global_typestate : option TypeState;
  keyboard_is_pressed : string -> bool
}.

Inductive LogLevel := INFO | WARNING | ERROR.

(** Calls that leave the engine. *)
Inductive Effect :=
| keyboard_press_and_release (key : string)
| keyboard_press (key : string)
| keyboard_release (key : string)
| mouse_move (dx dy : Z)
| mouse_click (button : MouseButton)
| mouse_press (button : MouseButton)
| mouse_release (button : MouseButton)
| play_audio (file : string)
| codeslayoutview_Dit
| codeslayoutview_Dah
| codeslayoutview_reset
| codeslayoutview_show (layout_name : string)
| logging (level : LogLevel) (msg : string) (exc : option Exn)
| print (item : option Item).

(** ** Attribute assignment *)

Definition set_typestate (v : option TypeState) (w : Window) : Window :=
  mkWindow (config w) (keySelectionRadio w) (layoutManager w) v
    (currentCharacter w) (previousCharacter w) (lastKeyDownTime w)
    (endCharacterTimer w) (inputDisabled w) (fast_morse_mode_timer w)
    (repeat_character_timer w) (repeaton w) (orphaned_repeat_timers w).

Definition set_layoutManager (v : LayoutManager) (w : Window) : Window :=
  mkWindow (config w) (keySelectionRadio w) v (typestate w)
    (currentCharacter w) (previousCharacter w) (lastKeyDownTime w)
    (endCharacterTimer w) (inputDisabled w) (fast_morse_mode_timer w)
    (repeat_character_timer w) (repeaton w) (orphaned_repeat_timers w).

Definition set_currentCharacter (v : list Z) (w : Window) : Window :=
  mkWindow (config w) (keySelectionRadio w) (layoutManager w) (typestate w)
    v (previousCharacter w) (lastKeyDownTime w)
    (endCharacterTimer w) (inputDisabled w) (fast_morse_mode_timer w)
    (repeat_character_timer w) (repeaton w) (orphaned_repeat_timers w).

Definition set_previousCharacter (v : list Z) (w : Window) : Window :=
  mkWindow (config w) (keySelectionRadio w) (layoutManager w) (typestate w)
    (currentCharacter w) v (lastKeyDownTime w)
    (endCharacterTimer w) (inputDisabled w) (fast_morse_mode_timer w)
    (repeat_character_timer w) (repeaton w) (orphaned_repeat_timers w).

Definition set_lastKeyDownTime (v : option Q) (w : Window) : Window :=
  mkWindow (config w) (keySelectionRadio w) (layoutManager w) (typestate w)
    (currentCharacter w) (previousCharacter w) v
    (endCharacterTimer w) (inputDisabled w) (fast_morse_mode_timer w)
    (repeat_character_timer w) (repeaton w) (orphaned_repeat_timers w).

Definition set_endCharacterTimer (v : option QTimer) (w : Window) : Window :=
  mkWindow (config w) (keySelectionRadio w) (layoutManager w) (typestate w)
    (currentCharacter w) (previousCharacter w) (lastKeyDownTime w)
    v (inputDisabled w) (fast_morse_mode_timer w)
    (repeat_character_timer w) (repeaton w) (orphaned_repeat_timers w).

Definition set_inputDisabled (v : bool) (w : Window) : Window :=
  mkWindow (config w) (keySelectionRadio w) (layoutManager w) (typestate w)
    (currentCharacter w) (previousCharacter w) (lastKeyDownTime w)
    (endCharacterTimer w) v (fast_morse_mode_timer w)
    (repeat_character_timer w) (repeaton w) (orphaned_repeat_timers w).

Definition set_fast_morse_mode_timer (v : option RepeatKeyTimer) (w : Window) : Window :=
  mkWindow (config w) (keySelectionRadio w) (layoutManager w) (typestate w)
    (currentCharacter w) (previousCharacter w) (lastKeyDownTime w)
    (endCharacterTimer w) (inputDisabled w) v
    (repeat_character_timer w) (repeaton w) (orphaned_repeat_timers w).

Definition set_repeat_character_timer (v : option QTimer) (w : Window) : Window :=
  mkWindow (config w) (keySelectionRadio w) (layoutManager w) (typestate w)
    (currentCharacter w) (previousCharacter w) (lastKeyDownTime w)
    (endCharacterTimer w) (inputDisabled w) (fast_morse_mode_timer w)
    v (repeaton w) (orphaned_repeat_timers w).

Definition set_repeaton (v : bool) (w : Window) : Window :=
  mkWindow (config w) (keySelectionRadio w) (layoutManager w) (typestate w)
    (currentCharacter w) (previousCharacter w) (lastKeyDownTime w)
    (endCharacterTimer w) (inputDisabled w) (fast_morse_mode_timer w)
    (repeat_character_timer w) v (orphaned_repeat_timers w).

Definition set_orphaned_repeat_timers (v : list QTimer) (w : Window) : Window :=
  mkWindow (config w) (keySelectionRadio w) (layoutManager w) (typestate w)
    (currentCharacter w) (previousCharacter w) (lastKeyDownTime w)
    (endCharacterTimer w) (inputDisabled w) (fast_morse_mode_timer w)
    (repeat_character_timer w) (repeaton w) v.

(** [self.repeat_character_timer = QTimer(self)] followed by its
    [start]: the attribute refers to the new timer; a timer it referred
    to before is not stopped and stays a running child of the window. *)
Definition rebind_repeat_character_timer (t : QTimer) (w : Window) : Window :=
  set_repeat_character_timer (Some t)
    (set_orphaned_repeat_timers
       (match repeat_character_timer w with
        | Some old => old :: orphaned_repeat_timers w
        | None => orphaned_repeat_timers w
        end) w).

Definition set_window (w : Window) (m : Machine) : Machine :=
  mkMachine w (global_typestate m) (keyboard_is_pressed m).

Definition set_global_typestate (v : option TypeState) (m : Machine) : Machine :=
  mkMachine (window m) v (keyboard_is_pressed m).

(** ** The monad of callbacks

    A computation takes the machine and yields an outcome, the machine it
    leaves behind (assignments made before an exception persist) and the
    calls it made, in order. *)

Definition M (A : Type) : Type := Machine -> Outcome A * Machine * list Effect.

Definition ret {A} (a : A) : M A := fun m => (Returns a, m, []).

Definition bind {A B} (c : M A) (k : A -> M B) : M B :=
  fun m =>
    match c m with
    | (Returns a, m1, out1) =>
        let '(r, m2, out2) := k a m1 in (r, m2, out1 ++ out2)
    | (Raises e, m1, out1) => (Raises e, m1, out1)
    end.

#[global] Instance M_ret : MRet M := @ret.
#[global] Instance M_bind : MBind M := fun A B k c => bind c k.

(** [raise e] *)
Definition raise {A} (e : Exn) : M A := fun m => (Raises e, m, []).

(** [try: body  except Exception as e: handler(e)] *)
Definition try_except (body : M unit) (handler : Exn -> M unit) : M unit :=
  fun m =>
    match body m with
    | (Returns a, m1, out1) => (Returns a, m1, out1)
    | (Raises e, m1, out1) =>
        let '(r, m2, out2) := handler e m1 in (r, m2, out1 ++ out2)
    end.

Definition emit (e : Effect) : M unit := fun m => (Returns tt, m, [e]).

(** [self.attr] and [self.attr = v] on the [Window] *)
Definition self {A} (attr : Window -> A) : M A :=
  fun m => (Returns (attr (window m)), m, []).

Definition assign (upd : Window -> Window) : M unit :=
  fun m => (Returns tt, set_window (upd (window m)) m, []).

(** [for x in xs: body(x)] *)
Fixpoint for_each {A} (xs : list A) (body : A -> M unit) : M unit :=
  match xs with
  | [] => ret tt
  | x :: rest => bind (body x) (fun _ => for_each rest body)
  end.

(** The machine and the calls a callback leaves. *)
Definition exec {A} (c : M A) (m : Machine) : Machine := snd (fst (c m)).
Definition calls {A} (c : M A) (m : Machine) : list Effect := snd (c m).
Definition outcome {A} (c : M A) (m : Machine) : Outcome A := fst (fst (c m)).

(** ** [expand_abbreviation] and [TypeState] *)

(** [expand_abbreviation(keys, abbreviations)]; [words[-1]] raises
    [IndexError] when [keys] holds no word. *)
Definition expand_abbreviation (keys : string) (abbreviations : gmap string string)
  : Outcome (option string * option nat) :=
  let words := Py.split keys in
  match last words with
  | None => Raises IndexError
  | Some last_word =>
      match abbreviations !! last_word with
      | Some expansion => Returns (Some expansion, Some (String.length last_word))
      | None => Returns (None, None)
      end
  end.

Definition set_text (v : string) (ts : TypeState) : TypeState :=
  mkTypeState v (predictions ts) (presage_predict ts) (abbreviations ts)
    (expanded_text ts) (keyLength ts).

Definition set_predictions (v : option (list string)) (ts : TypeState) : TypeState :=
  mkTypeState (text ts) v (presage_predict ts) (abbreviations ts)
    (expanded_text ts) (keyLength ts).

Definition set_expanded_text (v : ExpandedText) (ts : TypeState) : TypeState :=
  mkTypeState (text ts) (predictions ts) (presage_predict ts) (abbreviations ts)
    v (keyLength ts).

Definition set_keyLength (v : option nat) (ts : TypeState) : TypeState :=
  mkTypeState (text ts) (predictions ts) (presage_predict ts) (abbreviations ts)
    (expanded_text ts) v.

(** The two places a [TypeState] object is reached from:
    [self.window.typestate] and the module-level [typestate]. *)
Inductive TypeStateRef := window_typestate | module_typestate.

Definition read (r : TypeStateRef) : M (option TypeState) :=
  fun m =>
    (Returns (match r with
              | window_typestate => typestate (window m)
              | module_typestate => global_typestate m
              end), m, []).

(** Attribute access on the object; on [None] it raises [AttributeError]. *)
Definition deref (r : TypeStateRef) : M TypeState :=
  o ← read r;
  match o with
  | Some ts => mret ts
  | None => raise AttributeError
  end.

Definition write (r : TypeStateRef) (ts : TypeState) : M unit :=
  fun m =>
    (Returns tt,
     match r with
     | window_typestate => set_window (set_typestate (Some ts) (window m)) m
     | module_typestate => set_global_typestate (Some ts) m
     end, []).

Definition update (r : TypeStateRef) (f : TypeState -> TypeState) : M unit :=
  ts ← deref r; write r (f ts).

Definition past_stream (r : TypeStateRef) : M string :=
  ts ← deref r; mret (text ts).

(** [self.text += char]; adding [None] to a string raises [TypeError]. *)
Definition pushchar (r : TypeStateRef) (char : option string) : M unit :=
  ts ← deref r;
  match char with
  | None => raise TypeError
  | Some c =>
      update r (set_text (text ts +:+ c));;
      update r (set_predictions None)
  end.

Definition popchar (r : TypeStateRef) : M unit :=
  ts ← deref r;
  update r (set_text (Py.drop_last (text ts)));;
  update r (set_predictions None).

Definition getpredictions (r : TypeStateRef) : M (list string) :=
  ts ← deref r;
  match predictions ts with
  | Some p => mret p
  | None =>
      match presage_predict ts (text ts) with
      | Returns p => update r (set_predictions (Some p));; mret p
      | Raises e =>
          emit (logging ERROR "[TypeState] Failed to generate predictions: " (Some e));;
          update r (set_predictions (Some []));;
          mret []
      end
  end.

Definition get_abbreviation (r : TypeStateRef) : M (ExpandedText * option nat) :=
  ts ← deref r;
  match expand_abbreviation (text ts) (abbreviations ts) with
  | Returns (Some expansion, n) =>
      update r (set_expanded_text (ExpStr expansion));;
      update r (set_keyLength n)
  | Returns (None, n) =>
      update r (set_expanded_text ExpNone);;
      update r (set_keyLength n)
  | Raises e =>
      emit (logging ERROR "[TypeState] Failed to get abbreviations: " (Some e));;
      update r (set_expanded_text ExpNonePair)
  end;;
  ts' ← deref r;
  mret (expanded_text ts', keyLength ts').

(** ** [LayoutManager] *)

Definition set_active (layout_name : string) : M unit :=
  lm ← self layoutManager;
  match layouts lm !! layout_name with
  | Some _ =>
      assign (set_layoutManager (mkLayoutManager (layouts lm) (Some layout_name)));;
      emit (logging INFO ("Active layout set to " +:+ layout_name) None)
  | None => raise ValueError
  end.

Definition get_active_layout : M Layout :=
  lm ← self layoutManager;
  match active_layout_name lm with
  | Some name =>
      if String.eqb name "" then raise ValueError
      else match layouts lm !! name with
           | Some layout => mret layout
           | None => raise KeyError
           end
  | None => raise ValueError
  end.

(** ** [moveMouse], [clickMouse] *)

Definition moveMouse (x_delta y_delta : Z) : M unit :=
  emit (logging INFO ("moveMouse to " +:+ Py.str x_delta +:+ " " +:+ Py.str y_delta) None);;
  emit (mouse_move x_delta y_delta).

Inductive ClickKind := click | press | release.

Definition button_name (b : MouseButton) : string :=
  match b with LEFT => "left" | RIGHT => "right" end.

Definition click_name (a : ClickKind) : string :=
  match a with click => "click" | press => "press" | release => "release" end.

Definition clickMouse (button : MouseButton) (action : ClickKind) : M unit :=
  emit (logging INFO ("clickMouse to " +:+ button_name button +:+ " " +:+ click_name action) None);;
  match action with
  | click => emit (mouse_click button)
  | press => emit (mouse_press button)
  | release => emit (mouse_release button)
  end.

(** [ActionLegacy.perform]'s [action_map] *)
Definition action_map : list (string * M unit) :=
  [ ("MOUSEUP5", moveMouse 0 (-5)); ("MOUSEDOWN5", moveMouse 0 5);
    ("MOUSELEFT5", moveMouse (-5) 0); ("MOUSERIGHT5", moveMouse 5 0);
    ("MOUSEUPLEFT5", moveMouse (-5) (-5)); ("MOUSEUPRIGHT5", moveMouse 5 (-5));
    ("MOUSEDOWNLEFT5", moveMouse (-5) 5); ("MOUSEDOWNRIGHT5", moveMouse 5 5);
    ("MOUSEUP40", moveMouse 0 (-40)); ("MOUSEDOWN40", moveMouse 0 40);
    ("MOUSELEFT40", moveMouse (-40) 0); ("MOUSERIGHT40", moveMouse 40 0);
    ("MOUSEUPLEFT40", moveMouse (-40) (-40)); ("MOUSEUPRIGHT40", moveMouse 40 (-40));
    ("MOUSEDOWNLEFT40", moveMouse (-40) 40); ("MOUSEDOWNRIGHT40", moveMouse 40 40);
    ("MOUSEUP250", moveMouse 0 (-250)); ("MOUSEDOWN250", moveMouse 0 250);
    ("MOUSELEFT250", moveMouse (-250) 0); ("MOUSERIGHT250", moveMouse 250 0);
    ("MOUSEUPLEFT250", moveMouse (-250) (-250)); ("MOUSEUPRIGHT250", moveMouse 250 (-250));
    ("MOUSEDOWNLEFT250", moveMouse (-250) 250); ("MOUSEDOWNRIGHT250", moveMouse 250 250);
    ("MOUSECLICKLEFT", clickMouse LEFT click); ("MOUSECLICKRIGHT", clickMouse RIGHT click);
    ("MOUSECLKHLDLEFT", clickMouse LEFT press); ("MOUSECLKHLDRIGHT", clickMouse RIGHT press);
    ("MOUSERELEASEHOLD", clickMouse LEFT release) ]%Z.

Fixpoint lookup_action (key : string) (table : list (string * M unit)) : option (M unit) :=
  match table with
  | [] => None
  | (k, f) :: rest => if String.eqb k key then Some f else lookup_action key rest
  end.

(** ** The actions *)

(** [ActionLegacy.perform] *)
Definition ActionLegacy_perform (key : option string) : M unit :=
  match key with
  | Some k =>
      if String.eqb k "" then mret tt
      else match lookup_action k action_map with
           | Some f => f
           | None => mret tt
           end
  | None => mret tt
  end.

(** The body of [for _ in range(keylength)] in [ActionKeyStroke.perform]. *)
Fixpoint pop_and_backspace (r : TypeStateRef) (n : nat) : M unit :=
  match n with
  | O => mret tt
  | S n' =>
      popchar r;;
      emit (keyboard_press_and_release "backspace");;
      pop_and_backspace r n'
  end.

(** [ActionKeyStroke.perform].  The first statement of the [else] branch
    formats [self.window.typestate.past_stream()] into its message, so it
    raises when the window has no [TypeState].  [keyboard] takes the length
    of the key it is given, so iterating over the tuple [(None, None)]
    raises [TypeError] at its first element. *)
Definition ActionKeyStroke_perform (key : string) (character : option string)
    (toggle_action : bool) : M unit :=
  try_except
    (if toggle_action then
       down ← (fun m => (Returns (keyboard_is_pressed m key), m, []));
       if (down : bool) then emit (keyboard_release key) else emit (keyboard_press key)
     else
       past_stream window_typestate;;
       emit (keyboard_press_and_release key);;
       o ← read window_typestate;
       match o with
       | None => mret tt
       | Some _ =>
           (if String.eqb key "backspace" || String.eqb key "delete"
            then popchar window_typestate
            else pushchar window_typestate character);;
           '(abbreviation, keylength) ← get_abbreviation window_typestate;
           match abbreviation with
           | ExpNone => mret tt
           | ExpStr expansion =>
               match keylength with
               | Some n => pop_and_backspace window_typestate n
               | None => raise TypeError
               end;;
               for_each (Py.chars expansion)
                 (fun itm => emit (keyboard_press_and_release itm));;
               emit (keyboard_press_and_release "space")
           | ExpNonePair =>
               match keylength with
               | Some n => pop_and_backspace window_typestate n
               | None => raise TypeError
               end;;
               raise TypeError
           end
       end)
    (fun e => emit (logging ERROR "[ActionKeyStroke] Error during key press/release: " (Some e))).

(** [Window.changeLayout] *)
Definition changeLayout (layout_name : string) : M unit :=
  lm ← self layoutManager;
  match layouts lm !! layout_name with
  | Some _ =>
      set_active layout_name;;
      emit (codeslayoutview_show layout_name)
  | None =>
      emit (logging ERROR
              ("[Window changeLayout] Layout change failed: " +:+ layout_name +:+ " not found.")
              None)
  end.

(** [Window.enableRepeatMode] *)
Definition enableRepeatMode : M unit :=
  dbg ← self (fun w => debug (config w));
  (if (dbg : bool) then emit (logging INFO "repeat ON" None) else mret tt);;
  assign (set_repeaton true).

(** [typestate.text[idx - 1] in [" ", "\n", "\t", "\r"]] *)
Definition is_word_boundary (c : option ascii) : bool :=
  match c with
  | Some c =>
      let n := nat_of_ascii c in
      (n =? 32) || (n =? 10) || (n =? 9) || (n =? 13)
  | None => false
  end.

(** The loop [for i in range(len(pred))] of
    [PredictionSelectLayoutAction.perform]: [fuel] iterations are left and
    the loop variable is [i]; the result is [stripsuffix]. *)
Fixpoint find_stripsuffix (text : string) (fuel : nat) (i : Z) : string :=
  match fuel with
  | O => ""
  | S fuel' =>
      let idx := (Py.len text - i)%Z in
      if (idx =? 0)%Z || ((0 <? idx)%Z && is_word_boundary (Py.index text (idx - 1)))
      then Py.slice_from text idx
      else find_stripsuffix text fuel' (i + 1)
  end.

(** [PredictionSelectLayoutAction.perform]; it reads the module-level
    [typestate]. *)
Definition PredictionSelectLayoutAction_perform (target : Z) : M unit :=
  g ← read module_typestate;
  match g with
  | None => mret tt
  | Some _ =>
      predictions ← getpredictions module_typestate;
      if (0 <=? target)%Z && (target <? Z.of_nat (length predictions))%Z then
        match predictions !! Z.to_nat target with
        | Some pred =>
            ts ← deref module_typestate;
            let stripsuffix := find_stripsuffix (text ts) (String.length pred) 0 in
            let newchars := Py.slice_from pred (Py.len stripsuffix) +:+ " " in
            update module_typestate
              (set_text (Py.slice_to (text ts) (Py.len (text ts) - Py.len stripsuffix)
                         +:+ newchars));;
            for_each (Py.chars newchars)
              (fun char => emit (keyboard_press_and_release char))
        | None => mret tt
        end
      else mret tt
  end.

(** [action.perform()] *)
Definition perform (action : Action) : M unit :=
  match action with
  | ActionLegacy key => ActionLegacy_perform key
  | ActionKeyStroke key character toggle_action =>
      ActionKeyStroke_perform key character toggle_action
  | ChangeLayoutAction layout_name => changeLayout layout_name
  | PredictionSelectLayoutAction target => PredictionSelectLayoutAction_perform target
  | RepeatOnAction => enableRepeatMode
  end.

(** ** The engine: [Window]'s key and timer callbacks *)

(** ["".join(str(char) for char in character)] *)
Definition morse_code_of (character : list Z) : string :=
  String.concat "" (map Py.str character).

(** [item.get('code') == morse_code] *)
Definition code_is (morse_code : string) (item : Item) : bool :=
  match code item with
  | Some c => String.eqb c morse_code
  | None => false
  end.

(** [Window.handleMorseCode] *)
Definition handleMorseCode (character : list Z) : M unit :=
  let morse_code := morse_code_of character in
  if String.eqb morse_code "" then
    emit (logging WARNING ("[handleMorseCode] No action found for Morse code: " +:+ morse_code) None)
  else
    try_except
      (active_layout ← get_active_layout;
       let item := List.find (code_is morse_code) (items active_layout) in
       emit (print item);;
       match item with
       | Some it =>
           match _action it with
           | Some action =>
               perform action;;
               emit (logging INFO
                       ("[handleMorseCode] Action performed for Morse code: " +:+ morse_code) None);;
               cfg ← self config;
               if withsound cfg
               then emit (play_audio (default "res/typing_sound.wav" (SoundTyping cfg)))
               else mret tt
           | None =>
               emit (logging ERROR
                       ("[handleMorseCode] '_action' does not have a callable 'perform' method for Morse code: "
                        +:+ morse_code) None)
           end
       | None =>
           emit (logging WARNING
                   ("[handleMorseCode] No action found for Morse code: " +:+ morse_code) None)
       end)
      (fun e =>
         emit (logging ERROR
                 ("[handleMorseCode] Failed to perform action for Morse code: "
                  +:+ morse_code +:+ ". Error: ") (Some e))).

(** [Window.addDit], [Window.addDah] *)
Definition addDit : M unit :=
  assign (fun w => set_currentCharacter (currentCharacter w ++ [1%Z]) w);;
  cfg ← self config;
  (if withsound cfg then emit (play_audio "res/dit_sound.wav") else mret tt);;
  emit codeslayoutview_Dit.

Definition addDah : M unit :=
  assign (fun w => set_currentCharacter (currentCharacter w ++ [2%Z]) w);;
  cfg ← self config;
  (if withsound cfg then emit (play_audio "res/dah_sound.wav") else mret tt);;
  emit codeslayoutview_Dah.

(** [Window.startEndCharacterTimer]: the timer held before is stopped and
    replaced by a single-shot timer of [int(minLetterPause)] ms. *)
Definition startEndCharacterTimer : M unit :=
  cfg ← self config;
  assign (set_endCharacterTimer
            (Some (mkQTimer (Py.int_of_float (minLetterPause cfg)) true))).

(** [Window.endCharacter] *)
Definition endCharacter : M unit :=
  assign (set_endCharacterTimer None);;
  character ← self currentCharacter;
  handleMorseCode character;;
  rep ← self repeaton;
  (if (rep : bool) then
     previous ← self previousCharacter;
     match previous with
     | [] => mret tt
     | _ :: _ =>
         assign (rebind_repeat_character_timer (mkQTimer 300 false))
     end
   else
     assign (fun w => set_previousCharacter (currentCharacter w) w));;
  assign (set_currentCharacter []);;
  emit codeslayoutview_reset.

(** [Window.repeat_key] *)
Definition repeat_key (key : string) (role : nat) : M unit :=
  match role with
  | 0 => addDit
  | 1 => addDah
  | 2 => endCharacter
  | _ => mret tt
  end.

(** [Window.check_disable_combination]: [self.key_state] is defined
    nowhere, so the conjunction raises as soon as [key == 'P'] holds. *)
Definition check_disable_combination (key : string) : M bool :=
  if String.eqb key "P" then raise AttributeError else mret false.

(** [Window.on_press]; [now] is the value [time.time()] returns. *)
Definition on_press (key : string) (role : nat) (now : Q) : M unit :=
  try_except
    (assign (set_repeaton false);;
     assign (set_repeat_character_timer None);;
     combination ← check_disable_combination key;
     if (combination : bool) then
       assign (fun w => set_inputDisabled (negb (inputDisabled w)) w)
     else
       disabled ← self inputDisabled;
       if (disabled : bool) then mret tt
       else
         down ← self lastKeyDownTime;
         match down with
         | Some _ => mret tt
         | None =>
             assign (set_lastKeyDownTime (Some now));;
             w ← self id;
             let one := keySelectionRadioOneKey_isChecked (keySelectionRadio w) in
             (if fastMorseMode (config w) && negb one
              then assign (set_fast_morse_mode_timer
                             (Some (mkRepeatKeyTimer (mkQTimer 100 false) key role)))
              else mret tt);;
             if negb one then
               match role with
               | 0 => addDit
               | 1 => addDah
               | 2 => endCharacter
               | _ => mret tt
               end
             else mret tt
         end)
    (fun e => emit (logging WARNING "[on_press] Error on key press: " (Some e))).

(** [Window.on_release] *)
Definition on_release (key : string) (role : nat) (now : Q) : M unit :=
  try_except
    (assign (set_fast_morse_mode_timer None);;
     down ← self lastKeyDownTime;
     match down with
     | None => mret tt
     | Some t0 =>
         let duration := ((now - t0) * 1000)%Q in
         assign (set_lastKeyDownTime None);;
         w ← self id;
         let one := keySelectionRadioOneKey_isChecked (keySelectionRadio w) in
         let two := keySelectionRadioTwoKey_isChecked (keySelectionRadio w) in
         (if one then
            let maxDitTime := default 350%Q (maxDitTime (config w)) in
            if Py.lt duration maxDitTime then addDit else addDah
          else mret tt);;
         if one || two then startEndCharacterTimer else mret tt
     end)
    (fun e => emit (logging WARNING "[on_release] Error on key release: " (Some e))).

(** [Window.handle_key_event] *)
Definition handle_key_event (key : string) (is_press : bool) (role : nat) (now : Q)
  : M unit :=
  try_except
    (if is_press then on_press key role now else on_release key role now)
    (fun e => emit (logging WARNING "[handle_key_event] Error handling key event: " (Some e))).

(** ** Events delivered to the engine thread *)

Inductive Event :=
| keyEvent (key : string) (is_press : bool) (role : nat) (now : Q)
| endCharacterTimer_timeout
| fast_morse_mode_timer_timeout
| repeat_character_timer_timeout
| orphaned_repeat_timer_timeout.

(** The engine's reaction to an event.  A timer that is not held cannot
    time out: its event is then void.  The last event is the expiry of a
    sticky-repeat timer that [repeat_character_timer] no longer refers
    to; its slot is the same lambda,
    [self.handleMorseCode(self.previousCharacter)]. *)
Definition deliver (e : Event) : M unit :=
  match e with
  | keyEvent key is_press role now => handle_key_event key is_press role now
  | endCharacterTimer_timeout =>
      t ← self endCharacterTimer;
      match t with
      | Some _ => endCharacter
      | None => mret tt
      end
  | fast_morse_mode_timer_timeout =>
      t ← self fast_morse_mode_timer;
      match t with
      | Some q => repeat_key (captured_key q) (captured_role q)
      | None => mret tt
      end
  | repeat_character_timer_timeout =>
      t ← self repeat_character_timer;
      match t with
      | Some _ => previous ← self previousCharacter; handleMorseCode previous
      | None => mret tt
      end
  | orphaned_repeat_timer_timeout =>
      ts ← self orphaned_repeat_timers;
      match ts with
      | _ :: _ => previous ← self previousCharacter; handleMorseCode previous
      | [] => mret tt
      end
  end.

Definition deliver_all (es : list Event) : M unit := for_each es deliver.

(** ** Vocabulary of the specification *)

(** [CodeRepresentation.codetocode]: the form in which the keypad shows
    an item's code. *)
Definition codetocode (code : string) : string :=
  Py.replace "2" "-" (Py.replace "1" "." code).

(** The buffer holding a sequence of symbols. *)
Definition buffer_of (symbols : list MorseSymbol) : list Z := map symbol_value symbols.

(** A symbol as [str] prints its value, and as the keypad shows it. *)
Definition symbol_digit (s : MorseSymbol) : ascii :=
  match s with Dit => "1"%char | Dah => "2"%char end.

Definition symbol_mark (s : MorseSymbol) : ascii :=
  match s with Dit => "."%char | Dah => "-"%char end.

Definition digits (symbols : list MorseSymbol) : string :=
  string_of_list_ascii (map symbol_digit symbols).

Definition marks (symbols : list MorseSymbol) : string :=
  string_of_list_ascii (map symbol_mark symbols).

(** Single-key classification of a press of [duration] ms. *)
Definition classify (cfg : Config) (duration : Q) : MorseSymbol :=
  if Py.lt duration (default 350%Q (maxDitTime cfg)) then Dit else Dah.

(** The states of the character assembler, read off the attributes:
    a character is open while the buffer holds a symbol; otherwise the
    engine repeats the previous character while a sticky-repeat timer
    is running, held or orphaned, and is idle when none is. *)
Inductive AssemblerState := Idle | Accumulating | RepeatingPrevious.

Definition assembler_state (w : Window) : AssemblerState :=
  match currentCharacter w with
  | _ :: _ => Accumulating
  | [] =>
      match repeat_character_timer w, orphaned_repeat_timers w with
      | None, [] => Idle
      | _, _ => RepeatingPrevious
      end
  end.

(** An event finalizes a character when it runs [endCharacter], whose last
    statement is the only call of [codeslayoutview.reset()]. *)
Definition finalizes (e : Event) (m : Machine) : Prop :=
  In codeslayoutview_reset (calls (deliver e) m).

(** An action is dispatched when [handleMorseCode] reports it. *)
Definition is_dispatch (e : Effect) : bool :=
  match e with
  | logging INFO msg _ =>
      String.prefix "[handleMorseCode] Action performed for Morse code: " msg
  | _ => false
  end.

(** The number of expiries of a periodic timer of period [interval] ms
    that fall strictly before [held] ms have passed since it was started. *)
Definition expiries_before (interval held : Z) : nat :=
  Z.to_nat ((held - 1) / interval).

(** A switch held for [held] ms: the press at [t0], the expiries of the
    fast-repeat timer the press armed that fall before the release, then
    the release.  The release reaches the engine as a posted event, which
    the event loop delivers before it activates a timer that expires at
    the same instant; such an expiry is therefore not delivered. *)
Definition hold (key : string) (role : nat) (t0 : Q) (held : Z) : M unit :=
  on_press key role t0;;
  t ← self fast_morse_mode_timer;
  match t with
  | Some q =>
      deliver_all (repeat fast_morse_mode_timer_timeout
                     (expiries_before (interval (timer q)) held))
  | None => mret tt
  end;;
  on_release key role (t0 + inject_Z held / 1000)%Q.

(** The machine with the repeat flag off and no sticky-repeat timer. *)
Definition repeat_cleared (m : Machine) : Machine :=
  set_window (set_repeat_character_timer None (set_repeaton false (window m))) m.

(** A press of the Tertiary switch (role 2), or an expiry of the
    fast-repeat timer that such a press armed and that runs while the
    switch is held. *)
Definition tertiary_press (e : Event) (m : Machine) : Prop :=
  match e with
  | keyEvent _ true 2 _ => True
  | fast_morse_mode_timer_timeout =>
      exists q, fast_morse_mode_timer (window m) = Some q /\ captured_role q = 2
  | _ => False
  end.

(** The guards a press has to pass in [on_press] before its role is
    looked at: the key is not the one [check_disable_combination] fails
    on, input is enabled and no press is open.  The other events have no
    guard of this kind. *)
Definition accepted (e : Event) (m : Machine) : Prop :=
  match e with
  | keyEvent key true _ _ =>
      key <> "P" /\
      inputDisabled (window m) = false /\
      lastKeyDownTime (window m) = None
  | _ => True
  end.

(** [Window.__init__] followed by [Window.init]: the attributes with
    which the engine starts. *)
Definition init (cfg : Config) (mode : InputMode) (lm : LayoutManager)
    (ts : option TypeState) : Window :=
  mkWindow cfg mode lm ts [] [] None None false None None false [].

Definition boot (cfg : Config) (mode : InputMode) (lm : LayoutManager)
    (ts : option TypeState) : Machine :=
  mkMachine (init cfg mode lm ts) None (fun _ => false).

(** [DEFAULT_CONFIG] *)
Definition DEFAULT_CONFIG : Config :=
  mkConfig (Some 350%Q) 1000%Q false true (Some "res/typing_sound.wav") true.

(** A small layout in the format of [layouts.json]: codes are written
    with the digits [1] and [2]. *)
Definition sample_layout : Layout :=
  mkLayout
    [ mkItem (Some "1") (Some (ActionKeyStroke "e" (Some "e") false));
      mkItem (Some "2") (Some (ActionKeyStroke "t" (Some "t") false));
      mkItem (Some "12") (Some (ActionKeyStroke "a" (Some "a") false));
      mkItem (Some "2111") (Some (ActionKeyStroke "b" (Some "b") false));
      mkItem (Some "121") (Some (ActionKeyStroke "r" (Some "r") false));
      mkItem (Some "1122") (Some (ActionKeyStroke "space" (Some " ") false));
      mkItem (Some "2222") (Some RepeatOnAction);
      mkItem (Some "1111") (Some (PredictionSelectLayoutAction 0)) ].

Definition sample_layouts : LayoutManager :=
  mkLayoutManager {[ "typing" := sample_layout ]} (Some "typing").

(** A layout with one letter and the repeat command: the code [2] is
    in no entry. *)
Definition repeat_layouts : LayoutManager :=
  mkLayoutManager
    {[ "typing" :=
         mkLayout [ mkItem (Some "1") (Some (ActionKeyStroke "e" (Some "e") false));
                    mkItem (Some "2222") (Some RepeatOnAction) ] ]}
    (Some "typing").

(** A layout whose code is written with the marks the keypad shows. *)
Definition marked_layouts : LayoutManager :=
  mkLayoutManager
    {[ "typing" := mkLayout [mkItem (Some ".-") (Some (ActionKeyStroke "a" (Some "a") false))] ]}
    (Some "typing").

(** A [TypeState] as [Window.init] creates it for the typing layout:
    no text, no predictions yet, the given abbreviation table. *)
Definition new_TypeState (predict : string -> Outcome (list string))
    (table : gmap string string) : TypeState :=
  mkTypeState "" None predict table ExpNone (Some 0).

(** The abbreviation table of the scenario, and the keystroke actions
    [set_actions] builds for the keys B, R and SPACE of [key_data]. *)
Definition brb_table : gmap string string := {[ "brb" := "be right back" ]}.

Definition key_B : Action := ActionKeyStroke "b" (Some "b") false.
Definition key_R : Action := ActionKeyStroke "r" (Some "r") false.
Definition key_SPACE : Action := ActionKeyStroke "space" (Some " ") false.

Definition typing_machine (table : gmap string string) : Machine :=
  boot DEFAULT_CONFIG TwoKey sample_layouts
    (Some (new_TypeState (fun _ => Returns []) table)).

(** What a dispatched action may change: the layout manager, the
    [TypeState] objects and the repeat flag, which it can only turn on.
    The code buffer, the snapshot of the previous character, the open
    press and the timers, held or orphaned, are out of its reach, and no
    action binds the module-level [typestate]. *)
Definition dispatch_frame (m m' : Machine) : Prop :=
  let w := window m in
  let w' := window m' in
  config w' = config w /\
  keySelectionRadio w' = keySelectionRadio w /\
  currentCharacter w' = currentCharacter w /\
  previousCharacter w' = previousCharacter w /\
  lastKeyDownTime w' = lastKeyDownTime w /\
  endCharacterTimer w' = endCharacterTimer w /\
  inputDisabled w' = inputDisabled w /\
  fast_morse_mode_timer w' = fast_morse_mode_timer w /\
  repeat_character_timer w' = repeat_character_timer w /\
  (repeaton w = true -> repeaton w' = true) /\
  keyboard_is_pressed m' = keyboard_is_pressed m /\
  (global_typestate m = None -> global_typestate m' = None) /\
  orphaned_repeat_timers w' = orphaned_repeat_timers w.

(** A computation keeps [R] and makes only calls that satisfy [ok]. *)
Definition keeps (R : Machine -> Machine -> Prop) (ok : Effect -> Prop)
    {A} (c : M A) : Prop :=
  forall m, R m (exec c m) /\ Forall ok (calls c m).

Definition not_reset (e : Effect) : Prop := e <> codeslayoutview_reset.

(** What [endCharacter] does once [handleMorseCode] has returned. *)
Definition close_character (w : Window) : Window :=
  set_currentCharacter []
    (if repeaton w then
       match previousCharacter w with
       | [] => w
       | _ :: _ => rebind_repeat_character_timer (mkQTimer 300 false) w
       end
     else set_previousCharacter (currentCharacter w) w).

(** ** Keying a sequence of symbols *)

(** One stroke: a switch pressed at one time and released at another. *)
Record Stroke := mkStroke {
  stroke_key : string;
  stroke_role : nat;
  pressed_at : Q;
  released_at : Q
}.

Definition stroke_events (s : Stroke) : list Event :=
  [keyEvent (stroke_key s) true (stroke_role s) (pressed_at s);
   keyEvent (stroke_key s) false (stroke_role s) (released_at s)].

(** The symbol a stroke stands for: in one-key mode the duration decides,
    whatever the role; otherwise role 0 is a [Dit] and role 1 a [Dah], and
    the other roles stand for no symbol. *)
Definition stroke_symbol (w : Window) (s : Stroke) : option MorseSymbol :=
  match keySelectionRadio w with
  | OneKey => Some (classify (config w) ((released_at s - pressed_at s) * 1000))
  | _ =>
      match stroke_role s with
      | 0 => Some Dit
      | 1 => Some Dah
      | _ => None
      end
  end.

(** The events of a sequence of strokes, one after the other. *)
Definition keying (ss : list Stroke) : list Event :=
  concat (map stroke_events ss).

(** The window after a stroke that keyed [sym]: the symbol is in the
    buffer, no press is open, and in the one- and two-key modes the
    boundary timer has been restarted. *)
Definition stroked (sym : MorseSymbol) (w : Window) : Window :=
  mkWindow (config w) (keySelectionRadio w) (layoutManager w) (typestate w)
    (currentCharacter w ++ [symbol_value sym]) (previousCharacter w) None
    (match keySelectionRadio w with
     | ThreeKey => endCharacterTimer w
     | _ => Some (mkQTimer (Py.int_of_float (minLetterPause (config w))) true)
     end)
    (inputDisabled w) None None false (orphaned_repeat_timers w).

(** ** What each kind of action can reach *)

(** The attribute an action of each class assigns to, everything else
    being as before: a legacy action assigns to nothing, a keystroke to
    the window's [TypeState], a layout change to the name of the active
    layout, the repeat command to the repeat flag.  A prediction select
    works on the module-level [typestate] and does nothing without it.
    (Which keys the keyboard reports as pressed after a keystroke is the
    operating system's matter and is left open.) *)
Definition touches (action : Action) (m m' : Machine) : Prop :=
  match action with
  | ActionLegacy _ => m' = m
  | ActionKeyStroke _ _ _ =>
      exists o,
        window m' = set_typestate o (window m) /\
        global_typestate m' = global_typestate m
  | ChangeLayoutAction _ =>
      exists n,
        m' = set_window
               (set_layoutManager
                  (mkLayoutManager (layouts (layoutManager (window m))) n) (window m)) m
  | PredictionSelectLayoutAction _ => global_typestate m = None -> m' = m
  | RepeatOnAction => m' = set_window (set_repeaton true (window m)) m
  end.

Definition typestate_only (m m' : Machine) : Prop :=
  exists o, m' = set_window (set_typestate o (window m)) m.

Definition any_call (e : Effect) : Prop := True.

(** ** The text buffer under a keystroke *)

(** The text of the [TypeState] once [ActionKeyStroke.perform] has popped
    (for the keys [backspace] and [delete]) or pushed the item's
    character; there is none when the item has no character to push. *)
Definition text_after_key (key : string) (character : option string) (t : string)
  : option string :=
  if String.eqb key "backspace" || String.eqb key "delete"
  then Some (Py.drop_last t)
  else (fun c => t +:+ c) <$> character.

(** ** The keypad view *)

(** [s[i]] as Python evaluates it: a negative index counts from the end,
    and an index outside the string raises [IndexError]. *)
Definition getitem (s : string) (i : Z) : Outcome ascii :=
  let j := if (i <? 0)%Z then (i + Py.len s)%Z else i in
  if (j <? 0)%Z then Raises IndexError
  else match String.get (Z.to_nat j) s with
       | Some c => Returns c
       | None => Raises IndexError
       end.

(** [CodeRepresentation], the cell of the keypad that shows one item: its
    code in marks, the number of marks keyed so far and whether the cell
    is still in the running.  [updateView], which every method ends with,
    renders these attributes and sets the label's enabled state to
    [is_enabled], which [enabled()] reads back; the rendering itself is
    left out. *)
Module CodeRepresentation.

Record t := mk {
  code : string;
  disabledchars : Z;
  is_enabled : bool
}.

(** [__init__] *)
Definition init (item_code : string) : t := mk (codetocode item_code) 0 true.

Definition enabled (cr : t) : bool := is_enabled cr.

Definition enable (cr : t) : t := mk (code cr) (disabledchars cr) true.

Definition disable (cr : t) : t := mk (code cr) (disabledchars cr) false.

Definition tickDitDah (cr : t) : t :=
  let d := (disabledchars cr + 1)%Z in
  mk (code cr) d (if (Py.len (code cr) <? d)%Z then false else is_enabled cr).

Definition reset (cr : t) : t :=
  let cr1 := enable cr in
  tickDitDah (mk (code cr1) (-1) (is_enabled cr1)).

(** The body shared by [Dit] and [Dah], for the mark [.] or [-]. *)
Definition tick_if (mark : ascii) (cr : t) : Outcome t :=
  if enabled cr then
    if (disabledchars cr <? Py.len (code cr))%Z then
      match getitem (code cr) (disabledchars cr) with
      | Returns c => Returns (if Ascii.eqb c mark then tickDitDah cr else disable cr)
      | Raises e => Raises e
      end
    else Returns (disable cr)
  else Returns cr.

Definition Dit : t -> Outcome t := tick_if "."%char.

Definition Dah : t -> Outcome t := tick_if "-"%char.

End CodeRepresentation.

(** The calls the engine makes on the keypad, which passes each of them
    on to every cell. *)
Inductive ViewCall := view_Dit | view_Dah | view_reset.

Definition view_call (e : Effect) : option ViewCall :=
  match e with
  | codeslayoutview_Dit => Some view_Dit
  | codeslayoutview_Dah => Some view_Dah
  | codeslayoutview_reset => Some view_reset
  | _ => None
  end.

Definition symbol_call (s : MorseSymbol) : ViewCall :=
  match s with Dit => view_Dit | Dah => view_Dah end.

(** One cell under a sequence of calls; a call that raises ends it. *)
Fixpoint cell_run (cs : list ViewCall) (cr : CodeRepresentation.t)
  : Outcome CodeRepresentation.t :=
  match cs with
  | [] => Returns cr
  | c :: rest =>
      match (match c with
             | view_Dit => CodeRepresentation.Dit cr
             | view_Dah => CodeRepresentation.Dah cr
             | view_reset => Returns (CodeRepresentation.reset cr)
             end) with
      | Returns cr' => cell_run rest cr'
      | Raises e => Raises e
      end
  end.

(** ** Key bindings *)

(** [s.upper()] on ASCII letters. *)
Definition upper_char (c : ascii) : ascii :=
  let n := nat_of_ascii c in
  if (97 <=? n) && (n <=? 122) then ascii_of_nat (n - 32) else c.

Fixpoint upper (s : string) : string :=
  match s with
  | EmptyString => EmptyString
  | String c rest => String (upper_char c) (upper rest)
  end.

(** [d.get(key)] on a dict built by assignments in the order of the
    list: the last value assigned to a key is the one it holds. *)
Fixpoint dict_get {A} (key : string) (entries : list (string * A)) : option A :=
  match entries with
  | [] => None
  | (k, v) :: rest =>
      match dict_get key rest with
      | Some v' => Some v'
      | None => if String.eqb k key then Some v else None
      end
  end.

(** [xs.index(x)]; [None] stands for [ValueError]. *)
Fixpoint list_index (x : string) (xs : list string) : option nat :=
  match xs with
  | [] => None
  | y :: rest => if String.eqb y x then Some 0 else S <$> list_index x rest
  end.

Module ConfigManager.

Record KeyData := mkKeyData {
  label : string;
  key_code : string;
  character : option string;
  arg : option Z
}.

(** [self.key_data], entry by entry as [__init__] lists them. *)
Definition key_data : list (string * KeyData) :=
  [
    ("A", mkKeyData "a" "a" (Some "a") None);
    ("B", mkKeyData "b" "b" (Some "b") None);
    ("C", mkKeyData "c" "c" (Some "c") None);
    ("D", mkKeyData "d" "d" (Some "d") None);
    ("E", mkKeyData "e" "e" (Some "e") None);
    ("F", mkKeyData "f" "f" (Some "f") None);
    ("G", mkKeyData "g" "g" (Some "g") None);
    ("H", mkKeyData "h" "h" (Some "h") None);
    ("I", mkKeyData "i" "i" (Some "i") None);
    ("J", mkKeyData "j" "j" (Some "j") None);
    ("K", mkKeyData "k" "k" (Some "k") None);
    ("L", mkKeyData "l" "l" (Some "l") None);
    ("M", mkKeyData "m" "m" (Some "m") None);
    ("N", mkKeyData "n" "n" (Some "n") None);
    ("O", mkKeyData "o" "o" (Some "o") None);
    ("P", mkKeyData "p" "p" (Some "p") None);
    ("Q", mkKeyData "q" "q" (Some "q") None);
    ("R", mkKeyData "r" "r" (Some "r") None);
    ("S", mkKeyData "s" "s" (Some "s") None);
    ("T", mkKeyData "t" "t" (Some "t") None);
    ("U", mkKeyData "u" "u" (Some "u") None);
    ("V", mkKeyData "v" "v" (Some "v") None);
    ("W", mkKeyData "w" "w" (Some "w") None);
    ("X", mkKeyData "x" "x" (Some "x") None);
    ("Y", mkKeyData "y" "y" (Some "y") None);
    ("Z", mkKeyData "z" "z" (Some "z") None);
    ("ONE", mkKeyData "1" "1" (Some "1") None);
    ("TWO", mkKeyData "2" "2" (Some "2") None);
    ("THREE", mkKeyData "3" "3" (Some "3") None);
    ("FOUR", mkKeyData "4" "4" (Some "4") None);
    ("FIVE", mkKeyData "5" "5" (Some "5") None);
    ("SIX", mkKeyData "6" "6" (Some "6") None);
    ("SEVEN", mkKeyData "7" "7" (Some "7") None);
    ("EIGHT", mkKeyData "8" "8" (Some "8") None);
    ("NINE", mkKeyData "9" "9" (Some "9") None);
    ("ZERO", mkKeyData "0" "0" (Some "0") None);
    ("DOT", mkKeyData "." "." (Some ".") None);
    ("COMMA", mkKeyData "," "," (Some ",") None);
    ("QUESTION", mkKeyData "?" "/" (Some "?") None);
    ("EXCLAMATION", mkKeyData "!" "1" (Some "!") None);
    ("COLON", mkKeyData ":" ";" (Some ":") None);
    ("SEMICOLON", mkKeyData ";" ";" (Some ";") None);
    ("AT", mkKeyData "@" "2" (Some "@") None);
    ("HASH", mkKeyData "#" "3" (Some "#") None);
    ("DOLLAR", mkKeyData "$" "4" (Some "$") None);
    ("PERCENT", mkKeyData "%" "5" (Some "%") None);
    ("AMPERSAND", mkKeyData "&" "7" (Some "&") None);
    ("STAR", mkKeyData "*" "*" (Some "*") None);
    ("PLUS", mkKeyData "+" "=" (Some "+") None);
    ("MINUS", mkKeyData "-" "-" (Some "-") None);
    ("EQUALS", mkKeyData "=" "=" (Some "=") None);
    ("FSLASH", mkKeyData "/" "/" (Some "/") None);
    ("BSLASH", mkKeyData "\" "\" (Some "\") None);
    ("SINGLEQUOTE", mkKeyData "'" "'" (Some "'") None);
    ("DOUBLEQUOTE", mkKeyData (String (ascii_of_nat 34) "") (String (ascii_of_nat 34) "") (Some (String (ascii_of_nat 34) "")) None);
    ("OPENBRACKET", mkKeyData "(" "9" (Some "(") None);
    ("CLOSEBRACKET", mkKeyData ")" "0" (Some ")") None);
    ("LESSTHAN", mkKeyData "<" "," (Some "<") None);
    ("MORETHAN", mkKeyData ">" "." (Some ">") None);
    ("CIRCONFLEX", mkKeyData "^" "6" (Some "^") None);
    ("ENTER", mkKeyData "enter" "enter" (Some (String (ascii_of_nat 10) "")) None);
    ("SPACE", mkKeyData "space" "space" (Some " ") None);
    ("BACKSPACE", mkKeyData "bckspc" "backspace" (Some (String (ascii_of_nat 8) "")) None);
    ("TAB", mkKeyData "tab" "tab" (Some (String (ascii_of_nat 9) "")) None);
    ("UNDERSCORE", mkKeyData "underscore" "_" (Some "_") None);
    ("PAGEUP", mkKeyData "pageup" "page_up" None None);
    ("PAGEDOWN", mkKeyData "pagedwn" "page_down" None None);
    ("LEFTARROW", mkKeyData "left" "left" None None);
    ("RIGHTARROW", mkKeyData "right" "right" None None);
    ("UPARROW", mkKeyData "up" "up" None None);
    ("DOWNARROW", mkKeyData "down" "down" None None);
    ("ESCAPE", mkKeyData "esc" "esc" None None);
    ("HOME", mkKeyData "home" "home" None None);
    ("END", mkKeyData "end" "end" None None);
    ("DELETE", mkKeyData "del" "delete" None None);
    ("SHIFT", mkKeyData "shift" "shift" None None);
    ("RSHIFT", mkKeyData "rshift" "right shift" None None);
    ("LSHIFT", mkKeyData "lshift" "left shift" None None);
    ("CTRL", mkKeyData "ctrl" "trl" None None);
    ("RCTRL", mkKeyData "rctrl" "right ctrl" None None);
    ("LCTRL", mkKeyData "lctrl" "ctrl" None None);
    ("ALT", mkKeyData "alt" "alt" None None);
    ("INSERT", mkKeyData "insert" "insert" None None);
    ("WINDOWS", mkKeyData "win" "cmd" None None);
    ("STARTMENU", mkKeyData "startmenu" "start" None None);
    ("CAPSLOCK", mkKeyData "caps" "caps lock" None None);
    ("F1", mkKeyData "F1" "f1" None None);
    ("F2", mkKeyData "F2" "f2" None None);
    ("F3", mkKeyData "F3" "f3" None None);
    ("F4", mkKeyData "F4" "f4" None None);
    ("F5", mkKeyData "F5" "f5" None None);
    ("F6", mkKeyData "F6" "f6" None None);
    ("F7", mkKeyData "F7" "f7" None None);
    ("F8", mkKeyData "F8" "f8" None None);
    ("F9", mkKeyData "F9" "f9" None None);
    ("F10", mkKeyData "F10" "f10" None None);
    ("F11", mkKeyData "F11" "f11" None None);
    ("F12", mkKeyData "F12" "f12" None None);
    ("REPEATMODE", mkKeyData "repeat" "REPEATMODE" None (Some 0%Z));
    ("SOUND", mkKeyData "snd" "unknown" None (Some 8%Z));
    ("CODESET", mkKeyData "code" "unknown" None (Some 9%Z));
    ("MOUSERIGHT5", mkKeyData "ms right 5" "MOUSERIGHT5" None (Some 2%Z));
    ("MOUSEUP5", mkKeyData "ms up 5" "MOUSEUP5" None (Some 3%Z));
    ("MOUSECLICKLEFT", mkKeyData "ms clkleft" "MOUSECLICKLEFT" None (Some 4%Z));
    ("MOUSEDBLCLICKLEFT", mkKeyData "ms dblclkleft" "MOUSEDBLCLICKLEFT" None (Some 5%Z));
    ("MOUSECLKHLDLEFT", mkKeyData "ms hldleft" "MOUSECLKHLDLEFT" None (Some 6%Z));
    ("MOUSEUPLEFT5", mkKeyData "ms leftup 5" "MOUSEUPLEFT5" None (Some 7%Z));
    ("MOUSEDOWNLEFT5", mkKeyData "ms leftdown 5" "MOUSEDOWNLEFT5" None (Some 8%Z));
    ("MOUSERELEASEHOLD", mkKeyData "ms release" "MOUSERELEASEHOLD" None (Some 9%Z));
    ("MOUSELEFT5", mkKeyData "ms left 5" "MOUSELEFT5" None (Some 0%Z));
    ("MOUSEDOWN5", mkKeyData "ms down 5" "MOUSEDOWN5" None (Some 1%Z));
    ("MOUSECLICKRIGHT", mkKeyData "ms clkright" "MOUSECLICKRIGHT" None (Some 2%Z));
    ("MOUSEDBLCLICKRIGHT", mkKeyData "ms dblclkright" "MOUSEDBLCLICKRIGHT" None (Some 3%Z));
    ("MOUSECLKHLDRIGHT", mkKeyData "ms hldright" "MOUSECLKHLDRIGHT" None (Some 4%Z));
    ("MOUSEUPRIGHT5", mkKeyData "ms rightup 5" "MOUSEUPRIGHT5" None (Some 5%Z));
    ("MOUSEDOWNRIGHT5", mkKeyData "ms rightdown 5" "MOUSEDOWNRIGHT5" None (Some 6%Z));
    ("MOUSENORMALMODE", mkKeyData "normal mode" "NORMALMODE" None (Some 7%Z));
    ("MOUSEUP40", mkKeyData "ms up 40" "MOUSEUP40" None (Some 8%Z));
    ("MOUSEUP250", mkKeyData "ms up 250" "MOUSEUP250" None (Some 9%Z));
    ("MOUSEDOWN40", mkKeyData "ms down 40" "MOUSEDOWN40" None (Some 0%Z));
    ("MOUSEDOWN250", mkKeyData "ms down 250" "MOUSEDOWN250" None (Some 1%Z));
    ("MOUSELEFT40", mkKeyData "ms left 40" "MOUSELEFT40" None (Some 2%Z));
    ("MOUSELEFT250", mkKeyData "ms left 250" "MOUSELEFT250" None (Some 3%Z));
    ("MOUSERIGHT40", mkKeyData "ms right 40" "MOUSERIGHT40" None (Some 4%Z));
    ("MOUSERIGHT250", mkKeyData "ms right 250" "MOUSERIGHT250" None (Some 5%Z));
    ("MOUSEUPLEFT40", mkKeyData "ms leftup 40" "MOUSEUPLEFT40" None (Some 6%Z));
    ("MOUSEUPLEFT250", mkKeyData "ms leftup 250" "MOUSEUPLEFT250" None (Some 7%Z));
    ("MOUSEDOWNLEFT40", mkKeyData "ms leftdown 40" "MOUSEDOWNLEFT40" None (Some 8%Z));
    ("MOUSEDOWNLEFT250", mkKeyData "ms leftdown 250" "MOUSEDOWNLEFT250" None (Some 9%Z));
    ("MOUSEUPRIGHT40", mkKeyData "ms rightup 40" "MOUSEUPRIGHT40" None (Some 0%Z));
    ("MOUSEUPRIGHT250", mkKeyData "ms rightup 250" "MOUSEUPRIGHT250" None (Some 1%Z));
    ("MOUSEDOWNRIGHT40", mkKeyData "ms rightdown 40" "MOUSEDOWNRIGHT40" None (Some 2%Z));
    ("MOUSEDOWNRIGHT250", mkKeyData "ms rightdown 250" "MOUSEDOWNRIGHT250" None (Some 3%Z))
  ].

(** [initKeystrokeMap]: the [KeyStroke] of each key under its upper-case
    name. *)
Definition keystrokemap : list (string * KeyData) :=
  map (fun entry => (upper (fst entry), snd entry)) key_data.

(** What [initActions] stores under a name: a function of the layout
    item.  The functions stored for the keys of [key_data] and for
    [REPEATMODE] do not look at the item. *)
Inductive ActionFactory :=
| fixed (action : Action)
| change_layout
| prediction_select
| keystroke_of_item.

(** The action [initActions] builds for a key of [key_data]; no entry of
    [key_data] has a [toggle_action], so that it is [False] throughout. *)
Definition key_action (key : string) (value : KeyData) : Action :=
  if String.prefix "MOUSE" key
  then ActionLegacy (Some (key_code value))
  else ActionKeyStroke (key_code value) (character value) false.

(** [initActions] *)
Definition initActions : list (string * ActionFactory) :=
  map (fun entry => (upper (fst entry), fixed (key_action (fst entry) (snd entry)))) key_data
    ++ [ ("CHANGELAYOUT", change_layout);
         ("PREDICTION_SELECT", prediction_select);
         ("KEYSTROKE", keystroke_of_item);
         ("REPEATMODE", fixed RepeatOnAction) ].

End ConfigManager.

(** The three keys of the configuration; [None] stands for a key that
    the configuration does not hold. *)
Record KeyConfig := mkKeyConfig {
  keyone : option string;
  keytwo : option string;
  keythree : option string
}.

(** The names the settings dialog offers for the three keys. *)
Definition morse_keys : list string :=
  ["SPACE"; "ENTER"; "ONE"; "TWO"; "Z"; "F8"; "F9"; "RCTRL"; "LCTRL"; "RSHIFT";
   "LSHIFT"; "ALT"; "CTRL"].

(** One round of the loop of [Window.get_configured_keys]. *)
Definition configured_key (config_key : string) : Outcome string :=
  match dict_get (upper config_key) ConfigManager.keystrokemap with
  | Some stroke => Returns (ConfigManager.key_code stroke)
  | None => Raises ValueError
  end.

(** [Window.get_configured_keys] *)
Definition get_configured_keys (cfg : KeyConfig) : Outcome (list string) :=
  match configured_key (default "SPACE" (keyone cfg)) with
  | Raises e => Raises e
  | Returns c1 =>
      match configured_key (default "ENTER" (keytwo cfg)) with
      | Raises e => Raises e
      | Returns c2 =>
          match configured_key (default "RIGHT CTRL" (keythree cfg)) with
          | Raises e => Raises e
          | Returns c3 => Returns [c1; c2; c3]
          end
      end
  end.

(** [KeyListenerThread.on_press] and [on_release]: the event the thread
    emits for a key of the given name, if any; a name that is not
    configured is logged and dropped. *)
Definition listener_event (configured_keys : list string) (name : string)
    (is_press : bool) (now : Q) : option Event :=
  (fun role => keyEvent name is_press role now) <$> list_index name configured_keys.

(** [warn_user] of [Window.goForIt], on the names chosen for the keys. *)
Definition warn_user (mode : InputMode) (key_one key_two key_three : string) : bool :=
  (keySelectionRadioTwoKey_isChecked mode && String.eqb key_one key_two)
  || (match mode with ThreeKey => true | _ => false end
      && (String.eqb key_one key_two || String.eqb key_one key_three
          || String.eqb key_two key_three)).

(** A call of the [mouse] module. *)
Definition is_mouse_call (e : Effect) : bool :=
  match e with
  | mouse_move _ _ | mouse_click _ | mouse_press _ | mouse_release _ => true
  | _ => false
  end.

(** The roles the listener gives to the three configured keys, checked
    for one choice of names: the first key has role 0, in the two- and
    three-key modes the second has role 1, and in three-key mode the
    third has role 2. *)
Definition roles_in_order (mode : InputMode) (key_one key_two key_three : string) : bool :=
  match get_configured_keys (mkKeyConfig (Some key_one) (Some key_two) (Some key_three)) with
  | Returns [c1; c2; c3] =>
      let keys := [c1; c2; c3] in
      bool_decide (list_index c1 keys = Some 0)
      && (keySelectionRadioOneKey_isChecked mode
          || bool_decide (list_index c2 keys = Some 1))
      && (negb (match mode with ThreeKey => true | _ => false end)
          || bool_decide (list_index c3 keys = Some 2))
  | _ => false
  end.

(** ** Words in the text buffer *)

(** No character of [s] is one that [PredictionSelectLayoutAction.perform]
    takes for the end of a word. *)
Fixpoint boundary_free (s : string) : bool :=
  match s with
  | EmptyString => true
  | String c rest => negb (is_word_boundary (Some c)) && boundary_free rest
  end.

(** [s] is empty or ends with such a character. *)
Definition ends_at_boundary (s : string) : bool :=
  match s with
  | EmptyString => true
  | _ => is_word_boundary (String.get (String.length s - 1) s)
  end.

(** No character of [s] is white space for [str.split()]. *)
Fixpoint no_space (s : string) : bool :=
  match s with
  | EmptyString => true
  | String c rest => negb (Py.isspace c) && no_space rest
  end.

(** The symbol a switch of the given role keys in the two- and
    three-key modes. *)
Definition role_symbol (role : nat) : option MorseSymbol :=
  match role with
  | 0 => Some Dit
  | 1 => Some Dah
  | _ => None
  end.

(** * Proofs *)

Lemma lt_spec (a b : Q) : Py.lt a b = true <-> (a < b)%Q.
Proof. unfold Py.lt, Qlt. apply Z.ltb_lt. Qed.

Lemma lt_false_spec (a b : Q) : Py.lt a b = false <-> (b <= a)%Q.
Proof. unfold Py.lt, Qle. rewrite Z.ltb_ge. reflexivity. Qed.


(** ** Reasoning about callbacks *)

Section Keeps.

Variable R : Machine -> Machine -> Prop.
Variable ok : Effect -> Prop.
Hypothesis R_refl : forall m, R m m.
Hypothesis R_trans : forall m1 m2 m3, R m1 m2 -> R m2 m3 -> R m1 m3.

Lemma keeps_ret {A} (a : A) : keeps R ok (mret a).
Proof. intros m. split; [apply R_refl | constructor]. Qed.

Lemma keeps_raise {A} (e : Exn) : keeps R ok (@raise A e).
Proof. intros m. split; [apply R_refl | constructor]. Qed.

Lemma keeps_emit (e : Effect) : ok e -> keeps R ok (emit e).
Proof. intros H m. split; [apply R_refl | repeat constructor; exact H]. Qed.

Lemma keeps_self {A} (attr : Window -> A) : keeps R ok (self attr).
Proof. intros m. split; [apply R_refl | constructor]. Qed.

Lemma keeps_read (r : TypeStateRef) : keeps R ok (read r).
Proof. intros m. split; [apply R_refl | constructor]. Qed.

Lemma keeps_bind {A B} (c : M A) (k : A -> M B) :
  keeps R ok c -> (forall a, keeps R ok (k a)) -> keeps R ok (c ≫= k).
Proof.
  intros Hc Hk m. specialize (Hc m).
  unfold exec, calls, mbind, M_bind, bind in *.
  destruct (c m) as [[[a|e] m1] out1]; simpl in *; [|exact Hc].
  specialize (Hk a m1). unfold exec, calls in Hk.
  destruct (k a m1) as [[r m2] out2]; simpl in *.
  destruct Hc as [Hc1 Hc2], Hk as [Hk1 Hk2].
  split; [eapply R_trans; eassumption | apply Forall_app; split; assumption].
Qed.

Lemma keeps_try_except (body : M unit) (handler : Exn -> M unit) :
  keeps R ok body -> (forall e, keeps R ok (handler e)) ->
  keeps R ok (try_except body handler).
Proof.
  intros Hc Hk m. specialize (Hc m).
  unfold exec, calls, try_except in *.
  destruct (body m) as [[[a|e] m1] out1]; simpl in *; [exact Hc|].
  specialize (Hk e m1). unfold exec, calls in Hk.
  destruct (handler e m1) as [[r m2] out2]; simpl in *.
  destruct Hc as [Hc1 Hc2], Hk as [Hk1 Hk2].
  split; [eapply R_trans; eassumption | apply Forall_app; split; assumption].
Qed.

Lemma keeps_for_each {A} (xs : list A) (body : A -> M unit) :
  (forall x, keeps R ok (body x)) -> keeps R ok (for_each xs body).
Proof.
  intros H. induction xs as [|x xs IH]; simpl.
  - apply (keeps_ret tt).
  - apply (keeps_bind (body x) (fun _ => for_each xs body)); [apply H | intros _; exact IH].
Qed.

Lemma keeps_assign (upd : Window -> Window) :
  (forall m, R m (set_window (upd (window m)) m)) -> keeps R ok (assign upd).
Proof. intros H m. split; [apply H | constructor]. Qed.

Lemma keeps_write (r : TypeStateRef) (ts : TypeState) :
  (forall m, R m (exec (write r ts) m)) -> keeps R ok (write r ts).
Proof. intros H m. split; [apply H | constructor]. Qed.

End Keeps.

(** A [try] block whose handler only logs always returns. *)
Lemma try_except_returns (body : M unit) (handler : Exn -> M unit) m :
  (forall e m', outcome (handler e) m' = Returns tt) ->
  outcome (try_except body handler) m = Returns tt.
Proof.
  intros H. unfold outcome, try_except in *.
  destruct (body m) as [[[[]|e] m1] out1]; simpl; [reflexivity|].
  specialize (H e m1). unfold outcome in H.
  destruct (handler e m1) as [[r m2] out2]; exact H.
Qed.

Lemma dispatch_frame_refl m : dispatch_frame m m.
Proof. unfold dispatch_frame; tauto. Qed.

Lemma dispatch_frame_trans m1 m2 m3 :
  dispatch_frame m1 m2 -> dispatch_frame m2 m3 -> dispatch_frame m1 m3.
Proof.
  unfold dispatch_frame. simpl. intros H1 H2.
  destruct H1 as (?&?&?&?&?&?&?&?&?&?&?&?&?), H2 as (?&?&?&?&?&?&?&?&?&?&?&?&?).
  repeat split; try congruence; auto.
Qed.

(** ** Dispatch leaves the assembler's attributes alone *)

Create HintDb frame.

Ltac frame_side :=
  try exact dispatch_frame_refl; try exact dispatch_frame_trans;
  try (unfold not_reset; discriminate);
  lazymatch goal with
  | |- forall _, keeps _ _ _ => intro
  | |- _ => idtac
  end.

Ltac frame_step :=
  first
    [ apply keeps_ret; frame_side
    | apply keeps_raise; frame_side
    | apply keeps_self; frame_side
    | apply keeps_read; frame_side
    | apply keeps_emit; frame_side
    | solve [auto 1 with frame]
    | apply keeps_bind; frame_side
    | apply keeps_try_except; frame_side
    | apply keeps_for_each; frame_side
    | match goal with
      | |- keeps _ _ (match ?x with _ => _ end) => destruct x
      end ].

Ltac frame := repeat frame_step.

Lemma deref_framed r : keeps dispatch_frame not_reset (deref r).
Proof. unfold deref. frame. Qed.
#[local] Hint Resolve deref_framed : frame.

(** Assigning to an attribute of a [TypeState] needs the object: where the
    module-level [typestate] is [None], [update] raises and binds nothing. *)
Lemma update_framed r f : keeps dispatch_frame not_reset (update r f).
Proof.
  intros m. unfold update, deref, read, write, exec, calls.
  cbv [mbind M_bind bind mret M_ret ret raise].
  destruct r; simpl.
  - destruct (typestate (window m)); simpl; split;
      try constructor; unfold dispatch_frame; simpl; tauto.
  - destruct (global_typestate m) eqn:E; simpl; split;
      try constructor; unfold dispatch_frame; simpl; rewrite ?E; intuition congruence.
Qed.
#[local] Hint Resolve update_framed : frame.

Lemma past_stream_framed r : keeps dispatch_frame not_reset (past_stream r).
Proof. unfold past_stream. frame. Qed.

Lemma pushchar_framed r c : keeps dispatch_frame not_reset (pushchar r c).
Proof. unfold pushchar. frame. Qed.

Lemma popchar_framed r : keeps dispatch_frame not_reset (popchar r).
Proof. unfold popchar. frame. Qed.
#[local] Hint Resolve past_stream_framed pushchar_framed popchar_framed : frame.

Lemma getpredictions_framed r : keeps dispatch_frame not_reset (getpredictions r).
Proof. unfold getpredictions. frame. Qed.

Lemma get_abbreviation_framed r : keeps dispatch_frame not_reset (get_abbreviation r).
Proof. unfold get_abbreviation. frame. Qed.
#[local] Hint Resolve getpredictions_framed get_abbreviation_framed : frame.

Lemma assign_layoutManager_framed lm :
  keeps dispatch_frame not_reset (assign (set_layoutManager lm)).
Proof. apply keeps_assign. intros m. unfold dispatch_frame; simpl; tauto. Qed.

Lemma assign_repeaton_framed :
  keeps dispatch_frame not_reset (assign (set_repeaton true)).
Proof. apply keeps_assign. intros m. unfold dispatch_frame; simpl; tauto. Qed.
#[local] Hint Resolve assign_layoutManager_framed assign_repeaton_framed : frame.

Lemma set_active_framed name : keeps dispatch_frame not_reset (set_active name).
Proof. unfold set_active. frame. Qed.

Lemma get_active_layout_framed : keeps dispatch_frame not_reset get_active_layout.
Proof. unfold get_active_layout. frame. Qed.

Lemma moveMouse_framed x y : keeps dispatch_frame not_reset (moveMouse x y).
Proof. unfold moveMouse. frame. Qed.

Lemma clickMouse_framed b a : keeps dispatch_frame not_reset (clickMouse b a).
Proof. unfold clickMouse. frame. Qed.
#[local] Hint Resolve set_active_framed get_active_layout_framed
  moveMouse_framed clickMouse_framed : frame.

Lemma lookup_action_framed key table f :
  Forall (fun entry => keeps dispatch_frame not_reset (snd entry)) table ->
  lookup_action key table = Some f -> keeps dispatch_frame not_reset f.
Proof.
  induction 1 as [|[k g] rest Hg _ IH]; simpl; [discriminate|].
  destruct (String.eqb k key); [|exact IH].
  intros [= <-]. exact Hg.
Qed.

Lemma action_map_framed :
  Forall (fun entry => keeps dispatch_frame not_reset (snd entry)) action_map.
Proof.
  unfold action_map.
  repeat (constructor; [simpl; auto with frame|]). constructor.
Qed.

Lemma ActionLegacy_perform_framed key :
  keeps dispatch_frame not_reset (ActionLegacy_perform key).
Proof.
  unfold ActionLegacy_perform.
  destruct key as [k|]; [|frame].
  destruct (String.eqb k ""); [frame|].
  destruct (lookup_action k action_map) as [f|] eqn:E; [|frame].
  exact (lookup_action_framed k action_map f action_map_framed E).
Qed.

Lemma pop_and_backspace_framed r n :
  keeps dispatch_frame not_reset (pop_and_backspace r n).
Proof. induction n; simpl; frame. Qed.
#[local] Hint Resolve pop_and_backspace_framed : frame.

Lemma ActionKeyStroke_perform_framed key character toggle_action :
  keeps dispatch_frame not_reset (ActionKeyStroke_perform key character toggle_action).
Proof.
  unfold ActionKeyStroke_perform. frame.
  intros m. split; [apply dispatch_frame_refl | constructor].
Qed.

Lemma changeLayout_framed name : keeps dispatch_frame not_reset (changeLayout name).
Proof. unfold changeLayout. frame. Qed.

Lemma enableRepeatMode_framed : keeps dispatch_frame not_reset enableRepeatMode.
Proof. unfold enableRepeatMode. frame. Qed.

Lemma PredictionSelectLayoutAction_perform_framed target :
  keeps dispatch_frame not_reset (PredictionSelectLayoutAction_perform target).
Proof. unfold PredictionSelectLayoutAction_perform. frame. Qed.

Lemma perform_framed action : keeps dispatch_frame not_reset (perform action).
Proof.
  destruct action; simpl.
  - apply ActionLegacy_perform_framed.
  - apply ActionKeyStroke_perform_framed.
  - apply changeLayout_framed.
  - apply PredictionSelectLayoutAction_perform_framed.
  - apply enableRepeatMode_framed.
Qed.
#[local] Hint Resolve perform_framed : frame.

Lemma handleMorseCode_framed character :
  keeps dispatch_frame not_reset (handleMorseCode character).
Proof. unfold handleMorseCode. frame. Qed.

Lemma handleMorseCode_returns character m :
  outcome (handleMorseCode character) m = Returns tt.
Proof.
  unfold handleMorseCode.
  destruct (String.eqb _ _); [reflexivity|].
  apply try_except_returns. reflexivity.
Qed.

(** ** Computed forms of the callbacks *)

Ltac mstep :=
  cbv [try_except mbind M_bind bind mret M_ret ret assign self emit raise
       exec calls outcome set_window set_repeaton set_repeat_character_timer
       set_lastKeyDownTime set_fast_morse_mode_timer set_endCharacterTimer
       set_currentCharacter set_previousCharacter set_inputDisabled
       repeat_cleared close_character window global_typestate keyboard_is_pressed
       config keySelectionRadio layoutManager typestate currentCharacter
       previousCharacter lastKeyDownTime endCharacterTimer inputDisabled
       fast_morse_mode_timer repeat_character_timer repeaton
       orphaned_repeat_timers set_orphaned_repeat_timers
       rebind_repeat_character_timer fst snd id app].

Ltac open_window w :=
  let cfg := fresh "cfg" in let mode := fresh "mode" in
  let lm := fresh "lm" in let ts := fresh "ts" in
  let cur := fresh "cur" in let prev := fresh "prev" in
  let down := fresh "down" in let endt := fresh "endt" in
  let disabled := fresh "disabled" in let fast := fresh "fast" in
  let rept := fresh "rept" in let rep := fresh "rep" in
  let orph := fresh "orph" in
  destruct w as [cfg mode lm ts cur prev down endt disabled fast rept rep orph].

Ltac open_machine m :=
  let w := fresh "w" in
  destruct m as [w ? ?]; open_window w; simpl in *; subst.

Lemma run_eq {A} (c : M A) m :
  c m = (outcome c m, exec c m, calls c m).
Proof. unfold outcome, exec, calls. destruct (c m) as [[r m'] out]. reflexivity. Qed.

Lemma addDit_eq m :
  addDit m =
    (Returns tt,
     set_window (set_currentCharacter (currentCharacter (window m) ++ [1%Z]) (window m)) m,
     (if withsound (config (window m)) then [play_audio "res/dit_sound.wav"] else [])
       ++ [codeslayoutview_Dit]).
Proof. open_machine m. unfold addDit. mstep. destruct (withsound _); reflexivity. Qed.

Lemma addDah_eq m :
  addDah m =
    (Returns tt,
     set_window (set_currentCharacter (currentCharacter (window m) ++ [2%Z]) (window m)) m,
     (if withsound (config (window m)) then [play_audio "res/dah_sound.wav"] else [])
       ++ [codeslayoutview_Dah]).
Proof. open_machine m. unfold addDah. mstep. destruct (withsound _); reflexivity. Qed.

(** [endCharacter] is [handleMorseCode] on the buffer, then the closing
    assignments and the reset of the keypad view. *)
Lemma endCharacter_eq m :
  let m0 := set_window (set_endCharacterTimer None (window m)) m in
  let m1 := exec (handleMorseCode (currentCharacter (window m))) m0 in
  endCharacter m =
    (Returns tt,
     set_window (close_character (window m1)) m1,
     calls (handleMorseCode (currentCharacter (window m))) m0 ++ [codeslayoutview_reset]).
Proof.
  open_machine m. unfold endCharacter. mstep.
  match goal with |- context [handleMorseCode ?c ?x] =>
    pose proof (handleMorseCode_returns c x) as Hr; unfold outcome in Hr;
    destruct (handleMorseCode c x) as [[r m1] out]
  end.
  simpl in Hr. subst r. destruct m1 as [w1 g1 k1]. open_window w1.
  destruct rep0; [destruct prev0|]; cbn; rewrite ?app_nil_r; reflexivity.
Qed.

Lemma repeat_key_returns key role m : outcome (repeat_key key role) m = Returns tt.
Proof.
  destruct role as [|[|[|role]]]; simpl; unfold outcome.
  - rewrite addDit_eq. reflexivity.
  - rewrite addDah_eq. reflexivity.
  - rewrite endCharacter_eq. reflexivity.
  - reflexivity.
Qed.

(** The cases of [on_press]. *)
Lemma on_press_eq key role now m :
  on_press key role now m =
    if String.eqb key "P" then
      (Returns tt, repeat_cleared m,
       [logging WARNING "[on_press] Error on key press: " (Some AttributeError)])
    else if inputDisabled (window m) then (Returns tt, repeat_cleared m, [])
    else match lastKeyDownTime (window m) with
         | Some _ => (Returns tt, repeat_cleared m, [])
         | None =>
             let w1 := set_lastKeyDownTime (Some now) (window (repeat_cleared m)) in
             if keySelectionRadioOneKey_isChecked (keySelectionRadio (window m))
             then (Returns tt, set_window w1 m, [])
             else
               repeat_key key role
                 (set_window
                    (if fastMorseMode (config (window m))
                     then set_fast_morse_mode_timer
                            (Some (mkRepeatKeyTimer (mkQTimer 100 false) key role)) w1
                     else w1) m)
         end.
Proof.
  open_machine m. unfold on_press, check_disable_combination.
  change (match role with 0 => addDit | 1 => addDah | 2 => endCharacter | _ => mret tt end)
    with (repeat_key key role).
  destruct (String.eqb key "P"); [reflexivity|].
  destruct disabled; [reflexivity|].
  destruct down; [reflexivity|].
  destruct mode; mstep; cbn.
  - destruct (fastMorseMode cfg); reflexivity.
  - destruct (fastMorseMode cfg); cbn;
      match goal with |- context [repeat_key key role ?x] =>
        pose proof (repeat_key_returns key role x) as Hr; unfold outcome in Hr;
        destruct (repeat_key key role x) as [[r m1] out]; simpl in Hr; subst r;
        reflexivity
      end.
  - destruct (fastMorseMode cfg); cbn;
      match goal with |- context [repeat_key key role ?x] =>
        pose proof (repeat_key_returns key role x) as Hr; unfold outcome in Hr;
        destruct (repeat_key key role x) as [[r m1] out]; simpl in Hr; subst r;
        reflexivity
      end.
Qed.

(** The cases of [on_release]. *)
Lemma on_release_eq key role now m :
  on_release key role now m =
    let w0 := set_fast_morse_mode_timer None (window m) in
    match lastKeyDownTime (window m) with
    | None => (Returns tt, set_window w0 m, [])
    | Some t0 =>
        let w1 := set_lastKeyDownTime None w0 in
        let boundary :=
          Some (mkQTimer (Py.int_of_float (minLetterPause (config (window m)))) true) in
        match keySelectionRadio (window m) with
        | OneKey =>
            let s := classify (config (window m)) ((now - t0) * 1000) in
            (Returns tt,
             set_window
               (set_endCharacterTimer boundary
                  (set_currentCharacter (currentCharacter (window m) ++ [symbol_value s]) w1)) m,
             (if withsound (config (window m))
              then [play_audio (match s with Dit => "res/dit_sound.wav" | Dah => "res/dah_sound.wav" end)]
              else [])
               ++ [match s with Dit => codeslayoutview_Dit | Dah => codeslayoutview_Dah end])
        | TwoKey => (Returns tt, set_window (set_endCharacterTimer boundary w1) m, [])
        | ThreeKey => (Returns tt, set_window w1 m, [])
        end
    end.
Proof.
  open_machine m. unfold on_release, classify, addDit, addDah, startEndCharacterTimer.
  destruct down; [|reflexivity].
  destruct mode; mstep; cbn; try reflexivity.
  destruct (Py.lt _ _); destruct (withsound cfg); reflexivity.
Qed.

Lemma handle_key_event_eq key is_press role now m :
  handle_key_event key is_press role now m =
    if is_press then on_press key role now m else on_release key role now m.
Proof.
  unfold handle_key_event, try_except.
  destruct is_press.
  - rewrite on_press_eq.
    destruct (String.eqb key "P"); [reflexivity|].
    destruct (inputDisabled _); [reflexivity|].
    destruct (lastKeyDownTime _); [reflexivity|]. cbn zeta.
    destruct (keySelectionRadioOneKey_isChecked _); [reflexivity|].
    match goal with |- context [repeat_key key role ?x] =>
      pose proof (repeat_key_returns key role x) as Hr; unfold outcome in Hr;
      destruct (repeat_key key role x) as [[r m1] out]; simpl in Hr; subst r;
      reflexivity
    end.
  - rewrite on_release_eq. cbn zeta.
    destruct (lastKeyDownTime _); [|reflexivity].
    destruct (keySelectionRadio _); reflexivity.
Qed.

Lemma deliver_returns e m : outcome (deliver e) m = Returns tt.
Proof.
  destruct e as [key is_press role now| | | |]; unfold outcome; simpl.
  - rewrite handle_key_event_eq. destruct is_press.
    + rewrite on_press_eq.
      destruct (String.eqb key "P"); [reflexivity|].
      destruct (inputDisabled _); [reflexivity|].
      destruct (lastKeyDownTime _); [reflexivity|]. cbn zeta.
      destruct (keySelectionRadioOneKey_isChecked _); [reflexivity|].
      apply repeat_key_returns.
    + rewrite on_release_eq. cbn zeta.
      destruct (lastKeyDownTime _); [|reflexivity].
      destruct (keySelectionRadio _); reflexivity.
  - cbv [mbind M_bind bind self mret M_ret ret].
    destruct (endCharacterTimer (window m)); [rewrite endCharacter_eq|]; reflexivity.
  - cbv [mbind M_bind bind self mret M_ret ret].
    destruct (fast_morse_mode_timer (window m)) as [q|]; [|reflexivity].
    rewrite (run_eq (repeat_key _ _) m), repeat_key_returns. reflexivity.
  - cbv [mbind M_bind bind self mret M_ret ret].
    destruct (repeat_character_timer (window m)); [|reflexivity].
    rewrite (run_eq (handleMorseCode _) m), handleMorseCode_returns. reflexivity.
  - cbv [mbind M_bind bind self mret M_ret ret].
    destruct (orphaned_repeat_timers (window m)); [reflexivity|].
    rewrite (run_eq (handleMorseCode _) m), handleMorseCode_returns. reflexivity.
Qed.

Lemma deliver_all_cons e es m :
  deliver_all (e :: es) m =
    (outcome (deliver_all es) (exec (deliver e) m),
     exec (deliver_all es) (exec (deliver e) m),
     calls (deliver e) m ++ calls (deliver_all es) (exec (deliver e) m)).
Proof.
  unfold deliver_all. simpl. unfold bind.
  rewrite (run_eq (deliver e) m), deliver_returns.
  rewrite (run_eq (for_each es deliver) _). reflexivity.
Qed.

Lemma exec_deliver_all_cons e es m :
  exec (deliver_all (e :: es)) m = exec (deliver_all es) (exec (deliver e) m).
Proof. unfold exec at 1. rewrite deliver_all_cons. reflexivity. Qed.

Lemma calls_deliver_all_cons e es m :
  calls (deliver_all (e :: es)) m =
    calls (deliver e) m ++ calls (deliver_all es) (exec (deliver e) m).
Proof. unfold calls at 1. rewrite deliver_all_cons. reflexivity. Qed.

Lemma deliver_all_returns es m : outcome (deliver_all es) m = Returns tt.
Proof.
  revert m. induction es as [|e es IH]; intros m; [reflexivity|].
  unfold outcome. rewrite deliver_all_cons. apply IH.
Qed.

Lemma exec_deliver_all_app es1 es2 m :
  exec (deliver_all (es1 ++ es2)) m = exec (deliver_all es2) (exec (deliver_all es1) m).
Proof.
  revert m. induction es1 as [|e es1 IH]; intros m; [reflexivity|].
  simpl app. rewrite !exec_deliver_all_cons. apply IH.
Qed.

Lemma exec_deliver_key key is_press role now m :
  exec (deliver (keyEvent key is_press role now)) m =
    if is_press then exec (on_press key role now) m else exec (on_release key role now) m.
Proof. unfold exec. simpl. rewrite handle_key_event_eq. destruct is_press; reflexivity. Qed.

Lemma calls_deliver_key key is_press role now m :
  calls (deliver (keyEvent key is_press role now)) m =
    if is_press then calls (on_press key role now) m else calls (on_release key role now) m.
Proof. unfold calls. simpl. rewrite handle_key_event_eq. destruct is_press; reflexivity. Qed.

Lemma bind_returns_eq {A B} (c : M A) (k : A -> M B) (a : A) m :
  outcome c m = Returns a ->
  (c ≫= k) m =
    (outcome (k a) (exec c m), exec (k a) (exec c m),
     calls c m ++ calls (k a) (exec c m)).
Proof.
  unfold outcome, exec, calls, mbind, M_bind, bind.
  destruct (c m) as [[r m1] out1]; simpl. intros ->.
  destruct (k a m1) as [[r2 m2] out2]. reflexivity.
Qed.

Lemma exec_bind {A B} (c : M A) (k : A -> M B) (a : A) m :
  outcome c m = Returns a -> exec (c ≫= k) m = exec (k a) (exec c m).
Proof. intros H. unfold exec at 1. rewrite (bind_returns_eq c k a m H). reflexivity. Qed.

Lemma calls_bind {A B} (c : M A) (k : A -> M B) (a : A) m :
  outcome c m = Returns a ->
  calls (c ≫= k) m = calls c m ++ calls (k a) (exec c m).
Proof. intros H. unfold calls at 1. rewrite (bind_returns_eq c k a m H). reflexivity. Qed.

Lemma outcome_bind {A B} (c : M A) (k : A -> M B) (a : A) m :
  outcome c m = Returns a -> outcome (c ≫= k) m = outcome (k a) (exec c m).
Proof. intros H. unfold outcome at 1. rewrite (bind_returns_eq c k a m H). reflexivity. Qed.

Lemma not_reset_calls {A} (c : M A) m :
  keeps dispatch_frame not_reset c -> ~ In codeslayoutview_reset (calls c m).
Proof.
  intros H Hin. destruct (H m) as [_ Hok].
  rewrite List.Forall_forall in Hok. exact (Hok _ Hin eq_refl).
Qed.

Lemma addDit_no_reset m : ~ In codeslayoutview_reset (calls addDit m).
Proof.
  unfold calls. rewrite addDit_eq. simpl.
  destruct (withsound _); simpl; intuition discriminate.
Qed.

Lemma addDah_no_reset m : ~ In codeslayoutview_reset (calls addDah m).
Proof.
  unfold calls. rewrite addDah_eq. simpl.
  destruct (withsound _); simpl; intuition discriminate.
Qed.

(** [repeat_key] leaves the boundary timer alone unless it finalizes, and
    finalizes only for role 2. *)
Lemma repeat_key_boundary key role m :
  endCharacterTimer (window m) = None ->
  endCharacterTimer (window (exec (repeat_key key role) m)) = None /\
  keySelectionRadio (window (exec (repeat_key key role) m)) = keySelectionRadio (window m) /\
  (In codeslayoutview_reset (calls (repeat_key key role) m) -> role = 2).
Proof.
  intros H. destruct role as [|[|[|role]]]; simpl.
  - unfold exec. rewrite addDit_eq. simpl. repeat split; [exact H|].
    intros Hin. destruct (addDit_no_reset m Hin).
  - unfold exec. rewrite addDah_eq. simpl. repeat split; [exact H|].
    intros Hin. destruct (addDah_no_reset m Hin).
  - unfold exec, calls. rewrite endCharacter_eq. cbn zeta. simpl.
    match goal with |- context [exec (handleMorseCode ?c) ?x] =>
      destruct (handleMorseCode_framed c x) as [F _];
      destruct F as (_&F2&_&_&_&F6&_); simpl in F2, F6;
      destruct (exec (handleMorseCode c) x) as [w1 ? ?]
    end.
    open_window w1. simpl in *. subst.
    destruct rep; [destruct prev|]; simpl; auto.
  - repeat split; [exact H|]. intros [].
Qed.

(** [endCharacter] always ends with [codeslayoutview.reset()]. *)
Lemma endCharacter_finalizes (m : Machine) :
  In codeslayoutview_reset (calls endCharacter m).
Proof.
  unfold calls. rewrite endCharacter_eq. cbn zeta. simpl.
  apply in_or_app. right. left. reflexivity.
Qed.

Ltac quiet_case :=
  simpl; repeat split; auto;
  try (let Hin := fresh in intros Hin; simpl in Hin; intuition discriminate).

(** One event in three-key mode. *)
Lemma threekey_step (e : Event) (m : Machine) :
  keySelectionRadio (window m) = ThreeKey ->
  endCharacterTimer (window m) = None ->
  endCharacterTimer (window (exec (deliver e) m)) = None /\
  keySelectionRadio (window (exec (deliver e) m)) = ThreeKey /\
  (finalizes e m -> tertiary_press e m).
Proof.
  intros Hmode Htimer. unfold finalizes.
  destruct e as [key is_press role now| | | |]; unfold exec, calls; simpl.
  - rewrite handle_key_event_eq. destruct is_press.
    + rewrite on_press_eq.
      destruct (String.eqb key "P");
        [quiet_case|].
      destruct (inputDisabled (window m)); [quiet_case|].
      destruct (lastKeyDownTime (window m)); [quiet_case|].
      rewrite Hmode. cbn zeta. simpl keySelectionRadioOneKey_isChecked. cbv iota.
      match goal with |- context [repeat_key key role ?x] =>
        destruct (repeat_key_boundary key role x) as (B1 & B2 & B3)
      end.
      { destruct (fastMorseMode _); simpl; exact Htimer. }
      repeat split; [exact B1 | |].
      * unfold exec in B2. rewrite B2. destruct (fastMorseMode _); simpl; exact Hmode.
      * intros Hin. apply B3 in Hin. subst role. exact I.
    + rewrite on_release_eq. cbn zeta.
      destruct (lastKeyDownTime (window m)); [|quiet_case].
      rewrite Hmode. quiet_case.
  - cbv [mbind M_bind bind self mret M_ret ret]. rewrite Htimer. quiet_case.
  - cbv [mbind M_bind bind self mret M_ret ret].
    destruct (fast_morse_mode_timer (window m)) as [q|] eqn:Eq;
      [|quiet_case].
    destruct (repeat_key_boundary (captured_key q) (captured_role q) m Htimer)
      as (B1 & B2 & B3).
    rewrite (run_eq (repeat_key _ _) m), repeat_key_returns. simpl.
    rewrite B2. repeat split; auto.
    intros Hin. exists q. split; [reflexivity | exact (B3 Hin)].
  - cbv [mbind M_bind bind self mret M_ret ret].
    destruct (repeat_character_timer (window m));
      [|quiet_case].
    rewrite (run_eq (handleMorseCode _) m), handleMorseCode_returns. simpl.
    destruct (handleMorseCode_framed (previousCharacter (window m)) m)
      as [(_&F2&_&_&_&F6&_) _].
    rewrite F2, F6. repeat split; auto.
    intros Hin. exact (not_reset_calls _ m (handleMorseCode_framed _) Hin).
  - cbv [mbind M_bind bind self mret M_ret ret].
    destruct (orphaned_repeat_timers (window m));
      [quiet_case|].
    rewrite (run_eq (handleMorseCode _) m), handleMorseCode_returns. simpl.
    destruct (handleMorseCode_framed (previousCharacter (window m)) m)
      as [(_&F2&_&_&_&F6&_) _].
    rewrite F2, F6. repeat split; auto.
    intros Hin. exact (not_reset_calls _ m (handleMorseCode_framed _) Hin).
Qed.

(** A press that finalizes has passed the guards of [on_press]. *)
Lemma finalizes_accepted (e : Event) (m : Machine) :
  finalizes e m -> accepted e m.
Proof.
  unfold finalizes.
  destruct e as [key is_press role now| | | |]; try exact (fun _ => I).
  destruct is_press; [|exact (fun _ => I)].
  unfold calls. simpl. rewrite handle_key_event_eq, on_press_eq.
  destruct (String.eqb key "P") eqn:Ek;
    [simpl; intros Hin; intuition discriminate|].
  destruct (inputDisabled (window m)) eqn:Ed; [intros []|].
  destruct (lastKeyDownTime (window m)) eqn:El; [intros []|].
  intros _. apply String.eqb_neq in Ek. auto.
Qed.

(** In three-key mode a Tertiary press that passes the guards of
    [on_press], and each re-emission of it by the fast-repeat timer,
    runs [endCharacter]. *)
Lemma tertiary_press_finalizes (e : Event) (m : Machine) :
  keySelectionRadio (window m) = ThreeKey ->
  tertiary_press e m -> accepted e m -> finalizes e m.
Proof.
  intros Hmode Ht Ha. unfold finalizes.
  destruct e as [key is_press role now| | | |]; try contradiction.
  - destruct is_press; [|contradiction].
    destruct role as [|[|[|role]]]; try contradiction.
    destruct Ha as (Hk & Hd & Hl). apply String.eqb_neq in Hk.
    unfold calls. simpl. rewrite handle_key_event_eq, on_press_eq.
    rewrite Hk, Hd, Hl, Hmode. cbn zeta. simpl keySelectionRadioOneKey_isChecked.
    cbv iota. change (repeat_key key 2) with endCharacter.
    apply endCharacter_finalizes.
  - destruct Ht as (q & Hq & Hr).
    unfold calls. simpl. cbv [mbind M_bind bind self mret M_ret ret].
    rewrite Hq, (run_eq (repeat_key _ _) m), repeat_key_returns. simpl.
    rewrite Hr. apply endCharacter_finalizes.
Qed.

(** C3: in three-key mode no event starts the boundary timer -- after any
    run of events it is still not held, so it can never time out -- and
    a character is finalized by the presses of the Tertiary switch and by
    nothing else: an event finalizes exactly when it is a Tertiary press
    that passes the guards of [on_press], or a re-emission of such a
    press by the fast-repeat timer while the switch is held. *)
Theorem threekey_finalizes_only_on_tertiary (es : list Event) (e : Event) (m : Machine) :
  keySelectionRadio (window m) = ThreeKey ->
  endCharacterTimer (window m) = None ->
  let m' := exec (deliver_all es) m in
  endCharacterTimer (window m') = None /\
  calls (deliver endCharacterTimer_timeout) m' = [] /\
  (finalizes e m' <-> tertiary_press e m' /\ accepted e m').
Proof.
  intros Hmode Htimer m'.
  assert (H : keySelectionRadio (window m') = ThreeKey /\
              endCharacterTimer (window m') = None).
  { subst m'. revert m Hmode Htimer.
    induction es as [|e0 es IH]; intros m Hmode Htimer; [split; assumption|].
    rewrite exec_deliver_all_cons.
    destruct (threekey_step e0 m Hmode Htimer) as (H1 & H2 & _).
    apply IH; assumption. }
  destruct H as [Hmode' Htimer'].
  split; [exact Htimer'|]. split.
  - unfold calls. simpl. cbv [mbind M_bind bind self]. rewrite Htimer'. reflexivity.
  - split.
    + intros Hfin. split.
      * exact (proj2 (proj2 (threekey_step e m' Hmode' Htimer')) Hfin).
      * exact (finalizes_accepted e m' Hfin).
    + intros [Ht Ha]. exact (tertiary_press_finalizes e m' Hmode' Ht Ha).
Qed.
Lemma threekey_finalizes_only_on_tertiary_witness :
  let m := boot DEFAULT_CONFIG ThreeKey sample_layouts None in
  let es := [keyEvent "space" true 0 0%Q; keyEvent "space" false 0 (1 # 10)%Q;
             keyEvent "space" true 0 (2 # 10)%Q; keyEvent "space" false 0 (3 # 10)%Q] in
  let e := keyEvent "right ctrl" true 2 (4 # 10)%Q in
  let m' := exec (deliver_all es) m in
  keySelectionRadio (window m) = ThreeKey /\
  endCharacterTimer (window m) = None /\
  currentCharacter (window m') = buffer_of [Dit; Dit] /\
  endCharacterTimer (window m') = None /\
  calls (deliver endCharacterTimer_timeout) m' = [] /\
  finalizes e m' /\
  ~ finalizes (keyEvent "space" true 0 (4 # 10)%Q) m' /\
  ~ finalizes (keyEvent "right ctrl" false 2 (4 # 10)%Q) m'.
Proof.
  intros m es e m'.
  assert (Hmode : keySelectionRadio (window m) = ThreeKey) by reflexivity.
  assert (Htimer : endCharacterTimer (window m) = None) by reflexivity.
  assert (Hcur : currentCharacter (window m') = buffer_of [Dit; Dit]) by reflexivity.
  assert (Hacc : accepted e m').
  { split; [discriminate|]. split; reflexivity. }
  pose proof (threekey_finalizes_only_on_tertiary es e m Hmode Htimer)
    as (H1 & H2 & H3).
  pose proof (threekey_finalizes_only_on_tertiary es
                (keyEvent "space" true 0 (4 # 10)%Q) m Hmode Htimer)
    as (_ & _ & H4).
  pose proof (threekey_finalizes_only_on_tertiary es
                (keyEvent "right ctrl" false 2 (4 # 10)%Q) m Hmode Htimer)
    as (_ & _ & H5).
  exact (conj Hmode (conj Htimer (conj Hcur (conj H1 (conj H2
          (conj (proj2 H3 (conj I Hacc))
             (conj (fun Hf => proj1 (proj1 H4 Hf))
                   (fun Hf => proj1 (proj1 H5 Hf))))))))).
Defined.

(** The fast-repeat timer is armed by a press only, for the key and role
    of that press. *)
Lemma fast_timer_armed_by_press (e : Event) (m : Machine) (q : RepeatKeyTimer) :
  fast_morse_mode_timer (window m) = None ->
  fast_morse_mode_timer (window (exec (deliver e) m)) = Some q ->
  exists now, e = keyEvent (captured_key q) true (captured_role q) now.
Proof.
  intros Hnone. unfold exec.
  assert (Hrk : forall key role x,
             fast_morse_mode_timer (window (exec (repeat_key key role) x))
             = fast_morse_mode_timer (window x)).
  { intros key role x. destruct role as [|[|[|role]]]; simpl; unfold exec.
    - rewrite addDit_eq. reflexivity.
    - rewrite addDah_eq. reflexivity.
    - rewrite endCharacter_eq. cbn zeta. simpl.
      match goal with |- context [exec (handleMorseCode ?c) ?y] =>
        destruct (handleMorseCode_framed c y) as [(_&_&_&_&_&_&_&F8&_) _];
        simpl in F8; destruct (exec (handleMorseCode c) y) as [w1 ? ?]
      end.
      open_window w1. simpl in *. subst.
      destruct rep; [destruct prev|]; reflexivity.
    - reflexivity. }
  destruct e as [key is_press role now| | | |]; simpl.
  - rewrite handle_key_event_eq. destruct is_press.
    + rewrite on_press_eq.
      destruct (String.eqb key "P"); [simpl; congruence|].
      destruct (inputDisabled (window m)); [simpl; congruence|].
      destruct (lastKeyDownTime (window m)); [simpl; congruence|]. cbn zeta.
      destruct (keySelectionRadioOneKey_isChecked _); [simpl; congruence|].
      match goal with |- context [repeat_key key role ?x] =>
        pose proof (Hrk key role x) as E; unfold exec in E; rewrite E
      end.
      destruct (fastMorseMode _); simpl; [|congruence].
      intros [= <-]. exists now. reflexivity.
    + rewrite on_release_eq. cbn zeta.
      destruct (lastKeyDownTime (window m)); [|simpl; congruence].
      destruct (keySelectionRadio (window m)); simpl; congruence.
  - cbv [mbind M_bind bind self mret M_ret ret].
    destruct (endCharacterTimer (window m)); [|simpl; congruence].
    rewrite (run_eq endCharacter m). simpl.
    pose proof (Hrk "" 2 m) as E. simpl in E. rewrite E. congruence.
  - cbv [mbind M_bind bind self mret M_ret ret]. rewrite Hnone. simpl. congruence.
  - cbv [mbind M_bind bind self mret M_ret ret].
    destruct (repeat_character_timer (window m)); [|simpl; congruence].
    rewrite (run_eq (handleMorseCode _) m), handleMorseCode_returns. simpl.
    destruct (handleMorseCode_framed (previousCharacter (window m)) m)
      as [(_&_&_&_&_&_&_&F8&_) _].
    rewrite F8. congruence.
  - cbv [mbind M_bind bind self mret M_ret ret].
    destruct (orphaned_repeat_timers (window m)); [simpl; congruence|].
    rewrite (run_eq (handleMorseCode _) m), handleMorseCode_returns. simpl.
    destruct (handleMorseCode_framed (previousCharacter (window m)) m)
      as [(_&_&_&_&_&_&_&F8&_) _].
    rewrite F8. congruence.
Qed.

(** C10: a press that arrives while [lastKeyDownTime] is set -- whatever
    its key and role, and whatever the key and role of the press that set
    it -- appends no symbol, keeps the recorded start time, arms no
    fast-repeat timer and finalizes nothing: it only clears the repeat
    flag and the sticky-repeat timer, as every press does. *)
Theorem press_during_open_press_is_ignored
    (key : string) (role : nat) (now t : Q) (m : Machine) :
  lastKeyDownTime (window m) = Some t ->
  let m' := exec (deliver (keyEvent key true role now)) m in
  m' = repeat_cleared m /\
  currentCharacter (window m') = currentCharacter (window m) /\
  lastKeyDownTime (window m') = Some t /\
  fast_morse_mode_timer (window m') = fast_morse_mode_timer (window m) /\
  endCharacterTimer (window m') = endCharacterTimer (window m) /\
  calls (deliver (keyEvent key true role now)) m =
    (if String.eqb key "P"
     then [logging WARNING "[on_press] Error on key press: " (Some AttributeError)]
     else []).
Proof.
  intros H m'. subst m'. unfold exec, calls. simpl.
  rewrite handle_key_event_eq, on_press_eq, H.
  destruct (String.eqb key "P"); [|destruct (inputDisabled (window m))];
    simpl; repeat split; auto.
Qed.

Lemma press_during_open_press_is_ignored_witness :
  let m0 := boot DEFAULT_CONFIG ThreeKey sample_layouts None in
  let m := exec (deliver (keyEvent "space" true 0 0%Q)) m0 in
  let e := keyEvent "right ctrl" true 2 (1 # 10)%Q in
  lastKeyDownTime (window m) = Some 0%Q /\
  exec (deliver e) m = repeat_cleared m /\
  currentCharacter (window (exec (deliver e) m)) = currentCharacter (window m) /\
  lastKeyDownTime (window (exec (deliver e) m)) = Some 0%Q /\
  fast_morse_mode_timer (window (exec (deliver e) m)) = fast_morse_mode_timer (window m) /\
  endCharacterTimer (window (exec (deliver e) m)) = endCharacterTimer (window m) /\
  calls (deliver e) m = [].
Proof.
  intros m0 m e. split; [reflexivity|].
  apply (press_during_open_press_is_ignored "right ctrl" 2 (1 # 10)%Q 0%Q m).
  reflexivity.
Defined.

(** C1: in one-key mode a press records its start time and emits nothing;
    the release appends exactly one symbol, [Dit] when the measured
    duration is below [maxDitTime] and [Dah] when it is equal or above. *)
Theorem onekey_release_classifies_by_duration
    (key : string) (role : nat) (t0 t1 : Q) (m : Machine) :
  keySelectionRadio (window m) = OneKey ->
  inputDisabled (window m) = false ->
  lastKeyDownTime (window m) = None ->
  key <> "P" ->
  let duration := ((t1 - t0) * 1000)%Q in
  let maxDitTime := default 350%Q (maxDitTime (config (window m))) in
  let pressed := exec (deliver (keyEvent key true role t0)) m in
  let released := exec (deliver (keyEvent key false role t1)) pressed in
  currentCharacter (window pressed) = currentCharacter (window m) /\
  lastKeyDownTime (window pressed) = Some t0 /\
  ((duration < maxDitTime)%Q ->
   currentCharacter (window released) = currentCharacter (window m) ++ [symbol_value Dit]) /\
  ((maxDitTime <= duration)%Q ->
   currentCharacter (window released) = currentCharacter (window m) ++ [symbol_value Dah]) /\
  ((duration == maxDitTime)%Q ->
   currentCharacter (window released) = currentCharacter (window m) ++ [symbol_value Dah]).
Proof.
  intros Hmode Hen Hopen Hkey duration maxDit pressed released.
  apply String.eqb_neq in Hkey.
  assert (Hp : pressed =
               set_window (set_lastKeyDownTime (Some t0) (window (repeat_cleared m))) m).
  { subst pressed. unfold exec. simpl.
    rewrite handle_key_event_eq, on_press_eq, Hkey, Hen, Hopen, Hmode. reflexivity. }
  assert (Hr : currentCharacter (window released) =
               currentCharacter (window m)
                 ++ [symbol_value (classify (config (window m)) duration)]).
  { subst released. rewrite Hp. unfold exec. simpl.
    rewrite handle_key_event_eq, on_release_eq. simpl. rewrite Hmode. reflexivity. }
  rewrite Hp. split; [reflexivity|]. split; [reflexivity|].
  rewrite Hr. unfold classify. fold maxDit.
  split; [|split].
  - intros Hlt. apply lt_spec in Hlt. rewrite Hlt. reflexivity.
  - intros Hle. apply lt_false_spec in Hle. rewrite Hle. reflexivity.
  - intros Heq. assert (Hle : (maxDit <= duration)%Q) by (rewrite Heq; apply Qle_refl).
    apply lt_false_spec in Hle. rewrite Hle. reflexivity.
Qed.

Lemma onekey_release_classifies_by_duration_witness :
  let m := boot DEFAULT_CONFIG OneKey sample_layouts None in
  let pressed := exec (deliver (keyEvent "space" true 0 0%Q)) m in
  let released := exec (deliver (keyEvent "space" false 0 (35 # 100)%Q)) pressed in
  (((35 # 100) - 0) * 1000 == 350)%Q /\
  currentCharacter (window released) = [symbol_value Dah].
Proof.
  intros m pressed released. split; [reflexivity|].
  apply (onekey_release_classifies_by_duration "space" 0 0%Q (35 # 100)%Q m);
    try reflexivity.
  discriminate.
Defined.

(** ** Fast repeat *)

(** Each expiry of a fast-repeat timer armed for role 0 appends one
    [Dit] and changes nothing else. *)
Lemma fast_ticks_append_dits (n : nat) (m : Machine) (q : RepeatKeyTimer) :
  fast_morse_mode_timer (window m) = Some q ->
  captured_role q = 0 ->
  exec (deliver_all (repeat fast_morse_mode_timer_timeout n)) m =
    set_window (set_currentCharacter (currentCharacter (window m) ++ repeat 1%Z n) (window m)) m.
Proof.
  revert m. induction n as [|n IH]; intros m Hq Hrole.
  - simpl. rewrite app_nil_r. destruct m as [w ? ?]. destruct w. reflexivity.
  - change (repeat fast_morse_mode_timer_timeout (S n))
      with (fast_morse_mode_timer_timeout :: repeat fast_morse_mode_timer_timeout n).
    rewrite exec_deliver_all_cons.
    assert (E : exec (deliver fast_morse_mode_timer_timeout) m =
                set_window (set_currentCharacter (currentCharacter (window m) ++ [1%Z])
                              (window m)) m).
    { unfold exec. simpl. cbv [mbind M_bind bind self mret M_ret ret].
      rewrite Hq, Hrole. simpl. rewrite addDit_eq. reflexivity. }
    rewrite E, IH; [|exact Hq|exact Hrole]. simpl.
    rewrite <- app_assoc. reflexivity.
Qed.

(** The count [expiries_before] is the number of multiples of the period
    that lie strictly inside the hold. *)
Lemma expiries_before_spec (interval held : Z) (k : nat) :
  (0 < interval)%Z -> (0 < held)%Z -> 1 <= k ->
  (k <= expiries_before interval held <-> (Z.of_nat k * interval < held)%Z).
Proof.
  intros Hi Hh Hk. unfold expiries_before.
  assert (H0 : (0 <= (held - 1) / interval)%Z) by (apply Z.div_pos; lia).
  split; intros H.
  - assert (Hz : (Z.of_nat k <= (held - 1) / interval)%Z) by lia.
    assert (Hm : (interval * ((held - 1) / interval) <= held - 1)%Z)
      by (apply Z.mul_div_le; lia).
    nia.
  - assert (Hz : (Z.of_nat k <= (held - 1) / interval)%Z).
    { apply Z.div_le_lower_bound; lia. }
    lia.
Qed.

(** A hold of any length: with fast repeat on, in two-key mode, holding
    the Primary switch appends one [Dit] at the press and one more at
    every expiry of the 100 ms timer before the release. *)
Lemma fast_repeat_hold_appends_dits (key : string) (t0 : Q) (held : Z) (m : Machine) :
  keySelectionRadio (window m) = TwoKey ->
  fastMorseMode (config (window m)) = true ->
  inputDisabled (window m) = false ->
  lastKeyDownTime (window m) = None ->
  key <> "P" ->
  currentCharacter (window (exec (hold key 0 t0 held) m)) =
    currentCharacter (window m) ++ repeat 1%Z (S (expiries_before 100 held)).
Proof.
  intros Hmode Hfast Hen Hopen Hkey. apply String.eqb_neq in Hkey.
  set (q := mkRepeatKeyTimer (mkQTimer 100 false) key 0).
  set (m1 := set_window
               (set_currentCharacter (currentCharacter (window m) ++ [1%Z])
                  (set_fast_morse_mode_timer (Some q)
                     (set_lastKeyDownTime (Some t0) (window (repeat_cleared m))))) m).
  assert (Hpress : on_press key 0 t0 m =
                   (Returns tt, m1,
                    (if withsound (config (window m)) then [play_audio "res/dit_sound.wav"] else [])
                      ++ [codeslayoutview_Dit])).
  { rewrite on_press_eq, Hkey, Hen, Hopen, Hmode, Hfast. simpl. rewrite addDit_eq.
    reflexivity. }
  assert (Hexec : exec (on_press key 0 t0) m = m1)
    by (unfold exec; rewrite Hpress; reflexivity).
  unfold hold.
  rewrite (exec_bind _ _ tt) by (unfold outcome; rewrite Hpress; reflexivity).
  rewrite Hexec.
  rewrite (exec_bind _ _ (Some q)) by reflexivity.
  change (exec (self fast_morse_mode_timer) m1) with m1.
  rewrite (exec_bind _ _ tt) by apply deliver_all_returns.
  rewrite (fast_ticks_append_dits _ m1 q) by reflexivity.
  unfold exec. rewrite on_release_eq. simpl. rewrite Hmode. simpl.
  rewrite <- app_assoc. reflexivity.
Qed.

(** C7: fast repeat enabled, two-key mode, Primary held 500 ms: the press
    and the expiries of the 100 ms timer at 100, 200, 300 and 400 ms
    append exactly five [Dit]s. *)
Theorem fast_repeat_500ms_appends_five_dits (key : string) (t0 : Q) (m : Machine) :
  keySelectionRadio (window m) = TwoKey ->
  fastMorseMode (config (window m)) = true ->
  inputDisabled (window m) = false ->
  lastKeyDownTime (window m) = None ->
  key <> "P" ->
  currentCharacter (window (exec (hold key 0 t0 500) m)) =
    currentCharacter (window m) ++ map symbol_value [Dit; Dit; Dit; Dit; Dit].
Proof.
  intros Hmode Hfast Hen Hopen Hkey.
  rewrite (fast_repeat_hold_appends_dits key t0 500 m Hmode Hfast Hen Hopen Hkey).
  reflexivity.
Qed.

Lemma fast_repeat_500ms_appends_five_dits_witness :
  let cfg := mkConfig (Some 350%Q) 1000%Q true false None false in
  let m := boot cfg TwoKey sample_layouts None in
  keySelectionRadio (window m) = TwoKey /\
  fastMorseMode (config (window m)) = true /\
  currentCharacter (window (exec (hold "space" 0 0%Q 500) m)) = [1; 1; 1; 1; 1]%Z.
Proof.
  intros cfg m. split; [reflexivity|]. split; [reflexivity|].
  apply (fast_repeat_500ms_appends_five_dits "space" 0%Q m); try reflexivity.
  discriminate.
Defined.

(** ** Rendering of the buffer *)

Lemma morse_code_of_buffer (symbols : list MorseSymbol) :
  morse_code_of (buffer_of symbols) = digits symbols.
Proof.
  unfold morse_code_of, buffer_of, digits.
  induction symbols as [|s rest IH]; [reflexivity|].
  destruct rest as [|s' rest'].
  - destruct s; reflexivity.
  - change (String.concat "" (map Py.str (map symbol_value (s :: s' :: rest'))))
      with (Py.str (symbol_value s) +:+ "" +:+
            String.concat "" (map Py.str (map symbol_value (s' :: rest')))).
    rewrite IH. destruct s; reflexivity.
Qed.

Lemma codetocode_digits (symbols : list MorseSymbol) :
  codetocode (digits symbols) = marks symbols.
Proof.
  unfold codetocode, digits, marks.
  induction symbols as [|s rest IH]; [reflexivity|].
  simpl. rewrite IH. destruct s; reflexivity.
Qed.

Lemma digits_nonempty (symbols : list MorseSymbol) :
  symbols <> [] -> String.eqb (digits symbols) "" = false.
Proof. destruct symbols as [|s rest]; [congruence|]. destruct s; reflexivity. Qed.

Lemma get_active_layout_pure (m : Machine) :
  get_active_layout m = (outcome get_active_layout m, m, []).
Proof.
  unfold outcome, get_active_layout. cbv [mbind M_bind bind self].
  destruct (active_layout_name (layoutManager (window m))) as [name|]; [|reflexivity].
  destruct (String.eqb name ""); [reflexivity|].
  destruct (layouts (layoutManager (window m)) !! name); reflexivity.
Qed.

Lemma outcome_get_active_layout (m m' : Machine) :
  layoutManager (window m') = layoutManager (window m) ->
  outcome get_active_layout m' = outcome get_active_layout m.
Proof.
  intros H. unfold outcome, get_active_layout. cbv [mbind M_bind bind self].
  rewrite H.
  destruct (active_layout_name (layoutManager (window m))) as [name|]; [|reflexivity].
  destruct (String.eqb name ""); [reflexivity|].
  destruct (layouts (layoutManager (window m)) !! name); reflexivity.
Qed.

Lemma find_none_iff (morse_code : string) (l : list Item) :
  List.find (code_is morse_code) l = None <->
  forall item, In item l -> code item <> Some morse_code.
Proof.
  split.
  - intros H item Hin Hcode.
    apply (List.find_none _ _ H) in Hin.
    unfold code_is in Hin. rewrite Hcode, String.eqb_refl in Hin. discriminate.
  - intros H. induction l as [|item l IH]; [reflexivity|].
    simpl. destruct (code_is morse_code item) eqn:E.
    + exfalso. apply (H item (or_introl eq_refl)).
      unfold code_is in E. destruct (code item) as [c|]; [|discriminate].
      apply String.eqb_eq in E. congruence.
    + apply IH. intros it Hin. apply H. right. exact Hin.
Qed.

(** A code that matches no item: the miss is printed and logged, and
    nothing else happens. *)
Lemma handleMorseCode_miss (symbols : list MorseSymbol) (layout : Layout) (m : Machine) :
  symbols <> [] ->
  outcome get_active_layout m = Returns layout ->
  List.find (code_is (digits symbols)) (items layout) = None ->
  handleMorseCode (buffer_of symbols) m =
    (Returns tt, m,
     [print None;
      logging WARNING
        ("[handleMorseCode] No action found for Morse code: " +:+ digits symbols) None]).
Proof.
  intros Hne Hlayout Hfind. unfold handleMorseCode.
  rewrite morse_code_of_buffer, (digits_nonempty _ Hne).
  unfold try_except. cbv [mbind M_bind bind].
  rewrite get_active_layout_pure, Hlayout, Hfind. reflexivity.
Qed.

(** C4, as the code has it: a finalized code that matches no entry of
    the active layout dispatches nothing -- the miss is printed and
    logged -- and the buffer and the boundary timer are cleared all the
    same.  What state the assembler is in afterwards is decided by the
    repeat flag, as for any finalization: with the flag off and no
    sticky-repeat timer running it is idle; with the flag on and a
    non-empty snapshot of the last completed code the sticky-repeat timer
    is started and the assembler repeats that code. *)
Theorem miss_dispatches_nothing_and_clears_buffer
    (symbols : list MorseSymbol) (layout : Layout) (m : Machine) :
  symbols <> [] ->
  currentCharacter (window m) = buffer_of symbols ->
  outcome get_active_layout m = Returns layout ->
  (forall item, In item (items layout) -> code item <> Some (digits symbols)) ->
  let m' := exec endCharacter m in
  calls endCharacter m =
    [print None;
     logging WARNING
       ("[handleMorseCode] No action found for Morse code: " +:+ digits symbols) None;
     codeslayoutview_reset] /\
  existsb is_dispatch (calls endCharacter m) = false /\
  currentCharacter (window m') = [] /\
  endCharacterTimer (window m') = None /\
  (repeaton (window m) = false ->
   repeat_character_timer (window m) = None ->
   orphaned_repeat_timers (window m) = [] ->
   assembler_state (window m') = Idle) /\
  (repeaton (window m) = true ->
   previousCharacter (window m) <> [] ->
   repeat_character_timer (window m') = Some (mkQTimer 300 false) /\
   assembler_state (window m') = RepeatingPrevious).
Proof.
  intros Hne Hcur Hlayout Hmiss m'. subst m'.
  apply find_none_iff in Hmiss.
  unfold exec, calls. rewrite endCharacter_eq. cbn zeta.
  rewrite Hcur. unfold exec, calls.
  assert (Hlayout0 : outcome get_active_layout
                       (set_window (set_endCharacterTimer None (window m)) m)
                     = Returns layout)
    by (rewrite <- Hlayout; apply outcome_get_active_layout; reflexivity).
  rewrite (handleMorseCode_miss symbols layout _ Hne Hlayout0 Hmiss).
  simpl fst. simpl snd.
  split; [reflexivity|]. split; [reflexivity|].
  destruct m as [w g kp]. open_window w. simpl in *.
  destruct rep; [destruct prev|]; simpl;
    (split; [reflexivity|]); (split; [reflexivity|]); split;
    try discriminate; try congruence.
  - intros _ _. split; reflexivity.
  - intros _ -> ->. reflexivity.
Qed.

Lemma miss_dispatches_nothing_and_clears_buffer_witness :
  let pressed :=
    deliver_all [keyEvent "space" true 0 0%Q; keyEvent "space" false 0 (1 # 20)%Q;
                 keyEvent "space" true 0 (2 # 20)%Q; keyEvent "space" false 0 (3 # 20)%Q;
                 keyEvent "space" true 0 (4 # 20)%Q; keyEvent "space" false 0 (5 # 20)%Q] in
  let m := exec pressed (boot DEFAULT_CONFIG OneKey sample_layouts None) in
  currentCharacter (window m) = buffer_of [Dit; Dit; Dit] /\
  calls endCharacter m =
    [print None;
     logging WARNING "[handleMorseCode] No action found for Morse code: 111" None;
     codeslayoutview_reset] /\
  assembler_state (window (exec endCharacter m)) = Idle.
Proof.
  intros pressed m. split; [reflexivity|].
  destruct (miss_dispatches_nothing_and_clears_buffer
              [Dit; Dit; Dit] sample_layout m) as (H1 & _ & _ & _ & H5 & _).
  - discriminate.
  - reflexivity.
  - reflexivity.
  - intros item Hin. simpl in Hin.
    repeat (destruct Hin as [<-|Hin]; [discriminate|]). destruct Hin.
  - split; [exact H1|]. apply H5; reflexivity.
Defined.

(** One-key mode, the layout [repeat_layouts]: the letter [1] is keyed
    and finalized by the boundary timer; the repeat command [2222] is
    keyed, and the boundary timer finalizes it while the next press is
    already open, so that no press follows the command; the release of
    that long press keys a [Dah].  The code [2] is then finalized with
    the repeat flag on: it is a miss, nothing is dispatched, the buffer
    is cleared -- and the assembler is not idle, it goes on repeating
    the letter. *)
Lemma miss_with_repeat_flag_on_is_not_idle :
  let dah t := [keyEvent "space" true 0 t; keyEvent "space" false 0 (t + (4 # 10))%Q] in
  let typed :=
    deliver_all
      ([keyEvent "space" true 0 0%Q; keyEvent "space" false 0 (1 # 10)%Q;
        endCharacterTimer_timeout]
       ++ dah 2%Q ++ dah 3%Q ++ dah 4%Q ++ dah 5%Q
       ++ [keyEvent "space" true 0 6%Q; endCharacterTimer_timeout;
           keyEvent "space" false 0 (67 # 10)%Q]) in
  let m := exec typed (boot DEFAULT_CONFIG OneKey repeat_layouts None) in
  let m' := exec (deliver endCharacterTimer_timeout) m in
  currentCharacter (window m) = buffer_of [Dah] /\
  endCharacterTimer (window m) = Some (mkQTimer 1000 true) /\
  calls (deliver endCharacterTimer_timeout) m =
    [print None;
     logging WARNING "[handleMorseCode] No action found for Morse code: 2" None;
     codeslayoutview_reset] /\
  currentCharacter (window m') = [] /\
  assembler_state (window m') = RepeatingPrevious /\
  assembler_state (window m') <> Idle.
Proof.
  intros dah typed m m'.
  assert (H1 : currentCharacter (window m) = buffer_of [Dah]) by reflexivity.
  assert (H2 : endCharacterTimer (window m) = Some (mkQTimer 1000 true)) by reflexivity.
  assert (H3 : calls (deliver endCharacterTimer_timeout) m =
               [print None;
                logging WARNING "[handleMorseCode] No action found for Morse code: 2" None;
                codeslayoutview_reset]) by reflexivity.
  assert (H4 : currentCharacter (window m') = []) by reflexivity.
  assert (H5 : assembler_state (window m') = RepeatingPrevious) by reflexivity.
  assert (H6 : assembler_state (window m') <> Idle) by (rewrite H5; discriminate).
  exact (conj H1 (conj H2 (conj H3 (conj H4 (conj H5 H6))))).
Qed.

(** ** Finalizing an empty buffer *)

Lemma handleMorseCode_empty (m : Machine) :
  handleMorseCode [] m =
    (Returns tt, m,
     [logging WARNING "[handleMorseCode] No action found for Morse code: " None]).
Proof. reflexivity. Qed.

(** C5, as the code has it: finalizing an empty buffer raises nothing and
    dispatches nothing -- the empty code is logged -- and leaves the buffer
    empty; but it is not void.  The boundary-timer attribute is cleared;
    with the repeat flag off the snapshot of the last completed code is
    overwritten by the empty buffer; with the flag on and a non-empty
    snapshot the sticky-repeat timer is started (and a timer the
    attribute held before is left running). *)
Theorem empty_finalization_overwrites_snapshot (m : Machine) :
  currentCharacter (window m) = [] ->
  let w := window m in
  outcome endCharacter m = Returns tt /\
  calls endCharacter m =
    [logging WARNING "[handleMorseCode] No action found for Morse code: " None;
     codeslayoutview_reset] /\
  exec endCharacter m =
    set_window
      (mkWindow (config w) (keySelectionRadio w) (layoutManager w) (typestate w)
         []
         (if repeaton w then previousCharacter w else [])
         (lastKeyDownTime w)
         None
         (inputDisabled w)
         (fast_morse_mode_timer w)
         (if repeaton w
          then match previousCharacter w with
               | [] => repeat_character_timer w
               | _ :: _ => Some (mkQTimer 300 false)
               end
          else repeat_character_timer w)
         (repeaton w)
         (if repeaton w
          then match previousCharacter w, repeat_character_timer w with
               | _ :: _, Some t => t :: orphaned_repeat_timers w
               | _, _ => orphaned_repeat_timers w
               end
          else orphaned_repeat_timers w)) m.
Proof.
  intros Hcur w. subst w.
  unfold outcome, calls, exec. rewrite endCharacter_eq. cbn zeta.
  rewrite Hcur. unfold exec, calls. rewrite handleMorseCode_empty.
  destruct m as [w g kp]. open_window w. simpl in *. subst.
  destruct rep; [destruct prev; [|destruct rept]|]; repeat split; reflexivity.
Qed.

Lemma empty_finalization_overwrites_snapshot_witness :
  let typed :=
    deliver_all [keyEvent "space" true 0 0%Q; keyEvent "space" false 0 (1 # 10)%Q;
                 keyEvent "right ctrl" true 2 (2 # 10)%Q;
                 keyEvent "right ctrl" false 2 (3 # 10)%Q] in
  let m := exec typed (boot DEFAULT_CONFIG ThreeKey sample_layouts None) in
  currentCharacter (window m) = [] /\
  previousCharacter (window m) = [1%Z] /\
  outcome endCharacter m = Returns tt /\
  previousCharacter (window (exec endCharacter m)) = [].
Proof.
  intros typed m.
  assert (Hcur : currentCharacter (window m) = []) by reflexivity.
  split; [exact Hcur|]. split; [reflexivity|].
  destruct (empty_finalization_overwrites_snapshot m Hcur) as (H1 & _ & H3).
  split; [exact H1|]. rewrite H3. reflexivity.
Defined.

(** In three-key mode: Primary pressed and released, Tertiary pressed and
    released -- the code [1] is finalized and becomes the snapshot -- then
    Tertiary pressed again on the empty buffer: the snapshot is lost. *)
Lemma empty_finalization_changes_state :
  let typed :=
    deliver_all [keyEvent "space" true 0 0%Q; keyEvent "space" false 0 (1 # 10)%Q;
                 keyEvent "right ctrl" true 2 (2 # 10)%Q;
                 keyEvent "right ctrl" false 2 (3 # 10)%Q] in
  let m := exec typed (boot DEFAULT_CONFIG ThreeKey sample_layouts None) in
  let m' := exec (deliver (keyEvent "right ctrl" true 2 (4 # 10)%Q)) m in
  currentCharacter (window m) = [] /\
  previousCharacter (window m) = [1%Z] /\
  previousCharacter (window m') = [] /\
  previousCharacter (window m') <> previousCharacter (window m) /\
  m' <> m.
Proof.
  intros typed m m'.
  assert (H1 : previousCharacter (window m) = [1%Z]) by reflexivity.
  assert (H2 : previousCharacter (window m') = []) by reflexivity.
  split; [reflexivity|]. split; [exact H1|]. split; [exact H2|].
  split; [rewrite H1, H2; discriminate|].
  intros E. rewrite E in H2. rewrite H2 in H1. discriminate.
Qed.

(** ** Sticky repeat *)

(** [endCharacter] starts the sticky-repeat timer exactly when, after the
    dispatch, the repeat flag is on and the snapshot is not empty. *)
Lemma endCharacter_starts_repeat (m : Machine) (t : QTimer) :
  repeat_character_timer (window m) = None ->
  repeat_character_timer (window (exec endCharacter m)) = Some t ->
  repeaton (window (exec endCharacter m)) = true /\
  previousCharacter (window (exec endCharacter m)) <> [] /\
  t = mkQTimer 300 false.
Proof.
  intros Hnone. unfold exec. rewrite endCharacter_eq. cbn zeta. simpl.
  match goal with |- context [exec (handleMorseCode ?c) ?x] =>
    destruct (handleMorseCode_framed c x) as [(_&_&_&_&_&_&_&_&F9&_) _];
    simpl in F9; destruct (exec (handleMorseCode c) x) as [w1 ? ?]
  end.
  open_window w1. simpl in *. subst.
  destruct rep; [destruct prev|]; simpl; rewrite ?Hnone; try discriminate.
  intros [= <-]. repeat split. discriminate.
Qed.

Lemma repeat_key_starts_repeat (key : string) (role : nat) (m : Machine) (t : QTimer) :
  repeat_character_timer (window m) = None ->
  repeat_character_timer (window (exec (repeat_key key role) m)) = Some t ->
  In codeslayoutview_reset (calls (repeat_key key role) m) /\
  repeaton (window (exec (repeat_key key role) m)) = true /\
  previousCharacter (window (exec (repeat_key key role) m)) <> [] /\
  t = mkQTimer 300 false.
Proof.
  intros Hnone. destruct role as [|[|[|role]]]; simpl.
  - unfold exec. rewrite addDit_eq. simpl. congruence.
  - unfold exec. rewrite addDah_eq. simpl. congruence.
  - intros H. split; [apply endCharacter_finalizes|].
    exact (endCharacter_starts_repeat m t Hnone H).
  - intros H. unfold exec in H. simpl in H. congruence.
Qed.

Lemma repeat_key_without_finalizing (key : string) (role : nat) (m : Machine) :
  ~ In codeslayoutview_reset (calls (repeat_key key role) m) ->
  repeaton (window (exec (repeat_key key role) m)) = repeaton (window m) /\
  repeat_character_timer (window (exec (repeat_key key role) m))
    = repeat_character_timer (window m).
Proof.
  destruct role as [|[|[|role]]]; simpl.
  - unfold exec. rewrite addDit_eq. simpl. auto.
  - unfold exec. rewrite addDah_eq. simpl. auto.
  - intros H. destruct (H (endCharacter_finalizes m)).
  - auto.
Qed.

(** What holds of the sticky-repeat timer that the attribute refers
    to: every press first turns the repeat flag off and drops that timer
    -- it acts as if both had been clear, and unless the press itself
    finalizes a character both are clear afterwards; and the attribute
    comes to hold a timer only through an event that finalizes a
    character, with the repeat flag on and a non-empty snapshot of the
    last completed code. *)
Lemma held_repeat_timer_lifecycle :
  (forall key role now m,
     let e := keyEvent key true role now in
     deliver e m = 
       (outcome (deliver e) (repeat_cleared m),
        exec (deliver e) (repeat_cleared m),
        calls (deliver e) (repeat_cleared m)) /\
     (~ finalizes e m ->
      repeaton (window (exec (deliver e) m)) = false /\
      repeat_character_timer (window (exec (deliver e) m)) = None)) /\
  (forall e m t,
     repeat_character_timer (window m) = None ->
     repeat_character_timer (window (exec (deliver e) m)) = Some t ->
     finalizes e m /\
     repeaton (window (exec (deliver e) m)) = true /\
     previousCharacter (window (exec (deliver e) m)) <> [] /\
     t = mkQTimer 300 false).
Proof.
  split.
  - intros key role now m e. subst e. unfold finalizes, exec, calls, outcome. simpl.
    rewrite !handle_key_event_eq, !on_press_eq.
    change (inputDisabled (window (repeat_cleared m))) with (inputDisabled (window m)).
    change (lastKeyDownTime (window (repeat_cleared m))) with (lastKeyDownTime (window m)).
    change (keySelectionRadio (window (repeat_cleared m)))
      with (keySelectionRadio (window m)).
    change (config (window (repeat_cleared m))) with (config (window m)).
    change (repeat_cleared (repeat_cleared m)) with (repeat_cleared m).
    destruct (String.eqb key "P"); [simpl; auto|].
    destruct (inputDisabled (window m)); [simpl; auto|].
    destruct (lastKeyDownTime (window m)); [simpl; auto|]. cbn zeta.
    destruct (keySelectionRadioOneKey_isChecked _); [simpl; auto|].
    change (window (repeat_cleared (repeat_cleared m))) with (window (repeat_cleared m)).
    match goal with |- context [repeat_key key role ?x] =>
      change (set_window ?w (repeat_cleared m)) with x;
      split; [rewrite (run_eq (repeat_key key role) x) at 1; reflexivity|];
      intros Hno;
      destruct (repeat_key_without_finalizing key role x Hno) as [E1 E2];
      unfold exec in E1, E2; rewrite E1, E2;
      destruct (fastMorseMode _); split; reflexivity
    end.
  - intros e m t Hnone. unfold finalizes.
    destruct e as [key is_press role now| | | |]; unfold exec, calls; simpl.
    + rewrite handle_key_event_eq. destruct is_press.
      * rewrite on_press_eq.
        destruct (String.eqb key "P"); [simpl; congruence|].
        destruct (inputDisabled (window m)); [simpl; congruence|].
        destruct (lastKeyDownTime (window m)); [simpl; congruence|]. cbn zeta.
        destruct (keySelectionRadioOneKey_isChecked _); [simpl; congruence|].
        match goal with |- context [repeat_key key role ?x] =>
          apply (repeat_key_starts_repeat key role x t)
        end.
        destruct (fastMorseMode _); reflexivity.
      * rewrite on_release_eq. cbn zeta.
        destruct (lastKeyDownTime (window m)); [|simpl; congruence].
        destruct (keySelectionRadio (window m)); simpl; congruence.
    + cbv [mbind M_bind bind self mret M_ret ret].
      destruct (endCharacterTimer (window m)); [|simpl; congruence].
      rewrite (run_eq endCharacter m). simpl.
      intros H. split; [apply endCharacter_finalizes|].
      exact (endCharacter_starts_repeat m t Hnone H).
    + cbv [mbind M_bind bind self mret M_ret ret].
      destruct (fast_morse_mode_timer (window m)) as [q|]; [|simpl; congruence].
      rewrite (run_eq (repeat_key _ _) m), repeat_key_returns. simpl.
      apply (repeat_key_starts_repeat _ _ m t Hnone).
    + cbv [mbind M_bind bind self mret M_ret ret]. rewrite Hnone. simpl. congruence.
    + cbv [mbind M_bind bind self mret M_ret ret].
      destruct (orphaned_repeat_timers (window m)); [simpl; congruence|].
      rewrite (run_eq (handleMorseCode _) m), handleMorseCode_returns. simpl.
      destruct (handleMorseCode_framed (previousCharacter (window m)) m)
        as [(_&_&_&_&_&_&_&_&F9&_) _].
      rewrite F9. congruence.
Qed.

Lemma held_repeat_timer_lifecycle_witness :
  let typed :=
    deliver_all [keyEvent "space" true 0 0%Q; keyEvent "space" false 0 (1 # 10)%Q;
                 keyEvent "right ctrl" true 2 (2 # 10)%Q;
                 keyEvent "right ctrl" false 2 (3 # 10)%Q;
                 keyEvent "enter" true 1 (4 # 10)%Q; keyEvent "enter" false 1 (5 # 10)%Q;
                 keyEvent "enter" true 1 (6 # 10)%Q; keyEvent "enter" false 1 (7 # 10)%Q;
                 keyEvent "enter" true 1 (8 # 10)%Q; keyEvent "enter" false 1 (9 # 10)%Q;
                 keyEvent "enter" true 1 (10 # 10)%Q;
                 keyEvent "enter" false 1 (11 # 10)%Q] in
  let m := exec typed (boot DEFAULT_CONFIG ThreeKey sample_layouts None) in
  let e := keyEvent "right ctrl" true 2 (12 # 10)%Q in
  repeat_character_timer (window m) = None /\
  repeat_character_timer (window (exec (deliver e) m)) = Some (mkQTimer 300 false) /\
  finalizes e m /\
  repeaton (window (exec (deliver e) m)) = true /\
  previousCharacter (window (exec (deliver e) m)) <> [].
Proof.
  intros typed m e.
  assert (H1 : repeat_character_timer (window m) = None) by reflexivity.
  assert (H2 : repeat_character_timer (window (exec (deliver e) m))
               = Some (mkQTimer 300 false)) by reflexivity.
  split; [exact H1|]. split; [exact H2|].
  destruct held_repeat_timer_lifecycle as [_ H].
  destruct (H e m _ H1 H2) as (F & R & P & _).
  exact (conj F (conj R P)).
Defined.

(** ** Orphaned sticky-repeat timers *)

Lemma endCharacter_orphans (x : Machine) :
  exists l,
    orphaned_repeat_timers (window (exec endCharacter x))
      = l ++ orphaned_repeat_timers (window x) /\
    (repeat_character_timer (window x) = None -> l = []).
Proof.
  unfold exec. rewrite endCharacter_eq. cbn zeta. simpl.
  match goal with |- context [exec (handleMorseCode ?c) ?y] =>
    destruct (handleMorseCode_framed c y) as [(_&_&_&_&_&_&_&_&F9&_&_&_&F13) _];
    simpl in F9, F13; destruct (exec (handleMorseCode c) y) as [w1 ? ?]
  end.
  open_window w1. simpl in *. subst.
  destruct rep; [destruct prev; [|destruct (repeat_character_timer (window x)) as [t|]]|];
    simpl; first [ exists []; split; [reflexivity | reflexivity]
                 | exists [t]; split; [reflexivity | discriminate] ].
Qed.

Lemma repeat_key_orphans (key : string) (role : nat) (x : Machine) :
  exists l,
    orphaned_repeat_timers (window (exec (repeat_key key role) x))
      = l ++ orphaned_repeat_timers (window x) /\
    (repeat_character_timer (window x) = None -> l = []).
Proof.
  destruct role as [|[|[|role]]]; simpl.
  - exists []. unfold exec. rewrite addDit_eq. split; reflexivity.
  - exists []. unfold exec. rewrite addDah_eq. split; reflexivity.
  - apply endCharacter_orphans.
  - exists []. split; reflexivity.
Qed.

(** No event stops a sticky-repeat timer once it is orphaned: the
    orphaned timers after an event are those before it, and possibly
    more; a key press adds none and removes none. *)
Lemma orphaned_timers_keep_running (e : Event) (m : Machine) :
  exists l,
    orphaned_repeat_timers (window (exec (deliver e) m))
      = l ++ orphaned_repeat_timers (window m) /\
    (forall key role now, e = keyEvent key true role now -> l = []).
Proof.
  destruct e as [key is_press role now| | | |].
  - rewrite exec_deliver_key. destruct is_press; unfold exec.
    + rewrite on_press_eq. unfold repeat_cleared.
      destruct (String.eqb key "P"); [exists []; split; [reflexivity|auto]|].
      destruct (inputDisabled (window m)); [exists []; split; [reflexivity|auto]|].
      destruct (lastKeyDownTime (window m)); [exists []; split; [reflexivity|auto]|].
      cbn zeta.
      destruct (keySelectionRadioOneKey_isChecked _);
        [exists []; split; [reflexivity|auto]|].
      match goal with |- context [repeat_key key role ?x] =>
        destruct (repeat_key_orphans key role x) as (l & Hl & Hnil)
      end.
      assert (l = []) as -> by (apply Hnil; destruct (fastMorseMode _); reflexivity).
      exists []. split; [|auto].
      unfold exec in Hl. rewrite Hl. destruct (fastMorseMode _); reflexivity.
    + rewrite on_release_eq. cbn zeta.
      destruct (lastKeyDownTime (window m));
        [|exists []; split; [reflexivity|discriminate]].
      destruct (keySelectionRadio (window m)); exists [];
        (split; [reflexivity|discriminate]).
  - unfold exec. simpl. cbv [mbind M_bind bind self mret M_ret ret].
    destruct (endCharacterTimer (window m));
      [|exists []; split; [reflexivity|discriminate]].
    rewrite (run_eq endCharacter m). simpl.
    destruct (endCharacter_orphans m) as (l & Hl & _).
    exists l. split; [exact Hl|discriminate].
  - unfold exec. simpl. cbv [mbind M_bind bind self mret M_ret ret].
    destruct (fast_morse_mode_timer (window m)) as [q|];
      [|exists []; split; [reflexivity|discriminate]].
    rewrite (run_eq (repeat_key _ _) m). simpl.
    destruct (repeat_key_orphans (captured_key q) (captured_role q) m) as (l & Hl & _).
    exists l. split; [exact Hl|discriminate].
  - unfold exec. simpl. cbv [mbind M_bind bind self mret M_ret ret].
    destruct (repeat_character_timer (window m));
      [|exists []; split; [reflexivity|discriminate]].
    rewrite (run_eq (handleMorseCode _) m). simpl.
    destruct (handleMorseCode_framed (previousCharacter (window m)) m)
      as [(_&_&_&_&_&_&_&_&_&_&_&_&F13) _].
    exists []. split; [exact F13|discriminate].
  - unfold exec. simpl. cbv [mbind M_bind bind self mret M_ret ret].
    destruct (orphaned_repeat_timers (window m)) as [|t ts] eqn:E;
      [exists []; split; [simpl; rewrite E; reflexivity|discriminate]|].
    rewrite (run_eq (handleMorseCode _) m). simpl.
    destruct (handleMorseCode_framed (previousCharacter (window m)) m)
      as [(_&_&_&_&_&_&_&_&_&_&_&_&F13) _].
    exists []. split; [rewrite F13, E; reflexivity|discriminate].
Qed.

(** C6, on the code: a press clears the repeat flag and stops the timer
    that [repeat_character_timer] refers to, but not every running
    sticky-repeat timer.  [endCharacter] rebinds the attribute to a new
    [QTimer(self)] without stopping the one it holds (as
    [startEndCharacterTimer] does for the boundary timer), and no event
    stops a timer orphaned in this way.  Three-key mode with fast repeat:
    the letter [1] is keyed and finalized; the repeat command [2222] is
    keyed and the third switch is held for more than 100 ms, so that the
    press and one expiry of the fast-repeat timer both finalize with the
    repeat flag on.  After the release and the next press the flag is off
    and the attribute holds no timer, yet one sticky-repeat timer is
    still running, and its expiry types the letter again. *)
Theorem press_leaves_orphaned_repeat_timer :
  (forall e m, exists l,
     orphaned_repeat_timers (window (exec (deliver e) m))
       = l ++ orphaned_repeat_timers (window m)) /\
  let cfg := mkConfig (Some 350%Q) 1000%Q true false None false in
  let m0 := boot cfg ThreeKey sample_layouts
              (Some (new_TypeState (fun _ => Returns []) brb_table)) in
  let dah t := [keyEvent "enter" true 1 t; keyEvent "enter" false 1 (t + (1 # 20))%Q] in
  let held :=
    [keyEvent "space" true 0 0%Q; keyEvent "space" false 0 (1 # 20)%Q;
     keyEvent "right ctrl" true 2 (2 # 20)%Q; keyEvent "right ctrl" false 2 (3 # 20)%Q]
    ++ dah 1%Q ++ dah 2%Q ++ dah 3%Q ++ dah 4%Q
    ++ [keyEvent "right ctrl" true 2 5%Q; fast_morse_mode_timer_timeout] in
  let m := exec (deliver_all held) m0 in
  let pressed :=
    exec (deliver_all [keyEvent "right ctrl" false 2 (103 # 20)%Q;
                       keyEvent "space" true 0 6%Q]) m in
  repeat_character_timer (window m) = Some (mkQTimer 300 false) /\
  orphaned_repeat_timers (window m) = [mkQTimer 300 false] /\
  repeaton (window pressed) = false /\
  repeat_character_timer (window pressed) = None /\
  orphaned_repeat_timers (window pressed) = [mkQTimer 300 false] /\
  calls (deliver orphaned_repeat_timer_timeout) pressed =
    [print (Some (mkItem (Some "1") (Some (ActionKeyStroke "e" (Some "e") false))));
     keyboard_press_and_release "e";
     logging INFO "[handleMorseCode] Action performed for Morse code: 1" None].
Proof.
  split.
  { intros e m. destruct (orphaned_timers_keep_running e m) as (l & Hl & _).
    exists l. exact Hl. }
  intros cfg m0 dah held m pressed.
  assert (H1 : repeat_character_timer (window m) = Some (mkQTimer 300 false))
    by reflexivity.
  assert (H2 : orphaned_repeat_timers (window m) = [mkQTimer 300 false]) by reflexivity.
  assert (H3 : repeaton (window pressed) = false) by reflexivity.
  assert (H4 : repeat_character_timer (window pressed) = None) by reflexivity.
  assert (H5 : orphaned_repeat_timers (window pressed) = [mkQTimer 300 false])
    by reflexivity.
  assert (H6 : calls (deliver orphaned_repeat_timer_timeout) pressed =
    [print (Some (mkItem (Some "1") (Some (ActionKeyStroke "e" (Some "e") false))));
     keyboard_press_and_release "e";
     logging INFO "[handleMorseCode] Action performed for Morse code: 1" None])
    by reflexivity.
  exact (conj H1 (conj H2 (conj H3 (conj H4 (conj H5 H6))))).
Qed.

(** ** Dispatch *)

Lemma for_each_emit_eq {A} (f : A -> Effect) (xs : list A) (m : Machine) :
  for_each xs (fun x => emit (f x)) m = (Returns tt, m, map f xs).
Proof.
  induction xs as [|x xs IH]; [reflexivity|].
  simpl. unfold bind. simpl. rewrite IH. reflexivity.
Qed.

Lemma action_map_returns :
  Forall (fun entry => forall m, outcome (snd entry) m = Returns tt) action_map.
Proof.
  unfold action_map.
  repeat (constructor; [intros m; reflexivity|]). constructor.
Qed.

Lemma lookup_action_returns key table f :
  Forall (fun entry => forall m, outcome (snd entry) m = Returns tt) table ->
  lookup_action key table = Some f -> forall m, outcome f m = Returns tt.
Proof.
  induction 1 as [|[k g] rest Hg _ IH]; simpl; [discriminate|].
  destruct (String.eqb k key); [|exact IH].
  intros [= <-]. exact Hg.
Qed.

Lemma PredictionSelectLayoutAction_perform_returns target m :
  outcome (PredictionSelectLayoutAction_perform target) m = Returns tt.
Proof.
  unfold outcome, PredictionSelectLayoutAction_perform, getpredictions, update,
    deref, read, write.
  cbv [mbind M_bind bind mret M_ret ret raise].
  destruct m as [w g kp]. simpl.
  destruct g as [ts|]; [|reflexivity]. simpl.
  destruct (predictions ts) as [p|].
  - simpl. destruct (_ && _); [|reflexivity].
    destruct (p !! Z.to_nat target); [|reflexivity].
    simpl. rewrite for_each_emit_eq. reflexivity.
  - destruct (presage_predict ts (text ts)) as [p|e]; simpl.
    + destruct (_ && _); [|reflexivity].
      destruct (p !! Z.to_nat target); [|reflexivity].
      simpl. rewrite for_each_emit_eq. reflexivity.
    + destruct (_ && _); reflexivity.
Qed.

(** No action raises into [handleMorseCode]. *)
Lemma perform_returns (action : Action) (m : Machine) :
  outcome (perform action) m = Returns tt.
Proof.
  destruct action as [key|key character toggle|name|target|]; simpl.
  - unfold ActionLegacy_perform. destruct key as [k|]; [|reflexivity].
    destruct (String.eqb k ""); [reflexivity|].
    destruct (lookup_action k action_map) as [f|] eqn:E; [|reflexivity].
    exact (lookup_action_returns k action_map f action_map_returns E m).
  - apply try_except_returns. reflexivity.
  - unfold outcome, changeLayout, set_active.
    cbv [mbind M_bind bind mret M_ret ret raise emit self assign]. simpl.
    destruct (layouts (layoutManager (window m)) !! name) eqn:E; [|reflexivity].
    simpl. rewrite E. reflexivity.
  - apply PredictionSelectLayoutAction_perform_returns.
  - unfold outcome, enableRepeatMode. cbv [mbind M_bind bind self]. simpl.
    destruct (debug (config (window m))); reflexivity.
Qed.

Lemma prefix_append (s t : string) : String.prefix s (s +:+ t) = true.
Proof.
  induction s as [|a s IH]; [destruct t; reflexivity|].
  simpl. destruct (ascii_dec a a); [exact IH | contradiction].
Qed.

(** A code that matches: the action of the first item that carries
    exactly this code is performed, and reported. *)
Lemma handleMorseCode_hit (symbols : list MorseSymbol) (layout : Layout)
    (item : Item) (action : Action) (m : Machine) :
  symbols <> [] ->
  outcome get_active_layout m = Returns layout ->
  List.find (code_is (digits symbols)) (items layout) = Some item ->
  _action item = Some action ->
  handleMorseCode (buffer_of symbols) m =
    (Returns tt, exec (perform action) m,
     print (Some item) :: calls (perform action) m
       ++ logging INFO
            ("[handleMorseCode] Action performed for Morse code: " +:+ digits symbols) None
       :: (if withsound (config (window m))
           then [play_audio (default "res/typing_sound.wav"
                               (SoundTyping (config (window m))))]
           else [])).
Proof.
  intros Hne Hlayout Hfind Haction. unfold handleMorseCode.
  rewrite morse_code_of_buffer, (digits_nonempty _ Hne).
  unfold try_except. cbv [mbind M_bind bind].
  rewrite get_active_layout_pure, Hlayout, Hfind. simpl. rewrite Haction.
  rewrite (run_eq (perform action) m), perform_returns. simpl.
  destruct (perform_framed action m) as [(F1 & _) _]. rewrite F1.
  destruct (withsound (config (window m))); reflexivity.
Qed.

(** C2, as the code has it: the buffer is rendered with the digit [1] for
    each [Dit] and [2] for each [Dah] -- the marks [.] and [-] are what
    [codetocode] makes of that string for the keypad -- and the rendered
    string is compared for equality with the codes of the active layout.
    Without an item that carries exactly this string nothing is
    dispatched; otherwise the action of the first such item is. *)
Theorem resolver_matches_rendered_digits
    (symbols : list MorseSymbol) (layout : Layout) (m : Machine) :
  symbols <> [] ->
  outcome get_active_layout m = Returns layout ->
  morse_code_of (buffer_of symbols) = digits symbols /\
  codetocode (digits symbols) = marks symbols /\
  ((forall item, In item (items layout) -> code item <> Some (digits symbols)) ->
   exec (handleMorseCode (buffer_of symbols)) m = m /\
   calls (handleMorseCode (buffer_of symbols)) m =
     [print None;
      logging WARNING
        ("[handleMorseCode] No action found for Morse code: " +:+ digits symbols) None]) /\
  (forall item action,
     List.find (code_is (digits symbols)) (items layout) = Some item ->
     _action item = Some action ->
     In item (items layout) /\
     code item = Some (digits symbols) /\
     exec (handleMorseCode (buffer_of symbols)) m = exec (perform action) m /\
     exists rest,
       calls (handleMorseCode (buffer_of symbols)) m =
         print (Some item) :: calls (perform action) m ++ rest /\
       existsb is_dispatch rest = true).
Proof.
  intros Hne Hlayout.
  split; [apply morse_code_of_buffer|]. split; [apply codetocode_digits|]. split.
  - intros Hmiss. apply find_none_iff in Hmiss.
    unfold exec, calls. rewrite (handleMorseCode_miss _ _ _ Hne Hlayout Hmiss).
    split; reflexivity.
  - intros item action Hfind Haction.
    destruct (List.find_some _ _ Hfind) as [Hin Hcode].
    split; [exact Hin|]. split.
    { unfold code_is in Hcode. destruct (code item) as [c|]; [|discriminate].
      apply String.eqb_eq in Hcode. congruence. }
    unfold exec at 1, calls at 1.
    rewrite (handleMorseCode_hit _ _ _ _ _ Hne Hlayout Hfind Haction).
    split; [reflexivity|]. eexists. split; [reflexivity|].
    simpl existsb. unfold is_dispatch at 1. rewrite prefix_append. reflexivity.
Qed.

Lemma resolver_matches_rendered_digits_witness :
  let m := boot DEFAULT_CONFIG ThreeKey sample_layouts None in
  outcome get_active_layout m = Returns sample_layout /\
  morse_code_of (buffer_of [Dit; Dah]) = "12" /\
  codetocode "12" = ".-".
Proof.
  intros m. split; [reflexivity|].
  destruct (resolver_matches_rendered_digits [Dit; Dah] sample_layout m)
    as (H1 & H2 & _).
  - discriminate.
  - reflexivity.
  - split; [exact H1 | exact H2].
Defined.

(** The active layout carries the code [.-]; Primary then Secondary are
    pressed and the Tertiary press finalizes the buffer.  The marks of the
    buffer are [.-], yet the lookup is made with [12] and dispatches
    nothing. *)
Lemma marks_are_not_looked_up :
  let typed :=
    deliver_all [keyEvent "space" true 0 0%Q; keyEvent "space" false 0 (1 # 10)%Q;
                 keyEvent "enter" true 1 (2 # 10)%Q; keyEvent "enter" false 1 (3 # 10)%Q] in
  let m := exec typed (boot DEFAULT_CONFIG ThreeKey marked_layouts None) in
  let finalize := deliver (keyEvent "right ctrl" true 2 (4 # 10)%Q) in
  currentCharacter (window m) = buffer_of [Dit; Dah] /\
  marks [Dit; Dah] = ".-" /\
  (exists layout item,
      outcome get_active_layout m = Returns layout /\
      In item (items layout) /\ code item = Some (marks [Dit; Dah])) /\
  morse_code_of (buffer_of [Dit; Dah]) <> marks [Dit; Dah] /\
  calls finalize m =
    [print None;
     logging WARNING "[handleMorseCode] No action found for Morse code: 12" None;
     codeslayoutview_reset] /\
  existsb is_dispatch (calls finalize m) = false.
Proof.
  intros typed m finalize.
  split; [reflexivity|]. split; [reflexivity|]. split.
  { eexists. eexists. split; [reflexivity|]. split; [left; reflexivity | reflexivity]. }
  split; [discriminate|]. split; reflexivity.
Qed.

(** ** Abbreviations *)

Lemma pop_and_backspace_run (n : nat) (w : Window) (g : option TypeState)
    (kp : string -> bool) (ts : TypeState) :
  typestate w = Some ts ->
  exists ts',
    pop_and_backspace window_typestate n (mkMachine w g kp) =
      (Returns tt, mkMachine (set_typestate (Some ts') w) g kp,
       repeat (keyboard_press_and_release "backspace") n) /\
    text ts' = Nat.iter n Py.drop_last (text ts).
Proof.
  revert w ts. induction n as [|n IH]; intros w ts Hts.
  - exists ts. split; [|reflexivity].
    open_window w. simpl in Hts. subst. reflexivity.
  - open_window w. simpl in Hts. subst.
    set (ts1 := set_predictions None (set_text (Py.drop_last (text ts)) ts)).
    destruct (IH (mkWindow cfg mode lm (Some ts1) cur prev down endt disabled fast rept rep
                   orph)
                ts1 eq_refl) as (ts' & Hrun & Htext).
    exists ts'. split.
    + simpl pop_and_backspace. unfold popchar, update, deref, read, write.
      cbv [mbind M_bind bind mret M_ret ret raise emit]. simpl.
      cbv [set_window set_typestate window global_typestate keyboard_is_pressed
           config keySelectionRadio layoutManager typestate currentCharacter
           previousCharacter lastKeyDownTime endCharacterTimer inputDisabled
           fast_morse_mode_timer repeat_character_timer repeaton
       orphaned_repeat_timers] in Hrun |- *.
      fold ts1. rewrite Hrun. reflexivity.
    + rewrite Htext. simpl text. rewrite Nat.iter_succ_r. reflexivity.
Qed.

(** A keystroke whose character completes an abbreviation -- the last
    word of the text buffer, once the character is appended, is a key of
    the table -- synthesizes its own key, one backspace for each character
    of the abbreviation, the characters of the expansion and the key
    [space]; the text buffer loses the abbreviation. *)
Lemma keystroke_completing_abbreviation
    (key c abbreviation expansion : string) (ts : TypeState) (m : Machine) :
  typestate (window m) = Some ts ->
  String.eqb key "backspace" || String.eqb key "delete" = false ->
  last (Py.split (text ts +:+ c)) = Some abbreviation ->
  abbreviations ts !! abbreviation = Some expansion ->
  calls (perform (ActionKeyStroke key (Some c) false)) m =
    keyboard_press_and_release key
      :: repeat (keyboard_press_and_release "backspace") (String.length abbreviation)
      ++ map keyboard_press_and_release (Py.chars expansion)
      ++ [keyboard_press_and_release "space"] /\
  exists ts',
    typestate (window (exec (perform (ActionKeyStroke key (Some c) false)) m)) = Some ts' /\
    text ts' = Nat.iter (String.length abbreviation) Py.drop_last (text ts +:+ c).
Proof.
  intros Hts Hkey Hlast Hlookup.
  destruct m as [w g kp]. open_window w. simpl in Hts. subst.
  destruct ts as [txt preds predict table expanded klen]. simpl in *.
  unfold calls, exec. simpl perform.
  unfold ActionKeyStroke_perform, past_stream, pushchar, get_abbreviation,
    update, deref, read, write, try_except.
  cbv [mbind M_bind bind mret M_ret ret raise]. simpl.
  rewrite Hkey. simpl. unfold expand_abbreviation. simpl.
  rewrite Hlast, Hlookup. simpl.
  cbv [set_window set_typestate set_text set_predictions set_expanded_text
       set_keyLength window global_typestate keyboard_is_pressed
       config keySelectionRadio layoutManager typestate currentCharacter
       previousCharacter lastKeyDownTime endCharacterTimer inputDisabled
       fast_morse_mode_timer repeat_character_timer repeaton
       orphaned_repeat_timers
       text predictions presage_predict abbreviations expanded_text keyLength].
  match goal with |- context [pop_and_backspace window_typestate ?n (mkMachine ?w ?g ?k)] =>
    destruct (pop_and_backspace_run n w g k
                (mkTypeState (txt +:+ c) None predict table (ExpStr expansion)
                   (Some (String.length abbreviation))) eq_refl)
      as (ts' & Hrun & Htext)
  end.
  rewrite Hrun. simpl.
  rewrite for_each_emit_eq. simpl.
  split; [reflexivity|]. exists ts'. split; [reflexivity | exact Htext].
Qed.

(** C8, as the code has it: with the table [{"brb": "be right back"}] the
    keystrokes b, r, b synthesize -- on the third keystroke, no trigger key
    being involved -- three backspaces, the characters of
    [be right back] and the key [space]; the first two keystrokes
    synthesize their own key only, and the text buffer ends up empty. *)
Theorem brb_expands_on_third_keystroke :
  let m0 := typing_machine brb_table in
  let m2 := exec (perform key_B;; perform key_R) m0 in
  calls (perform key_B;; perform key_R) m0 =
    map keyboard_press_and_release ["b"; "r"] /\
  calls (perform key_B) m2 =
    map keyboard_press_and_release
      (["b"; "backspace"; "backspace"; "backspace"]
         ++ Py.chars "be right back" ++ ["space"]) /\
  text <$> typestate (window (exec (perform key_B) m2)) = Some "".
Proof.
  intros m0 m2. split; [reflexivity|].
  destruct (keystroke_completing_abbreviation "b" "b" "brb" "be right back"
              (mkTypeState "br" None (fun _ => Returns []) brb_table ExpNone None) m2)
    as (Hcalls & ts' & Hts & Htext); try reflexivity.
  split; [exact Hcalls|].
  change (perform key_B) with (perform (ActionKeyStroke "b" (Some "b") false)).
  rewrite Hts. simpl. rewrite Htext. reflexivity.
Qed.

(** After b, r, b the expansion is complete; the key [space] typed next is
    no trigger: it synthesizes itself and three backspaces, and nothing of
    the expansion. *)
Lemma space_after_brb_expands_nothing :
  let m0 := typing_machine brb_table in
  let typed := perform key_B;; perform key_R;; perform key_B in
  calls typed m0 =
    map keyboard_press_and_release
      (["b"; "r"; "b"; "backspace"; "backspace"; "backspace"]
         ++ Py.chars "be right back" ++ ["space"]) /\
  calls (perform key_SPACE) (exec typed m0) =
    [keyboard_press_and_release "space";
     logging ERROR "[TypeState] Failed to get abbreviations: " (Some IndexError);
     keyboard_press_and_release "backspace";
     keyboard_press_and_release "backspace";
     keyboard_press_and_release "backspace";
     logging ERROR "[ActionKeyStroke] Error during key press/release: " (Some TypeError)] /\
  calls (perform key_SPACE) (exec typed m0) <>
    map keyboard_press_and_release
      (["backspace"; "backspace"; "backspace"] ++ Py.chars "be right back" ++ ["space"]).
Proof.
  intros m0 typed.
  assert (H : calls (perform key_SPACE) (exec typed m0) =
              [keyboard_press_and_release "space";
               logging ERROR "[TypeState] Failed to get abbreviations: " (Some IndexError);
               keyboard_press_and_release "backspace";
               keyboard_press_and_release "backspace";
               keyboard_press_and_release "backspace";
               logging ERROR "[ActionKeyStroke] Error during key press/release: "
                 (Some TypeError)]) by reflexivity.
  split; [reflexivity|]. split; [exact H|]. rewrite H. discriminate.
Qed.

(** ** Selecting a prediction *)

(** Without a module-level [typestate] the action does nothing. *)
Lemma prediction_select_void_without_module_typestate (target : Z) (m : Machine) :
  global_typestate m = None ->
  perform (PredictionSelectLayoutAction target) m = (Returns tt, m, []).
Proof.
  intros H. simpl. unfold PredictionSelectLayoutAction_perform, read.
  cbv [mbind M_bind bind]. rewrite H. reflexivity.
Qed.

(** No event binds the module-level [typestate]. *)
Lemma module_typestate_never_bound (es : list Event) (m : Machine) :
  global_typestate m = None ->
  global_typestate (exec (deliver_all es) m) = None.
Proof.
  assert (Hend : forall x, global_typestate x = None ->
                           global_typestate (exec endCharacter x) = None).
  { intros x Hx. unfold exec. rewrite endCharacter_eq. cbn zeta. simpl.
    match goal with |- context [exec (handleMorseCode ?c) ?y] =>
      destruct (handleMorseCode_framed c y) as [(_&_&_&_&_&_&_&_&_&_&_&F&_) _]
    end.
    apply F. exact Hx. }
  assert (Hrk : forall key role x, global_typestate x = None ->
                  global_typestate (exec (repeat_key key role) x) = None).
  { intros key role x Hx. destruct role as [|[|[|role]]]; simpl.
    - unfold exec. rewrite addDit_eq. exact Hx.
    - unfold exec. rewrite addDah_eq. exact Hx.
    - apply Hend. exact Hx.
    - exact Hx. }
  revert m. induction es as [|e es IH]; intros m Hm; [exact Hm|].
  rewrite exec_deliver_all_cons. apply IH.
  destruct e as [key is_press role now| | | |]; unfold exec; simpl.
  - rewrite handle_key_event_eq. destruct is_press.
    + rewrite on_press_eq.
      destruct (String.eqb key "P"); [exact Hm|].
      destruct (inputDisabled (window m)); [exact Hm|].
      destruct (lastKeyDownTime (window m)); [exact Hm|]. cbn zeta.
      destruct (keySelectionRadioOneKey_isChecked _); [exact Hm|].
      apply Hrk. exact Hm.
    + rewrite on_release_eq. cbn zeta.
      destruct (lastKeyDownTime (window m)); [|exact Hm].
      destruct (keySelectionRadio (window m)); exact Hm.
  - cbv [mbind M_bind bind self mret M_ret ret].
    destruct (endCharacterTimer (window m)); [|exact Hm].
    rewrite (run_eq endCharacter m). simpl. apply Hend. exact Hm.
  - cbv [mbind M_bind bind self mret M_ret ret].
    destruct (fast_morse_mode_timer (window m)) as [q|]; [|exact Hm].
    rewrite (run_eq (repeat_key _ _) m). simpl. apply Hrk. exact Hm.
  - cbv [mbind M_bind bind self mret M_ret ret].
    destruct (repeat_character_timer (window m)); [|exact Hm].
    rewrite (run_eq (handleMorseCode _) m). simpl.
    destruct (handleMorseCode_framed (previousCharacter (window m)) m)
      as [(_&_&_&_&_&_&_&_&_&_&_&F&_) _].
    apply F. exact Hm.
  - cbv [mbind M_bind bind self mret M_ret ret].
    destruct (orphaned_repeat_timers (window m)); [exact Hm|].
    rewrite (run_eq (handleMorseCode _) m). simpl.
    destruct (handleMorseCode_framed (previousCharacter (window m)) m)
      as [(_&_&_&_&_&_&_&_&_&_&_&F&_) _].
    apply F. exact Hm.
Qed.

(** C9 on the input [text = "hel"], [predictions = ["hello"]], slot 0.
    In the program the [TypeState] is an attribute of the window and the
    module-level [typestate] stays [None]: the action does nothing.
    Were the same [TypeState] bound to the module-level name, the keys
    [l], [o] and the space would be synthesized, but the text buffer
    would be left as [lo ] and not as [hello ]. *)
Theorem prediction_select_on_typed_prefix :
  let ts := mkTypeState "hel" (Some ["hello"]) (fun _ => Returns ["hello"]) ∅ ExpNone (Some 0) in
  let in_program := boot DEFAULT_CONFIG TwoKey sample_layouts (Some ts) in
  let bound := set_global_typestate (Some ts) in_program in
  let select := perform (PredictionSelectLayoutAction 0) in
  (exec select in_program = in_program /\ calls select in_program = []) /\
  calls select bound = map keyboard_press_and_release ["l"; "o"; " "] /\
  text <$> global_typestate (exec select bound) = Some "lo " /\
  text <$> global_typestate (exec select bound) <> Some "hello ".
Proof.
  intros ts in_program bound select.
  split; [split; reflexivity|]. split; [reflexivity|].
  assert (H : text <$> global_typestate (exec select bound) = Some "lo ") by reflexivity.
  split; [exact H|]. rewrite H. discriminate.
Qed.

(** ** Invariants of the engine *)

(** The buffer only ever holds the values of symbols. *)
Lemma buffer_holds_symbols (es : list Event) (m : Machine) :
  (exists symbols, currentCharacter (window m) = buffer_of symbols) ->
  exists symbols, currentCharacter (window (exec (deliver_all es) m)) = buffer_of symbols.
Proof.
  assert (Hend : forall x, exists symbols,
                   currentCharacter (window (exec endCharacter x)) = buffer_of symbols).
  { intros x. exists []. unfold exec. rewrite endCharacter_eq. reflexivity. }
  assert (Hrk : forall key role x,
             (exists symbols, currentCharacter (window x) = buffer_of symbols) ->
             exists symbols,
               currentCharacter (window (exec (repeat_key key role) x)) = buffer_of symbols).
  { intros key role x [symbols Hx]. destruct role as [|[|[|role]]]; simpl.
    - exists (symbols ++ [Dit]). unfold exec. rewrite addDit_eq. simpl.
      rewrite Hx. unfold buffer_of. rewrite map_app. reflexivity.
    - exists (symbols ++ [Dah]). unfold exec. rewrite addDah_eq. simpl.
      rewrite Hx. unfold buffer_of. rewrite map_app. reflexivity.
    - apply Hend.
    - exists symbols. exact Hx. }
  revert m. induction es as [|e es IH]; intros m Hm; [exact Hm|].
  rewrite exec_deliver_all_cons. apply IH.
  destruct e as [key is_press role now| | | |]; unfold exec; simpl.
  - rewrite handle_key_event_eq. destruct is_press.
    + rewrite on_press_eq.
      destruct (String.eqb key "P"); [exact Hm|].
      destruct (inputDisabled (window m)); [exact Hm|].
      destruct (lastKeyDownTime (window m)); [exact Hm|]. cbn zeta.
      destruct (keySelectionRadioOneKey_isChecked _); [exact Hm|].
      apply Hrk. destruct (fastMorseMode _); exact Hm.
    + rewrite on_release_eq. cbn zeta.
      destruct (lastKeyDownTime (window m)); [|exact Hm].
      destruct Hm as [symbols Hm].
      destruct (keySelectionRadio (window m)); simpl; try (exists symbols; exact Hm).
      exists (symbols ++ [classify (config (window m)) ((now - q) * 1000)]).
      rewrite Hm. unfold buffer_of. rewrite map_app. reflexivity.
  - cbv [mbind M_bind bind self mret M_ret ret].
    destruct (endCharacterTimer (window m)); [|exact Hm].
    rewrite (run_eq endCharacter m). simpl. apply Hend.
  - cbv [mbind M_bind bind self mret M_ret ret].
    destruct (fast_morse_mode_timer (window m)) as [t|]; [|exact Hm].
    rewrite (run_eq (repeat_key _ _) m). simpl. apply Hrk. exact Hm.
  - cbv [mbind M_bind bind self mret M_ret ret].
    destruct (repeat_character_timer (window m)); [|exact Hm].
    rewrite (run_eq (handleMorseCode _) m). simpl.
    destruct (handleMorseCode_framed (previousCharacter (window m)) m)
      as [(_&_&F&_) _].
    rewrite F. exact Hm.
  - cbv [mbind M_bind bind self mret M_ret ret].
    destruct (orphaned_repeat_timers (window m)); [exact Hm|].
    rewrite (run_eq (handleMorseCode _) m). simpl.
    destruct (handleMorseCode_framed (previousCharacter (window m)) m)
      as [(_&_&F&_) _].
    rewrite F. exact Hm.
Qed.

(** While the sticky-repeat timer is held the repeat flag is on. *)
Lemma repeat_timer_held_only_with_flag (es : list Event) (m : Machine) :
  (repeat_character_timer (window m) <> None -> repeaton (window m) = true) ->
  repeat_character_timer (window (exec (deliver_all es) m)) <> None ->
  repeaton (window (exec (deliver_all es) m)) = true.
Proof.
  assert (Hend : forall x,
             (repeat_character_timer (window x) <> None -> repeaton (window x) = true) ->
             repeat_character_timer (window (exec endCharacter x)) <> None ->
             repeaton (window (exec endCharacter x)) = true).
  { intros x Hx. unfold exec. rewrite endCharacter_eq. cbn zeta. simpl.
    match goal with |- context [exec (handleMorseCode ?c) ?y] =>
      destruct (handleMorseCode_framed c y) as [(_&_&_&_&_&_&_&_&F9&F10&_) _];
      simpl in F9, F10; destruct (exec (handleMorseCode c) y) as [w1 ? ?]
    end.
    open_window w1. simpl in *. subst.
    destruct rep; [destruct prev|]; simpl; auto. }
  assert (Hrk : forall key role x,
             (repeat_character_timer (window x) <> None -> repeaton (window x) = true) ->
             repeat_character_timer (window (exec (repeat_key key role) x)) <> None ->
             repeaton (window (exec (repeat_key key role) x)) = true).
  { intros key role x Hx. destruct role as [|[|[|role]]]; simpl.
    - unfold exec. rewrite addDit_eq. exact Hx.
    - unfold exec. rewrite addDah_eq. exact Hx.
    - apply Hend. exact Hx.
    - exact Hx. }
  revert m. induction es as [|e es IH]; intros m Hm; [exact Hm|].
  rewrite exec_deliver_all_cons. apply IH.
  destruct e as [key is_press role now| | | |]; unfold exec; simpl.
  - rewrite handle_key_event_eq. destruct is_press.
    + rewrite on_press_eq.
      destruct (String.eqb key "P"); [simpl; congruence|].
      destruct (inputDisabled (window m)); [simpl; congruence|].
      destruct (lastKeyDownTime (window m)); [simpl; congruence|]. cbn zeta.
      destruct (keySelectionRadioOneKey_isChecked _); [simpl; congruence|].
      apply Hrk. destruct (fastMorseMode _); simpl; congruence.
    + rewrite on_release_eq. cbn zeta.
      destruct (lastKeyDownTime (window m)); [|exact Hm].
      destruct (keySelectionRadio (window m)); exact Hm.
  - cbv [mbind M_bind bind self mret M_ret ret].
    destruct (endCharacterTimer (window m)); [|exact Hm].
    rewrite (run_eq endCharacter m). simpl. apply Hend. exact Hm.
  - cbv [mbind M_bind bind self mret M_ret ret].
    destruct (fast_morse_mode_timer (window m)) as [t|]; [|exact Hm].
    rewrite (run_eq (repeat_key _ _) m). simpl. apply Hrk. exact Hm.
  - cbv [mbind M_bind bind self mret M_ret ret].
    destruct (repeat_character_timer (window m)) eqn:E;
      [|simpl; rewrite E; congruence].
    rewrite (run_eq (handleMorseCode _) m). simpl.
    destruct (handleMorseCode_framed (previousCharacter (window m)) m)
      as [(_&_&_&_&_&_&_&_&F9&F10&_) _].
    intros _. apply F10, Hm. rewrite ?E. discriminate.
  - cbv [mbind M_bind bind self mret M_ret ret].
    destruct (orphaned_repeat_timers (window m)); [exact Hm|].
    rewrite (run_eq (handleMorseCode _) m). simpl.
    destruct (handleMorseCode_framed (previousCharacter (window m)) m)
      as [(_&_&_&_&_&_&_&_&F9&F10&_) _].
    rewrite F9. intros H. apply F10, Hm, H.
Qed.

(** * Further properties of the engine *)

(** X1: The boundary timer is single-shot: when it times out the character is
    finalized, the buffer is emptied and the timer is dropped, so that a
    second timeout finds nothing to do. *)
Theorem boundary_timeout_finalizes_once (m : Machine) (t : QTimer) :
  endCharacterTimer (window m) = Some t ->
  let m' := exec (deliver endCharacterTimer_timeout) m in
  finalizes endCharacterTimer_timeout m /\
  currentCharacter (window m') = [] /\
  endCharacterTimer (window m') = None /\
  deliver endCharacterTimer_timeout m' = (Returns tt, m', []).
Proof.
  intros Ht m'.
  assert (E : deliver endCharacterTimer_timeout m = endCharacter m).
  { simpl. cbv [mbind M_bind bind self]. rewrite Ht.
    rewrite endCharacter_eq. reflexivity. }
  assert (Hm' : m' = exec endCharacter m) by (subst m'; unfold exec; rewrite E; reflexivity).
  assert (Hcur : currentCharacter (window m') = [] /\ endCharacterTimer (window m') = None).
  { rewrite Hm'. unfold exec. rewrite endCharacter_eq. cbn zeta. simpl.
    match goal with |- context [exec (handleMorseCode ?c) ?x] =>
      destruct (handleMorseCode_framed c x) as [(_&_&_&_&_&F6&_) _];
      simpl in F6; destruct (exec (handleMorseCode c) x) as [w1 ? ?]
    end.
    open_window w1. simpl in *. subst.
    destruct rep; [destruct prev|]; split; reflexivity. }
  destruct Hcur as [Hcur Hend].
  split.
  { unfold finalizes, calls. rewrite E. apply endCharacter_finalizes. }
  split; [exact Hcur|]. split; [exact Hend|].
  simpl. cbv [mbind M_bind bind self]. rewrite Hend. reflexivity.
Qed.

Lemma boundary_timeout_finalizes_once_witness :
  let typed :=
    deliver_all [keyEvent "space" true 0 0%Q; keyEvent "space" false 0 (1 # 10)%Q] in
  let m := exec typed (boot DEFAULT_CONFIG TwoKey sample_layouts None) in
  endCharacterTimer (window m) = Some (mkQTimer 1000 true) /\
  currentCharacter (window m) = [1%Z] /\
  currentCharacter (window (exec (deliver endCharacterTimer_timeout) m)) = [].
Proof.
  intros typed m.
  assert (H : endCharacterTimer (window m) = Some (mkQTimer 1000 true)) by reflexivity.
  split; [exact H|]. split; [reflexivity|].
  exact (proj1 (proj2 (boundary_timeout_finalizes_once m _ H))).
Defined.

(** X2: In the timer-driven modes a release that closes an open press starts
    the boundary timer anew, single-shot, with [int(minLetterPause)] ms,
    whatever timer was held before; the press is closed and fast repeat
    is stopped. *)
Theorem release_restarts_boundary_timer
    (key : string) (role : nat) (now t0 : Q) (m : Machine) :
  lastKeyDownTime (window m) = Some t0 ->
  keySelectionRadio (window m) <> ThreeKey ->
  let m' := exec (deliver (keyEvent key false role now)) m in
  endCharacterTimer (window m') =
    Some (mkQTimer (Py.int_of_float (minLetterPause (config (window m)))) true) /\
  lastKeyDownTime (window m') = None /\
  fast_morse_mode_timer (window m') = None.
Proof.
  intros Hdown Hmode m'. subst m'. rewrite exec_deliver_key.
  unfold exec. rewrite on_release_eq, Hdown. cbn zeta.
  destruct (keySelectionRadio (window m)); [| |congruence]; simpl; auto.
Qed.

Lemma release_restarts_boundary_timer_witness :
  let cfg := mkConfig None (2500 # 1)%Q false false None false in
  let m := exec (deliver (keyEvent "space" true 0 0%Q)) (boot cfg TwoKey sample_layouts None) in
  lastKeyDownTime (window m) = Some 0%Q /\
  endCharacterTimer (window (exec (deliver (keyEvent "space" false 0 1%Q)) m)) =
    Some (mkQTimer 2500 true).
Proof.
  intros cfg m. split; [reflexivity|].
  apply (release_restarts_boundary_timer "space" 0 1%Q 0%Q m); [reflexivity|discriminate].
Defined.

(** X3: A release that finds no open press -- its press was ignored, or it is
    a second release -- appends nothing, starts no boundary timer and
    makes no call; it only drops the fast-repeat timer. *)
Theorem release_without_open_press_is_void
    (key : string) (role : nat) (now : Q) (m : Machine) :
  lastKeyDownTime (window m) = None ->
  deliver (keyEvent key false role now) m =
    (Returns tt, set_window (set_fast_morse_mode_timer None (window m)) m, []).
Proof.
  intros Hdown. simpl. rewrite handle_key_event_eq, on_release_eq, Hdown. reflexivity.
Qed.

Lemma release_without_open_press_is_void_witness :
  let m := boot DEFAULT_CONFIG TwoKey sample_layouts None in
  lastKeyDownTime (window m) = None /\
  deliver (keyEvent "space" false 0 1%Q) m =
    (Returns tt, set_window (set_fast_morse_mode_timer None (window m)) m, []).
Proof.
  intros m. split; [reflexivity|].
  apply (release_without_open_press_is_void "space" 0 1%Q m). reflexivity.
Defined.

(** X4: In one-key mode the role of an event plays no part: every configured
    key acts as the single switch. *)
Theorem onekey_ignores_role
    (key : string) (is_press : bool) (role role' : nat) (now : Q) (m : Machine) :
  keySelectionRadio (window m) = OneKey ->
  deliver (keyEvent key is_press role now) m = deliver (keyEvent key is_press role' now) m.
Proof.
  intros Hmode. simpl. rewrite !handle_key_event_eq. destruct is_press.
  - rewrite !on_press_eq, Hmode. reflexivity.
  - rewrite !on_release_eq, Hmode. reflexivity.
Qed.

Lemma onekey_ignores_role_witness :
  let m := boot DEFAULT_CONFIG OneKey sample_layouts None in
  keySelectionRadio (window m) = OneKey /\
  deliver (keyEvent "enter" true 1 0%Q) m = deliver (keyEvent "enter" true 0 0%Q) m.
Proof.
  intros m. split; [reflexivity|].
  apply (onekey_ignores_role "enter" true 1 0 0%Q m). reflexivity.
Defined.

(** [endCharacter] and [repeat_key] leave the configuration, the open
    press, the disable flag and the fast-repeat timer as they are. *)
Lemma endCharacter_frame (x : Machine) :
  let x' := exec endCharacter x in
  config (window x') = config (window x) /\
  keySelectionRadio (window x') = keySelectionRadio (window x) /\
  lastKeyDownTime (window x') = lastKeyDownTime (window x) /\
  inputDisabled (window x') = inputDisabled (window x) /\
  fast_morse_mode_timer (window x') = fast_morse_mode_timer (window x).
Proof.
  unfold exec. rewrite endCharacter_eq. cbn zeta. simpl.
  match goal with |- context [exec (handleMorseCode ?c) ?y] =>
    destruct (handleMorseCode_framed c y) as [(F1&F2&_&_&F5&_&F7&F8&_) _];
    simpl in F1, F2, F5, F7, F8; destruct (exec (handleMorseCode c) y) as [w1 ? ?]
  end.
  open_window w1. simpl in *. subst.
  destruct rep; [destruct prev|]; simpl; auto.
Qed.

Lemma repeat_key_frame (key : string) (role : nat) (x : Machine) :
  let x' := exec (repeat_key key role) x in
  config (window x') = config (window x) /\
  keySelectionRadio (window x') = keySelectionRadio (window x) /\
  lastKeyDownTime (window x') = lastKeyDownTime (window x) /\
  inputDisabled (window x') = inputDisabled (window x) /\
  fast_morse_mode_timer (window x') = fast_morse_mode_timer (window x).
Proof.
  destruct role as [|[|[|role]]]; simpl.
  - unfold exec. rewrite addDit_eq. simpl. auto.
  - unfold exec. rewrite addDah_eq. simpl. auto.
  - apply endCharacter_frame.
  - unfold exec. simpl. auto.
Qed.

Ltac held_done :=
  repeat match goal with |- _ /\ _ => split end;
  try reflexivity; try assumption; try congruence;
  try (let Hh := fresh "Hh" in let Hf := fresh "Hf" in
       intros Hh Hf; try (destruct (Hh Hf) as (? & ? & ?));
       repeat match goal with |- _ /\ _ => split end; congruence).

(** How one event changes the configuration, the disable flag, the open
    press and the fast-repeat timer: the first two never change; a fast
    timer that is held afterwards goes with an open press, with fast mode
    on and with a mode other than one-key, if that was so before. *)
Lemma deliver_press_state (e : Event) (m : Machine) :
  let held w :=
    fast_morse_mode_timer w <> None ->
    lastKeyDownTime w <> None /\
    fastMorseMode (config w) = true /\
    keySelectionRadio w <> OneKey in
  let m' := exec (deliver e) m in
  config (window m') = config (window m) /\
  keySelectionRadio (window m') = keySelectionRadio (window m) /\
  inputDisabled (window m') = inputDisabled (window m) /\
  (held (window m) -> held (window m')).
Proof.
  intros held m'. subst held m'. unfold repeat_cleared.
  destruct e as [key is_press role now| | | |].
  - rewrite exec_deliver_key. destruct is_press; unfold exec.
    + rewrite on_press_eq. unfold repeat_cleared.
      destruct (String.eqb key "P"); [simpl; auto|].
      destruct (inputDisabled (window m)) eqn:Ed; [simpl; auto|].
      destruct (lastKeyDownTime (window m)) eqn:El; [simpl; rewrite ?El; auto|].
      cbn zeta.
      destruct (keySelectionRadio (window m)) eqn:Eo; simpl;
        [rewrite ?Ed, ?Eo; held_done| |].
      all: match goal with |- context [repeat_key ?k ?r ?x] =>
        destruct (repeat_key_frame k r x) as (R1 & R2 & R3 & R4 & R5);
        unfold exec in R1, R2, R3, R4, R5; rewrite R1, R2, R3, R4, R5
      end.
      all: destruct (fastMorseMode (config (window m))) eqn:Ef; simpl;
        rewrite ?Ed, ?Ef, ?Eo; held_done.
    + rewrite on_release_eq. cbn zeta.
      destruct (lastKeyDownTime (window m)) eqn:El; [|simpl; held_done].
      destruct (keySelectionRadio (window m)) eqn:Eo; simpl; rewrite ?Eo; held_done.
  - unfold exec. simpl. cbv [mbind M_bind bind self mret M_ret ret].
    destruct (endCharacterTimer (window m)); [|simpl; auto].
    rewrite (run_eq endCharacter m). simpl.
    destruct (endCharacter_frame m) as (R1 & R2 & R3 & R4 & R5).
    rewrite R1, R2, R3, R4, R5. auto.
  - unfold exec. simpl. cbv [mbind M_bind bind self mret M_ret ret].
    destruct (fast_morse_mode_timer (window m)) as [q|] eqn:Eq; [|simpl; rewrite Eq; auto].
    rewrite (run_eq (repeat_key _ _) m). simpl.
    destruct (repeat_key_frame (captured_key q) (captured_role q) m)
      as (R1 & R2 & R3 & R4 & R5).
    rewrite R1, R2, R3, R4, R5, Eq. auto.
  - unfold exec. simpl. cbv [mbind M_bind bind self mret M_ret ret].
    destruct (repeat_character_timer (window m)); [|simpl; auto].
    rewrite (run_eq (handleMorseCode _) m). simpl.
    destruct (handleMorseCode_framed (previousCharacter (window m)) m)
      as [(F1&F2&_&_&F5&_&F7&F8&_) _].
    rewrite F1, F2, F5, F7, F8. auto.
  - unfold exec. simpl. cbv [mbind M_bind bind self mret M_ret ret].
    destruct (orphaned_repeat_timers (window m)); [simpl; auto|].
    rewrite (run_eq (handleMorseCode _) m). simpl.
    destruct (handleMorseCode_framed (previousCharacter (window m)) m)
      as [(F1&F2&_&_&F5&_&F7&F8&_) _].
    rewrite F1, F2, F5, F7, F8. auto.
Qed.

(** X5: The toggle that disables input cannot be reached: the only key for
    which [check_disable_combination] could answer [True] makes it raise.
    Whatever events arrive, [inputDisabled] keeps the value it had, and
    the configuration and the mode are not touched either. *)
Theorem input_is_never_disabled (es : list Event) (m : Machine) :
  inputDisabled (window (exec (deliver_all es) m)) = inputDisabled (window m) /\
  config (window (exec (deliver_all es) m)) = config (window m) /\
  keySelectionRadio (window (exec (deliver_all es) m)) = keySelectionRadio (window m).
Proof.
  revert m. induction es as [|e es IH]; intros m; [auto|].
  rewrite exec_deliver_all_cons.
  destruct (IH (exec (deliver e) m)) as (H1 & H2 & H3).
  destruct (deliver_press_state e m) as (E1 & E2 & E3 & _).
  rewrite H1, H2, H3, E1, E2, E3. auto.
Qed.

(** X6: From the start of the engine on, the fast-repeat timer is held only
    while a press is open, and only with fast mode on in a mode other than
    one-key. *)
Theorem fast_timer_held_only_during_press (es : list Event) (m : Machine) :
  fast_morse_mode_timer (window m) = None ->
  let w := window (exec (deliver_all es) m) in
  fast_morse_mode_timer w <> None ->
  lastKeyDownTime w <> None /\
  fastMorseMode (config w) = true /\
  keySelectionRadio w <> OneKey.
Proof.
  intros Hnone.
  assert (H : forall es m,
             (fast_morse_mode_timer (window m) <> None ->
              lastKeyDownTime (window m) <> None /\
              fastMorseMode (config (window m)) = true /\
              keySelectionRadio (window m) <> OneKey) ->
             fast_morse_mode_timer (window (exec (deliver_all es) m)) <> None ->
             lastKeyDownTime (window (exec (deliver_all es) m)) <> None /\
             fastMorseMode (config (window (exec (deliver_all es) m))) = true /\
             keySelectionRadio (window (exec (deliver_all es) m)) <> OneKey).
  { clear. induction es as [|e es IH]; intros m Hm; [exact Hm|].
    rewrite exec_deliver_all_cons. apply IH.
    exact (proj2 (proj2 (proj2 (deliver_press_state e m))) Hm). }
  apply H. intros Hheld. congruence.
Qed.

Lemma fast_timer_held_only_during_press_witness :
  let cfg := mkConfig (Some 350%Q) 1000%Q true false None false in
  let m := boot cfg ThreeKey sample_layouts None in
  let w := window (exec (deliver_all [keyEvent "space" true 0 0%Q]) m) in
  fast_morse_mode_timer (window m) = None /\
  fast_morse_mode_timer w <> None /\
  lastKeyDownTime w <> None.
Proof.
  intros cfg m w. split; [reflexivity|].
  assert (H : fast_morse_mode_timer w <> None) by discriminate.
  split; [exact H|].
  exact (proj1 (fast_timer_held_only_during_press [keyEvent "space" true 0 0%Q] m eq_refl H)).
Defined.

(** ** Keying a character stroke by stroke *)

Lemma exec_stroke (s : Stroke) (sym : MorseSymbol) (m : Machine) :
  stroke_key s <> "P" ->
  inputDisabled (window m) = false ->
  lastKeyDownTime (window m) = None ->
  stroke_symbol (window m) s = Some sym ->
  exec (deliver_all (stroke_events s)) m = set_window (stroked sym (window m)) m.
Proof.
  intros HP Hd Hl Hs. apply String.eqb_neq in HP.
  unfold stroke_events. rewrite !exec_deliver_all_cons, !exec_deliver_key.
  cbv iota. unfold exec. rewrite on_press_eq, HP, Hd, Hl. cbn zeta.
  unfold stroke_symbol in Hs. unfold stroked.
  open_machine m.
  destruct mode; simpl in Hs |- *.
  - injection Hs as <-. unfold exec. rewrite on_release_eq. reflexivity.
  - destruct (stroke_role s) as [|[|r]]; try discriminate; injection Hs as <-;
      simpl; rewrite ?addDit_eq, ?addDah_eq; unfold exec; simpl;
      rewrite on_release_eq; destruct (fastMorseMode cfg); reflexivity.
  - destruct (stroke_role s) as [|[|r]]; try discriminate; injection Hs as <-;
      simpl; rewrite ?addDit_eq, ?addDah_eq; unfold exec; simpl;
      rewrite on_release_eq; destruct (fastMorseMode cfg); reflexivity.
Qed.

Lemma stroke_symbol_stroked (sym : MorseSymbol) (w : Window) (s : Stroke) :
  stroke_symbol (stroked sym w) s = stroke_symbol w s.
Proof. reflexivity. Qed.

Lemma exec_keying (ss : list Stroke) (syms : list MorseSymbol) (m : Machine) :
  Forall (fun s => stroke_key s <> "P") ss ->
  inputDisabled (window m) = false ->
  lastKeyDownTime (window m) = None ->
  map (stroke_symbol (window m)) ss = map Some syms ->
  exec (deliver_all (keying ss)) m =
    set_window (fold_left (fun w sym => stroked sym w) syms (window m)) m.
Proof.
  revert syms m. induction ss as [|s ss IH]; intros syms m HP Hd Hl Hs.
  - destruct syms; [|discriminate]. destruct m as [w ? ?]. reflexivity.
  - destruct syms as [|sym syms]; [discriminate|].
    simpl in Hs. injection Hs as Hs Hss.
    inversion HP as [|? ? HP1 HP2]; subst.
    change (keying (s :: ss)) with (stroke_events s ++ keying ss).
    rewrite exec_deliver_all_app, (exec_stroke s sym m HP1 Hd Hl Hs).
    rewrite (IH syms); try assumption; reflexivity.
Qed.

Lemma stroked_fold (syms : list MorseSymbol) (w : Window) :
  let w' := fold_left (fun w sym => stroked sym w) syms w in
  currentCharacter w' = currentCharacter w ++ buffer_of syms /\
  config w' = config w /\
  keySelectionRadio w' = keySelectionRadio w /\
  layoutManager w' = layoutManager w /\
  typestate w' = typestate w /\
  previousCharacter w' = previousCharacter w /\
  inputDisabled w' = inputDisabled w /\
  (syms <> [] ->
   lastKeyDownTime w' = None /\
   fast_morse_mode_timer w' = None /\
   repeat_character_timer w' = None /\
   repeaton w' = false /\
   endCharacterTimer w' =
     match keySelectionRadio w with
     | ThreeKey => endCharacterTimer w
     | _ => Some (mkQTimer (Py.int_of_float (minLetterPause (config w))) true)
     end).
Proof.
  revert w. induction syms as [|sym syms IH]; intros w.
  - simpl. rewrite app_nil_r. repeat split; congruence.
  - simpl fold_left. destruct (IH (stroked sym w)) as (H1&H2&H3&H4&H5&H6&H7&H8).
    cbn zeta. rewrite H1, H2, H3, H4, H5, H6, H7. simpl.
    rewrite <- app_assoc. repeat split; try reflexivity.
    all: destruct syms as [|sym' syms]; [simpl; try reflexivity; destruct (keySelectionRadio w); reflexivity|].
    all: destruct H8 as (K1&K2&K3&K4&K5); [discriminate|].
    all: rewrite ?K1, ?K2, ?K3, ?K4, ?K5; try reflexivity.
    simpl. destruct (keySelectionRadio w); reflexivity.
Qed.

(** X7: Keying a sequence of strokes appends exactly their symbols to the
    buffer, in order, in every input mode: in one-key mode each stroke
    is read by its duration, in the two- and three-key modes by the role
    of its switch (0 for Dit, 1 for Dah).  No press is left open. *)
Theorem keying_appends_symbols (ss : list Stroke) (syms : list MorseSymbol)
    (m : Machine) :
  Forall (fun s => stroke_key s <> "P") ss ->
  inputDisabled (window m) = false ->
  lastKeyDownTime (window m) = None ->
  map (stroke_symbol (window m)) ss = map Some syms ->
  let m' := exec (deliver_all (keying ss)) m in
  currentCharacter (window m') = currentCharacter (window m) ++ buffer_of syms /\
  previousCharacter (window m') = previousCharacter (window m) /\
  lastKeyDownTime (window m') = None.
Proof.
  intros HP Hd Hl Hs m'. subst m'.
  rewrite (exec_keying ss syms m HP Hd Hl Hs).
  destruct (stroked_fold syms (window m)) as (H1&_&_&_&_&H6&_&H8).
  destruct m as [w ? ?]. simpl in *. repeat split; try assumption.
  destruct syms as [|sym syms]; [assumption|].
  apply H8. discriminate.
Qed.

Lemma keying_appends_symbols_witness :
  let m := boot DEFAULT_CONFIG OneKey sample_layouts None in
  let ss := [mkStroke "space" 0 0%Q (1 # 10)%Q; mkStroke "space" 0 1%Q (3 # 2)%Q] in
  currentCharacter (window (exec (deliver_all (keying ss)) m)) = [1%Z; 2%Z].
Proof.
  intros m ss.
  refine (proj1 (keying_appends_symbols ss [Dit; Dah] m _ eq_refl eq_refl eq_refl)).
  repeat constructor; discriminate.
Defined.

(** X8: A character keyed stroke by stroke, from an empty buffer, in the
    one- or two-key mode: when the boundary timer then expires, the action
    of the first item of the active layout that carries the digits of the
    keyed symbols is performed, on the machine as the strokes left it,
    and the buffer is empty again. *)
Theorem keyed_character_is_dispatched
    (ss : list Stroke) (syms : list MorseSymbol) (layout : Layout)
    (item : Item) (action : Action) (m : Machine) :
  Forall (fun s => stroke_key s <> "P") ss ->
  inputDisabled (window m) = false ->
  lastKeyDownTime (window m) = None ->
  currentCharacter (window m) = [] ->
  keySelectionRadio (window m) <> ThreeKey ->
  syms <> [] ->
  map (stroke_symbol (window m)) ss = map Some syms ->
  outcome get_active_layout m = Returns layout ->
  List.find (code_is (digits syms)) (items layout) = Some item ->
  _action item = Some action ->
  let m1 := exec (deliver_all (keying ss)) m in
  let m0 := set_window (set_endCharacterTimer None (window m1)) m1 in
  let m2 := exec (perform action) m0 in
  deliver endCharacterTimer_timeout m1 =
    (Returns tt,
     set_window (close_character (window m2)) m2,
     print (Some item) :: calls (perform action) m0
       ++ logging INFO
            ("[handleMorseCode] Action performed for Morse code: " +:+ digits syms) None
       :: (if withsound (config (window m))
           then [play_audio (default "res/typing_sound.wav"
                               (SoundTyping (config (window m))))]
           else [])
       ++ [codeslayoutview_reset]) /\
  currentCharacter (window (exec (deliver endCharacterTimer_timeout) m1)) = [].
Proof.
  intros HP Hd Hl Hc Hmode Hne Hs Hlayout Hfind Haction m1 m0 m2.
  assert (E1 : m1 = set_window (fold_left (fun w sym => stroked sym w) syms (window m)) m)
    by (apply exec_keying; assumption).
  destruct (stroked_fold syms (window m)) as (H1&H2&H3&H4&H5&H6&H7&H8).
  destruct (H8 Hne) as (K1&K2&K3&K4&K5).
  assert (W1 : window m1 = fold_left (fun w sym => stroked sym w) syms (window m))
    by (rewrite E1; reflexivity).
  rewrite <- W1 in H1, H2, H3, H4, H5, H6, H7, K1, K2, K3, K4, K5.
  rewrite Hc in H1. simpl in H1.
  assert (Hhit : handleMorseCode (buffer_of syms) m0 =
            (Returns tt, m2,
             print (Some item) :: calls (perform action) m0
               ++ logging INFO
                    ("[handleMorseCode] Action performed for Morse code: " +:+ digits syms) None
               :: (if withsound (config (window m))
                   then [play_audio (default "res/typing_sound.wav"
                                       (SoundTyping (config (window m))))]
                   else []))).
  { rewrite (handleMorseCode_hit syms layout item action m0 Hne); try assumption.
    - subst m0. simpl. rewrite H2. reflexivity.
    - rewrite <- Hlayout. apply outcome_get_active_layout.
      subst m0. simpl. exact H4. }
  assert (Hrun : deliver endCharacterTimer_timeout m1 =
            (Returns tt, set_window (close_character (window m2)) m2,
             (print (Some item) :: calls (perform action) m0
               ++ logging INFO
                    ("[handleMorseCode] Action performed for Morse code: " +:+ digits syms) None
               :: (if withsound (config (window m))
                   then [play_audio (default "res/typing_sound.wav"
                                       (SoundTyping (config (window m))))]
                   else [])) ++ [codeslayoutview_reset])).
  { simpl. cbv [mbind M_bind bind self mret M_ret ret].
    rewrite K5. destruct (keySelectionRadio (window m)); [|..|congruence];
      rewrite endCharacter_eq; cbn zeta; rewrite H1; fold m0;
      unfold exec, calls; rewrite Hhit; reflexivity. }
  split.
  - rewrite Hrun. f_equal. simpl. f_equal. rewrite <- app_assoc. reflexivity.
  - unfold exec. rewrite Hrun. unfold close_character.
    destruct (window m2) as [cfg mode lm ts cur prev down endt disabled fast rept rep
                             orph].
    destruct rep; [destruct prev|]; reflexivity.
Qed.

Lemma keyed_character_is_dispatched_witness :
  let m := boot DEFAULT_CONFIG TwoKey sample_layouts None in
  let ss := [mkStroke "a" 0 0%Q (1 # 10)%Q; mkStroke "b" 1 1%Q (3 # 2)%Q] in
  currentCharacter
    (window (exec (deliver endCharacterTimer_timeout)
               (exec (deliver_all (keying ss)) m))) = [].
Proof.
  intros m ss.
  refine (proj2 (keyed_character_is_dispatched ss [Dit; Dah] sample_layout
            (mkItem (Some "12") (Some (ActionKeyStroke "a" (Some "a") false)))
            (ActionKeyStroke "a" (Some "a") false) m
            _ eq_refl eq_refl eq_refl _ _ eq_refl eq_refl eq_refl eq_refl)).
  - repeat constructor; discriminate.
  - discriminate.
  - discriminate.
Defined.

(** ** The resolver's other branches *)

(** X9: A code that matches an item for which [set_actions] found no action
    (it stored [None]): the item is printed, an error is logged, nothing
    is performed and the machine is as before. *)
Theorem match_without_action_is_reported
    (symbols : list MorseSymbol) (layout : Layout) (item : Item) (m : Machine) :
  symbols <> [] ->
  outcome get_active_layout m = Returns layout ->
  List.find (code_is (digits symbols)) (items layout) = Some item ->
  _action item = None ->
  handleMorseCode (buffer_of symbols) m =
    (Returns tt, m,
     [print (Some item);
      logging ERROR
        ("[handleMorseCode] '_action' does not have a callable 'perform' method for Morse code: "
         +:+ digits symbols) None]).
Proof.
  intros Hne Hlayout Hfind Haction. unfold handleMorseCode.
  rewrite morse_code_of_buffer, (digits_nonempty _ Hne).
  unfold try_except. cbv [mbind M_bind bind].
  rewrite get_active_layout_pure, Hlayout, Hfind. simpl. rewrite Haction. reflexivity.
Qed.

Lemma match_without_action_is_reported_witness :
  let lm := mkLayoutManager {[ "typing" := mkLayout [mkItem (Some "1") None] ]}
              (Some "typing") in
  let m := boot DEFAULT_CONFIG TwoKey lm None in
  exec (handleMorseCode (buffer_of [Dit])) m = m.
Proof.
  intros lm m.
  pose proof (match_without_action_is_reported [Dit] (mkLayout [mkItem (Some "1") None])
                (mkItem (Some "1") None) m) as H.
  unfold exec. rewrite H; [reflexivity|discriminate|reflexivity|reflexivity|reflexivity].
Defined.

(** X10: When the layout manager has no active layout to give -- no name is
    set, or the name is not a key of [layouts] -- a non-empty code is not
    looked up at all: the exception is caught and logged, and the machine
    is as before. *)
Theorem code_without_active_layout_is_reported
    (symbols : list MorseSymbol) (e : Py.Exn) (m : Machine) :
  symbols <> [] ->
  outcome get_active_layout m = Raises e ->
  handleMorseCode (buffer_of symbols) m =
    (Returns tt, m,
     [logging ERROR
        ("[handleMorseCode] Failed to perform action for Morse code: "
         +:+ digits symbols +:+ ". Error: ") (Some e)]).
Proof.
  intros Hne Hlayout. unfold handleMorseCode.
  rewrite morse_code_of_buffer, (digits_nonempty _ Hne).
  unfold try_except. cbv [mbind M_bind bind].
  rewrite get_active_layout_pure, Hlayout. reflexivity.
Qed.

Lemma code_without_active_layout_is_reported_witness :
  let m := boot DEFAULT_CONFIG TwoKey (mkLayoutManager ∅ None) None in
  calls (handleMorseCode (buffer_of [Dit; Dah])) m =
    [logging ERROR
       "[handleMorseCode] Failed to perform action for Morse code: 12. Error: "
       (Some ValueError)].
Proof.
  intros m. unfold calls.
  rewrite (code_without_active_layout_is_reported [Dit; Dah] ValueError m);
    [reflexivity|discriminate|reflexivity].
Defined.

(** ** The third switch in two-key mode *)

Lemma boundary_timeout_armed (t : QTimer) (m : Machine) :
  endCharacterTimer (window m) = Some t ->
  deliver endCharacterTimer_timeout m = endCharacter m.
Proof.
  intros H. simpl. cbv [mbind M_bind bind self]. rewrite H.
  destruct (endCharacter m) as [[r m'] out]. reflexivity.
Qed.

Lemma endCharacter_empties (x : Machine) :
  currentCharacter (window (exec endCharacter x)) = [].
Proof.
  unfold exec. rewrite endCharacter_eq. cbn zeta. unfold close_character.
  match goal with |- context [exec (handleMorseCode ?c) ?y] =>
    destruct (exec (handleMorseCode c) y) as [w1 ? ?]
  end.
  open_window w1. simpl. destruct rep; [destruct prev|]; reflexivity.
Qed.

(** X11: The key listener hooks all three configured keys in every mode, and
    [on_press] looks at the role whenever the mode is not one-key.  In
    two-key mode a press of the third switch therefore finalizes the
    character at once; its release then starts the boundary timer, whose
    expiry finalizes once more, on the empty buffer. *)
Theorem third_switch_finalizes_in_twokey_mode
    (key : string) (now now' : Q) (m : Machine) :
  key <> "P" ->
  inputDisabled (window m) = false ->
  lastKeyDownTime (window m) = None ->
  keySelectionRadio (window m) = TwoKey ->
  let press := keyEvent key true 2 now in
  let release := keyEvent key false 2 now' in
  let m1 := exec (deliver press) m in
  let m2 := exec (deliver release) m1 in
  finalizes press m /\
  currentCharacter (window m1) = [] /\
  endCharacterTimer (window m2) =
    Some (mkQTimer (Py.int_of_float (minLetterPause (config (window m)))) true) /\
  currentCharacter (window m2) = [] /\
  finalizes endCharacterTimer_timeout m2.
Proof.
  intros HP Hd Hl Hmode press release m1 m2. apply String.eqb_neq in HP.
  assert (E1 : deliver press m =
               endCharacter
                 (set_window
                    (if fastMorseMode (config (window m))
                     then set_fast_morse_mode_timer
                            (Some (mkRepeatKeyTimer (mkQTimer 100 false) key 2))
                            (set_lastKeyDownTime (Some now) (window (repeat_cleared m)))
                     else set_lastKeyDownTime (Some now) (window (repeat_cleared m))) m)).
  { unfold press. simpl. rewrite handle_key_event_eq, on_press_eq, HP, Hd, Hl, Hmode.
    reflexivity. }
  match type of E1 with _ = endCharacter ?x => set (m0 := x) in * end.
  assert (F : config (window m1) = config (window m) /\
              keySelectionRadio (window m1) = TwoKey /\
              lastKeyDownTime (window m1) = Some now /\
              currentCharacter (window m1) = []).
  { destruct (endCharacter_frame m0) as (R1 & R2 & R3 & _).
    pose proof (endCharacter_empties m0) as R4.
    assert (Em : m1 = exec endCharacter m0) by (unfold m1, exec; rewrite E1; reflexivity).
    rewrite Em, R1, R2, R3, R4. unfold m0.
    destruct (fastMorseMode (config (window m))); simpl; auto. }
  destruct F as (Fc & Fm & Fl & Fb).
  assert (E2 : m2 = set_window
                      (set_endCharacterTimer
                         (Some (mkQTimer (Py.int_of_float (minLetterPause (config (window m)))) true))
                         (set_lastKeyDownTime None
                            (set_fast_morse_mode_timer None (window m1)))) m1).
  { unfold m2, release. rewrite exec_deliver_key. unfold exec.
    rewrite on_release_eq, Fl, Fm, Fc. reflexivity. }
  split.
  - unfold finalizes, calls. rewrite E1. apply (endCharacter_finalizes m0).
  - split; [exact Fb|]. rewrite E2. simpl. split; [reflexivity|]. split; [exact Fb|].
    unfold finalizes, calls.
    erewrite boundary_timeout_armed by reflexivity.
    apply endCharacter_finalizes.
Qed.

Lemma third_switch_finalizes_in_twokey_mode_witness :
  let m := exec (deliver_all (keying [mkStroke "space" 0 0%Q (1 # 10)%Q]))
             (boot DEFAULT_CONFIG TwoKey sample_layouts None) in
  finalizes (keyEvent "right ctrl" true 2 (2 # 10)%Q) m.
Proof.
  intros m.
  refine (proj1 (third_switch_finalizes_in_twokey_mode "right ctrl" (2 # 10)%Q (3 # 10)%Q m
                   _ eq_refl eq_refl eq_refl)).
  discriminate.
Defined.

(** ** Changing the layout *)

(** X12: A [ChangeLayoutAction] whose target names a layout makes that layout
    the active one -- the next code is resolved against it; the table of
    layouts is as before, and the change is logged. *)
Theorem layout_change_redirects_resolver
    (layout_name : string) (layout : Layout) (m : Machine) :
  layouts (layoutManager (window m)) !! layout_name = Some layout ->
  layout_name <> "" ->
  let m' := exec (perform (ChangeLayoutAction layout_name)) m in
  outcome get_active_layout m' = Returns layout /\
  layouts (layoutManager (window m')) = layouts (layoutManager (window m)) /\
  In (logging INFO ("Active layout set to " +:+ layout_name) None)
    (calls (perform (ChangeLayoutAction layout_name)) m).
Proof.
  intros Hin Hname m'. subst m'. apply String.eqb_neq in Hname.
  assert (E : perform (ChangeLayoutAction layout_name) m =
              (Returns tt,
               set_window
                 (set_layoutManager
                    (mkLayoutManager (layouts (layoutManager (window m))) (Some layout_name))
                    (window m)) m,
               [logging INFO ("Active layout set to " +:+ layout_name) None;
                codeslayoutview_show layout_name])).
  { simpl perform. unfold changeLayout, set_active.
    cbv [mbind M_bind bind self assign emit mret M_ret ret]. rewrite Hin. simpl.
    rewrite Hin. reflexivity. }
  unfold exec, calls. rewrite E. split; [|split; [reflexivity|left; reflexivity]].
  unfold outcome, get_active_layout. cbv [mbind M_bind bind self]. simpl.
  rewrite Hname, Hin. reflexivity.
Qed.

Lemma layout_change_redirects_resolver_witness :
  let lm := mkLayoutManager
              {[ "typing" := sample_layout;
                 "mouse" := mkLayout [mkItem (Some "1") (Some (ActionLegacy (Some "MOUSEUP5")))] ]}
              (Some "typing") in
  let m := boot DEFAULT_CONFIG TwoKey lm None in
  outcome get_active_layout (exec (perform (ChangeLayoutAction "mouse")) m) =
    Returns (mkLayout [mkItem (Some "1") (Some (ActionLegacy (Some "MOUSEUP5")))]).
Proof.
  intros lm m.
  refine (proj1 (layout_change_redirects_resolver "mouse" _ m _ _)).
  - reflexivity.
  - discriminate.
Defined.

(** X13: A [ChangeLayoutAction] whose target names no layout changes nothing
    and only logs an error: the active layout stays active. *)
Theorem unknown_layout_change_is_refused (layout_name : string) (m : Machine) :
  layouts (layoutManager (window m)) !! layout_name = None ->
  perform (ChangeLayoutAction layout_name) m =
    (Returns tt, m,
     [logging ERROR
        ("[Window changeLayout] Layout change failed: " +:+ layout_name +:+ " not found.")
        None]).
Proof.
  intros Hin. simpl perform. unfold changeLayout.
  cbv [mbind M_bind bind self]. rewrite Hin. reflexivity.
Qed.

Lemma unknown_layout_change_is_refused_witness :
  let m := boot DEFAULT_CONFIG TwoKey sample_layouts None in
  exec (perform (ChangeLayoutAction "mouse")) m = m.
Proof.
  intros m. unfold exec.
  rewrite (unknown_layout_change_is_refused "mouse" m); reflexivity.
Defined.

(** ** What each kind of action can reach *)

Lemma typestate_only_refl m : typestate_only m m.
Proof. exists (typestate (window m)). open_machine m. reflexivity. Qed.

Lemma typestate_only_trans m1 m2 m3 :
  typestate_only m1 m2 -> typestate_only m2 m3 -> typestate_only m1 m3.
Proof.
  intros [o1 ->] [o2 ->]. exists o2. open_machine m1. reflexivity.
Qed.

Create HintDb touch.

Ltac touch_side :=
  try exact typestate_only_refl; try exact typestate_only_trans;
  try exact I;
  lazymatch goal with
  | |- forall _, keeps _ _ _ => intro
  | |- _ => idtac
  end.

Ltac touch_step :=
  first
    [ apply keeps_ret; touch_side
    | apply keeps_raise; touch_side
    | apply keeps_self; touch_side
    | apply keeps_read; touch_side
    | apply keeps_emit; touch_side
    | solve [auto 1 with touch]
    | apply keeps_bind; touch_side
    | apply keeps_try_except; touch_side
    | apply keeps_for_each; touch_side
    | match goal with
      | |- keeps _ _ (match ?x with _ => _ end) => destruct x
      end ].

Ltac touch := repeat touch_step.

Lemma deref_touch r : keeps typestate_only any_call (deref r).
Proof. unfold deref. touch. Qed.

Lemma update_touch f : keeps typestate_only any_call (update window_typestate f).
Proof.
  intros m. unfold update, deref, read, write, exec, calls.
  cbv [mbind M_bind bind mret M_ret ret raise]. simpl.
  destruct (typestate (window m)) as [ts|] eqn:E; simpl; split; try constructor.
  - exists (Some (f ts)). reflexivity.
  - apply typestate_only_refl.
Qed.
#[local] Hint Resolve deref_touch update_touch : touch.

Lemma past_stream_touch r : keeps typestate_only any_call (past_stream r).
Proof. unfold past_stream. touch. Qed.

Lemma pushchar_touch c : keeps typestate_only any_call (pushchar window_typestate c).
Proof. unfold pushchar. touch. Qed.

Lemma popchar_touch : keeps typestate_only any_call (popchar window_typestate).
Proof. unfold popchar. touch. Qed.

Lemma get_abbreviation_touch :
  keeps typestate_only any_call (get_abbreviation window_typestate).
Proof. unfold get_abbreviation. touch. Qed.
#[local] Hint Resolve past_stream_touch pushchar_touch popchar_touch
  get_abbreviation_touch : touch.

Lemma pop_and_backspace_touch n :
  keeps typestate_only any_call (pop_and_backspace window_typestate n).
Proof. induction n; simpl; touch. Qed.
#[local] Hint Resolve pop_and_backspace_touch : touch.

Lemma ActionKeyStroke_perform_touch key character toggle_action :
  keeps typestate_only any_call (ActionKeyStroke_perform key character toggle_action).
Proof.
  unfold ActionKeyStroke_perform. touch.
  intros m. split; [apply typestate_only_refl | constructor].
Qed.

Lemma moves_nothing (c : M unit) :
  keeps eq any_call c -> forall m, exec c m = m.
Proof. intros H m. symmetry. exact (proj1 (H m)). Qed.

Lemma action_map_still :
  Forall (fun entry => keeps eq any_call (snd entry)) action_map.
Proof.
  unfold action_map.
  repeat (constructor;
          [simpl; intros m; split; [reflexivity | repeat constructor]|]).
  constructor.
Qed.

Lemma lookup_action_still key table f :
  Forall (fun entry => keeps eq any_call (snd entry)) table ->
  lookup_action key table = Some f -> keeps eq any_call f.
Proof.
  induction 1 as [|[k g] rest Hg _ IH]; simpl; [discriminate|].
  destruct (String.eqb k key); [|exact IH].
  intros [= <-]. exact Hg.
Qed.

(** X14: Each class of action assigns to its own attribute and to nothing
    else: a legacy (mouse) action leaves the machine as it is, a keystroke
    changes at most the window's [TypeState], a layout change at most the
    name of the active layout, the repeat command sets the repeat flag,
    and a prediction select does nothing while the module-level
    [typestate] is unbound. *)
Theorem each_action_touches_its_own (action : Action) (m : Machine) :
  touches action m (exec (perform action) m).
Proof.
  destruct action as [key|key character toggle_action|layout_name|target|]; simpl.
  - unfold ActionLegacy_perform.
    destruct key as [k|]; [|reflexivity].
    destruct (String.eqb k ""); [reflexivity|].
    destruct (lookup_action k action_map) as [f|] eqn:E; [|reflexivity].
    apply moves_nothing.
    exact (lookup_action_still k action_map f action_map_still E).
  - destruct (proj1 (ActionKeyStroke_perform_touch key character toggle_action m))
      as [o E].
    exists o. rewrite E. split; reflexivity.
  - unfold exec, changeLayout, set_active.
    cbv [mbind M_bind bind self assign emit mret M_ret ret].
    destruct (layouts (layoutManager (window m)) !! layout_name) eqn:E; simpl.
    + rewrite E. simpl. eexists. reflexivity.
    + exists (active_layout_name (layoutManager (window m))).
      open_machine m. destruct lm. reflexivity.
  - intros Hg. unfold exec.
    pose proof (prediction_select_void_without_module_typestate target m Hg) as E.
    change (perform (PredictionSelectLayoutAction target))
      with (PredictionSelectLayoutAction_perform target) in E.
    rewrite E. reflexivity.
  - unfold exec, enableRepeatMode.
    cbv [mbind M_bind bind self assign emit mret M_ret ret].
    destruct (debug (config (window m))); reflexivity.
Qed.

(** ** Keystrokes and the text buffer *)

(** X15: Without a [TypeState] -- [Window.init] creates one only when the main
    layout is the typing layout -- a keystroke action that is no toggle
    types nothing: its first statement formats
    [self.window.typestate.past_stream()] and raises before the key is
    synthesized; the error is logged and the machine is as before. *)
Theorem keystroke_without_typestate_types_nothing
    (key : string) (character : option string) (m : Machine) :
  typestate (window m) = None ->
  perform (ActionKeyStroke key character false) m =
    (Returns tt, m,
     [logging ERROR "[ActionKeyStroke] Error during key press/release: "
        (Some AttributeError)]).
Proof.
  intros H. simpl perform.
  unfold ActionKeyStroke_perform, past_stream, deref, read, try_except.
  cbv [mbind M_bind bind mret M_ret ret raise]. simpl. rewrite H. reflexivity.
Qed.

Lemma keystroke_without_typestate_types_nothing_witness :
  let m := boot DEFAULT_CONFIG TwoKey sample_layouts None in
  calls (perform key_B) m =
    [logging ERROR "[ActionKeyStroke] Error during key press/release: "
       (Some AttributeError)].
Proof.
  intros m. unfold calls, key_B.
  rewrite (keystroke_without_typestate_types_nothing "b" (Some "b") m eq_refl).
  reflexivity.
Defined.

Ltac open_keystroke :=
  unfold ActionKeyStroke_perform, past_stream, pushchar, popchar, get_abbreviation,
    update, deref, read, write, try_except;
  cbv [mbind M_bind bind mret M_ret ret raise]; simpl.

Ltac flatten_machine :=
  cbv [set_window set_typestate set_text set_predictions set_expanded_text
       set_keyLength window global_typestate keyboard_is_pressed
       config keySelectionRadio layoutManager typestate currentCharacter
       previousCharacter lastKeyDownTime endCharacterTimer inputDisabled
       fast_morse_mode_timer repeat_character_timer repeaton
       orphaned_repeat_timers
       text predictions presage_predict abbreviations expanded_text keyLength].

Ltac flatten_machine_in H :=
  cbv [set_window set_typestate set_text set_predictions set_expanded_text
       set_keyLength window global_typestate keyboard_is_pressed
       config keySelectionRadio layoutManager typestate currentCharacter
       previousCharacter lastKeyDownTime endCharacterTimer inputDisabled
       fast_morse_mode_timer repeat_character_timer repeaton
       orphaned_repeat_timers
       text predictions presage_predict abbreviations expanded_text keyLength] in H.

(** X16: A keystroke on an item without a character (and that is neither
    [backspace] nor [delete]): the key is synthesized, but pushing [None]
    onto the text raises; the error is logged and the [TypeState] is as
    before. *)
Theorem keystroke_without_character_leaves_text
    (key : string) (ts : TypeState) (m : Machine) :
  typestate (window m) = Some ts ->
  text_after_key key None (text ts) = None ->
  perform (ActionKeyStroke key None false) m =
    (Returns tt, m,
     [keyboard_press_and_release key;
      logging ERROR "[ActionKeyStroke] Error during key press/release: "
        (Some TypeError)]).
Proof.
  intros Hts Hkey. unfold text_after_key in Hkey.
  destruct (String.eqb key "backspace" || String.eqb key "delete") eqn:E;
    [discriminate|].
  destruct m as [w g kp]. open_window w. simpl in Hts. subst.
  simpl perform. open_keystroke. rewrite E. reflexivity.
Qed.

Lemma keystroke_without_character_leaves_text_witness :
  let m := typing_machine brb_table in
  exec (perform (ActionKeyStroke "f1" None false)) m = m.
Proof.
  intros m. unfold exec.
  rewrite (keystroke_without_character_leaves_text "f1"
             (new_TypeState (fun _ => Returns []) brb_table) m eq_refl eq_refl).
  reflexivity.
Defined.

(** X17: A keystroke after which the last word of the text is no abbreviation
    synthesizes exactly its own key; the text is the old one with the
    character pushed, or with its last character popped for [backspace]
    and [delete]; the cached predictions are dropped. *)
Theorem keystroke_types_its_key
    (key : string) (character : option string) (t' word : string)
    (ts : TypeState) (m : Machine) :
  typestate (window m) = Some ts ->
  text_after_key key character (text ts) = Some t' ->
  last (Py.split t') = Some word ->
  abbreviations ts !! word = None ->
  perform (ActionKeyStroke key character false) m =
    (Returns tt,
     set_window
       (set_typestate
          (Some (mkTypeState t' None (presage_predict ts) (abbreviations ts) ExpNone None))
          (window m)) m,
     [keyboard_press_and_release key]).
Proof.
  intros Hts Hkey Hlast Hlookup. unfold text_after_key in Hkey.
  destruct m as [w g kp]. open_window w. simpl in Hts. subst.
  destruct ts as [txt preds predict table expanded klen]. simpl in *.
  simpl perform. open_keystroke.
  destruct (String.eqb key "backspace" || String.eqb key "delete") eqn:E.
  - injection Hkey as <-. simpl. unfold expand_abbreviation. simpl.
    rewrite Hlast, Hlookup. reflexivity.
  - destruct character as [c|]; [|discriminate]. injection Hkey as <-.
    simpl. unfold expand_abbreviation. simpl.
    rewrite Hlast, Hlookup. reflexivity.
Qed.

Lemma keystroke_types_its_key_witness :
  let m := exec (perform key_B) (typing_machine brb_table) in
  calls (perform (ActionKeyStroke "backspace" None false)) (exec (perform key_R) m) =
    [keyboard_press_and_release "backspace"].
Proof.
  intros m. unfold calls.
  rewrite (keystroke_types_its_key "backspace" None "b" "b"
             (mkTypeState "br" None (fun _ => Returns []) brb_table ExpNone None)
             (exec (perform key_R) m) eq_refl eq_refl eq_refl eq_refl).
  reflexivity.
Defined.

(** X18: A keystroke after which the last word of the text is an
    abbreviation expands it -- also when it is a [backspace] that uncovers
    the abbreviation: the key itself, one backspace for each character of
    the abbreviation, the characters of the expansion and the key [space]
    are synthesized, and as many characters are popped off the text. *)
Theorem keystroke_expands_last_word
    (key : string) (character : option string) (t' word expansion : string)
    (ts : TypeState) (m : Machine) :
  typestate (window m) = Some ts ->
  text_after_key key character (text ts) = Some t' ->
  last (Py.split t') = Some word ->
  abbreviations ts !! word = Some expansion ->
  calls (perform (ActionKeyStroke key character false)) m =
    keyboard_press_and_release key
      :: repeat (keyboard_press_and_release "backspace") (String.length word)
      ++ map keyboard_press_and_release (Py.chars expansion)
      ++ [keyboard_press_and_release "space"] /\
  exists ts',
    typestate (window (exec (perform (ActionKeyStroke key character false)) m)) = Some ts' /\
    text ts' = Nat.iter (String.length word) Py.drop_last t'.
Proof.
  intros Hts Hkey Hlast Hlookup. unfold text_after_key in Hkey.
  destruct m as [w g kp]. open_window w. simpl in Hts. subst.
  destruct ts as [txt preds predict table expanded klen]. simpl in *.
  unfold calls, exec. simpl perform. open_keystroke.
  assert (Hrun : forall w0,
    typestate w0 = Some (mkTypeState t' None predict table (ExpStr expansion)
                           (Some (String.length word))) ->
    exists ts',
      pop_and_backspace window_typestate (String.length word) (mkMachine w0 g kp) =
        (Returns tt, mkMachine (set_typestate (Some ts') w0) g kp,
         repeat (keyboard_press_and_release "backspace") (String.length word)) /\
      text ts' = Nat.iter (String.length word) Py.drop_last t').
  { intros w0 H0. exact (pop_and_backspace_run _ w0 g kp _ H0). }
  destruct (String.eqb key "backspace" || String.eqb key "delete") eqn:E.
  - injection Hkey as <-. simpl. unfold expand_abbreviation. simpl.
    rewrite Hlast, Hlookup. simpl. flatten_machine.
    match goal with |- context [pop_and_backspace window_typestate _ (mkMachine ?w0 _ _)] =>
      destruct (Hrun w0 eq_refl) as (ts' & Hpop & Htext)
    end.
    flatten_machine_in Hpop. rewrite Hpop. simpl.
    rewrite for_each_emit_eq. simpl.
    split; [reflexivity|]. exists ts'. split; [reflexivity | exact Htext].
  - destruct character as [c|]; [|discriminate]. injection Hkey as <-.
    simpl. unfold expand_abbreviation. simpl.
    rewrite Hlast, Hlookup. simpl. flatten_machine.
    match goal with |- context [pop_and_backspace window_typestate _ (mkMachine ?w0 _ _)] =>
      destruct (Hrun w0 eq_refl) as (ts' & Hpop & Htext)
    end.
    flatten_machine_in Hpop. rewrite Hpop. simpl.
    rewrite for_each_emit_eq. simpl.
    split; [reflexivity|]. exists ts'. split; [reflexivity | exact Htext].
Qed.

Lemma keystroke_expands_last_word_witness :
  let ts := mkTypeState "brbx" None (fun _ => Returns []) brb_table ExpNone None in
  let m := boot DEFAULT_CONFIG TwoKey sample_layouts (Some ts) in
  calls (perform (ActionKeyStroke "backspace" None false)) m =
    map keyboard_press_and_release
      (["backspace"; "backspace"; "backspace"; "backspace"]
         ++ Py.chars "be right back" ++ ["space"]).
Proof.
  intros ts m.
  exact (proj1 (keystroke_expands_last_word "backspace" None "brb" "brb" "be right back"
                  ts m eq_refl eq_refl eq_refl eq_refl)).
Defined.

(** X19: When the text holds no word after the keystroke -- it is empty or
    all white space -- [expand_abbreviation] raises; [get_abbreviation]
    logs that, stores the pair [(None, None)] as the expansion and keeps
    the length of the previous lookup.  The keystroke then takes the pair
    for an expansion: it synthesizes one backspace for each unit of the
    stale length, popping the text as it goes, and fails on the first
    element of the pair. *)
Theorem blank_text_replays_stale_length
    (key : string) (character : option string) (t' : string)
    (ts : TypeState) (m : Machine) :
  typestate (window m) = Some ts ->
  text_after_key key character (text ts) = Some t' ->
  last (Py.split t') = None ->
  calls (perform (ActionKeyStroke key character false)) m =
    keyboard_press_and_release key
      :: logging ERROR "[TypeState] Failed to get abbreviations: " (Some IndexError)
      :: match keyLength ts with
         | Some n => repeat (keyboard_press_and_release "backspace") n
         | None => []
         end
      ++ [logging ERROR "[ActionKeyStroke] Error during key press/release: "
            (Some TypeError)] /\
  exists ts',
    typestate (window (exec (perform (ActionKeyStroke key character false)) m)) = Some ts' /\
    text ts' = Nat.iter (default 0 (keyLength ts)) Py.drop_last t' /\
    expanded_text ts' = ExpNonePair.
Proof.
  intros Hts Hkey Hlast. unfold text_after_key in Hkey.
  destruct m as [w g kp]. open_window w. simpl in Hts. subst.
  destruct ts as [txt preds predict table expanded klen]. simpl in *.
  unfold calls, exec. simpl perform. open_keystroke.
  assert (Hrun : forall n w0,
    typestate w0 = Some (mkTypeState t' None predict table ExpNonePair (Some n)) ->
    exists ts',
      pop_and_backspace window_typestate n (mkMachine w0 g kp) =
        (Returns tt, mkMachine (set_typestate (Some ts') w0) g kp,
         repeat (keyboard_press_and_release "backspace") n) /\
      text ts' = Nat.iter n Py.drop_last t' /\
      expanded_text ts' = ExpNonePair).
  { clear. intros n. assert (G : forall n (ts : TypeState) w0,
      typestate w0 = Some ts ->
      exists ts',
        pop_and_backspace window_typestate n (mkMachine w0 g kp) =
          (Returns tt, mkMachine (set_typestate (Some ts') w0) g kp,
           repeat (keyboard_press_and_release "backspace") n) /\
        text ts' = Nat.iter n Py.drop_last (text ts) /\
        expanded_text ts' = expanded_text ts).
    { clear. induction n as [|n IH]; intros ts w0 H0.
      - exists ts. split; [|split; reflexivity].
        open_window w0. simpl in H0. subst. reflexivity.
      - open_window w0. simpl in H0. subst.
        set (ts1 := set_predictions None (set_text (Py.drop_last (text ts)) ts)).
        destruct (IH ts1 (mkWindow cfg mode lm (Some ts1) cur prev down endt disabled
                            fast rept rep orph) eq_refl) as (ts' & Hrun & Htext & Hexp).
        exists ts'. split; [|split].
        + simpl pop_and_backspace. unfold popchar, update, deref, read, write.
          cbv [mbind M_bind bind mret M_ret ret raise emit]. simpl.
          cbv [set_window set_typestate window global_typestate keyboard_is_pressed
               config keySelectionRadio layoutManager typestate currentCharacter
               previousCharacter lastKeyDownTime endCharacterTimer inputDisabled
               fast_morse_mode_timer repeat_character_timer repeaton
       orphaned_repeat_timers] in Hrun |- *.
          fold ts1. rewrite Hrun. reflexivity.
        + rewrite Htext. simpl text. rewrite Nat.iter_succ_r. reflexivity.
        + rewrite Hexp. reflexivity. }
    intros w0 H0. exact (G n _ w0 H0). }
  destruct (String.eqb key "backspace" || String.eqb key "delete") eqn:E.
  - injection Hkey as <-. simpl. unfold expand_abbreviation. simpl.
    rewrite Hlast. simpl. flatten_machine.
    destruct klen as [n|]; simpl.
    + match goal with |- context [pop_and_backspace window_typestate _ (mkMachine ?w0 _ _)] =>
        destruct (Hrun n w0 eq_refl) as (ts' & Hpop & Htext & Hexp)
      end.
      flatten_machine_in Hpop. rewrite Hpop. simpl.
      rewrite app_nil_r.
      split; [reflexivity|]. exists ts'. auto.
    + split; [reflexivity|]. eexists. split; [reflexivity|]. split; reflexivity.
  - destruct character as [c|]; [|discriminate]. injection Hkey as <-.
    simpl. unfold expand_abbreviation. simpl.
    rewrite Hlast. simpl. flatten_machine.
    destruct klen as [n|]; simpl.
    + match goal with |- context [pop_and_backspace window_typestate _ (mkMachine ?w0 _ _)] =>
        destruct (Hrun n w0 eq_refl) as (ts' & Hpop & Htext & Hexp)
      end.
      flatten_machine_in Hpop. rewrite Hpop. simpl.
      rewrite app_nil_r.
      split; [reflexivity|]. exists ts'. auto.
    + split; [reflexivity|]. eexists. split; [reflexivity|]. split; reflexivity.
Qed.

Lemma blank_text_replays_stale_length_witness :
  let ts := mkTypeState "" None (fun _ => Returns []) brb_table
              (ExpStr "be right back") (Some 3) in
  let m := boot DEFAULT_CONFIG TwoKey sample_layouts (Some ts) in
  calls (perform (ActionKeyStroke "space" (Some " ") false)) m =
    [keyboard_press_and_release "space";
     logging ERROR "[TypeState] Failed to get abbreviations: " (Some IndexError);
     keyboard_press_and_release "backspace";
     keyboard_press_and_release "backspace";
     keyboard_press_and_release "backspace";
     logging ERROR "[ActionKeyStroke] Error during key press/release: " (Some TypeError)].
Proof.
  intros ts m.
  exact (proj1 (blank_text_replays_stale_length "space" (Some " ") " " ts m
                  eq_refl eq_refl eq_refl)).
Defined.

(** ** Predictions *)

(** X20: [getpredictions] asks the predictor once: a second call returns the
    same list without logging anything and without changing the machine,
    also when the predictor failed and the list is empty. *)
Theorem predictions_are_cached (r : TypeStateRef) (ts : TypeState) (m : Machine) :
  outcome (read r) m = Returns (Some ts) ->
  let m1 := exec (getpredictions r) m in
  let p := match predictions ts with
           | Some p => p
           | None =>
               match presage_predict ts (text ts) with
               | Returns p => p
               | Raises _ => []
               end
           end in
  outcome (getpredictions r) m = Returns p /\
  getpredictions r m1 = (Returns p, m1, []).
Proof.
  intros Hts m1 p. subst m1 p.
  destruct m as [w g kp]. open_window w.
  destruct ts as [txt preds predict table expanded klen].
  unfold outcome, exec.
  destruct r; unfold read in Hts; unfold outcome in Hts; simpl in Hts;
    injection Hts as ->;
    unfold getpredictions, update, deref, read, write;
    cbv [mbind M_bind bind mret M_ret ret raise emit]; simpl;
    (destruct preds as [p|]; simpl; [split; reflexivity|]);
    destruct (predict txt) as [p|e]; simpl; split; reflexivity.
Qed.

Lemma predictions_are_cached_witness :
  let ts := new_TypeState (fun _ => Raises ValueError) brb_table in
  let m := boot DEFAULT_CONFIG TwoKey sample_layouts (Some ts) in
  calls (getpredictions window_typestate) m =
    [logging ERROR "[TypeState] Failed to generate predictions: " (Some ValueError)] /\
  calls (getpredictions window_typestate) (exec (getpredictions window_typestate) m) = [].
Proof.
  intros ts m. split; [reflexivity|].
  unfold calls at 1.
  rewrite (proj2 (predictions_are_cached window_typestate ts m eq_refl)).
  reflexivity.
Defined.

(** X21: Pushing or popping a character drops the cached list: the next
    [getpredictions] asks the predictor about the new text. *)
Theorem typing_invalidates_predictions
    (r : TypeStateRef) (c : string) (ts : TypeState) (m : Machine) :
  outcome (read r) m = Returns (Some ts) ->
  let answer t :=
    match presage_predict ts t with
    | Returns p => p
    | Raises _ => []
    end in
  outcome (getpredictions r) (exec (pushchar r (Some c)) m)
    = Returns (answer (text ts +:+ c)) /\
  outcome (getpredictions r) (exec (popchar r) m)
    = Returns (answer (Py.drop_last (text ts))).
Proof.
  intros Hts answer. subst answer.
  destruct m as [w g kp]. open_window w.
  destruct ts as [txt preds predict table expanded klen].
  unfold outcome, exec.
  destruct r; unfold read in Hts; unfold outcome in Hts; simpl in Hts;
    injection Hts as ->;
    unfold getpredictions, pushchar, popchar, update, deref, read, write;
    cbv [mbind M_bind bind mret M_ret ret raise emit]; simpl;
    split;
    match goal with |- context [predict ?t] => destruct (predict t) end;
    reflexivity.
Qed.

Lemma typing_invalidates_predictions_witness :
  let predict t := Returns (if String.eqb t "b" then ["be"; "by"] else []) in
  let ts := mkTypeState "" (Some []) predict brb_table ExpNone None in
  let m := boot DEFAULT_CONFIG TwoKey sample_layouts (Some ts) in
  outcome (getpredictions window_typestate) (exec (pushchar window_typestate (Some "b")) m)
    = Returns ["be"; "by"].
Proof.
  intros predict ts m.
  exact (proj1 (typing_invalidates_predictions window_typestate "b" ts m eq_refl)).
Defined.

(** ** The keypad view *)

Lemma string_app_assoc (a b c : string) : (a +:+ b) +:+ c = a +:+ (b +:+ c).
Proof.
  induction a as [|x a IH]; [reflexivity|].
  change (String x ((a +:+ b) +:+ c) = String x (a +:+ b +:+ c)). f_equal. exact IH.
Qed.

Lemma string_app_length (a b : string) :
  String.length (a +:+ b) = String.length a + String.length b.
Proof.
  induction a as [|x a IH]; [reflexivity|].
  change (S (String.length (a +:+ b)) = S (String.length a + String.length b)).
  f_equal. exact IH.
Qed.

Lemma string_get_app (pre rest : string) :
  String.get (String.length pre) (pre +:+ rest) = String.get 0 rest.
Proof. rewrite (append_correct2 pre rest 0). reflexivity. Qed.

(** A cell that is out of the running ignores the symbols. *)
Lemma cell_run_disabled (syms : list MorseSymbol) (c : string) (d : Z) :
  cell_run (map symbol_call syms) (CodeRepresentation.mk c d false)
    = Returns (CodeRepresentation.mk c d false).
Proof.
  induction syms as [|s syms IH]; [reflexivity|].
  destruct s; simpl; exact IH.
Qed.

Lemma tick_if_at (mark : ascii) (pre rest : string) :
  CodeRepresentation.tick_if mark
    (CodeRepresentation.mk (pre +:+ rest) (Z.of_nat (String.length pre)) true) =
  Returns
    match rest with
    | String c rest' =>
        if Ascii.eqb c mark
        then CodeRepresentation.mk (pre +:+ rest) (Z.of_nat (String.length pre) + 1) true
        else CodeRepresentation.mk (pre +:+ rest) (Z.of_nat (String.length pre)) false
    | EmptyString =>
        CodeRepresentation.mk (pre +:+ rest) (Z.of_nat (String.length pre)) false
    end.
Proof.
  unfold CodeRepresentation.tick_if, CodeRepresentation.enabled. simpl.
  unfold Py.len. rewrite string_app_length.
  destruct rest as [|c rest'].
  - simpl. rewrite Nat.add_0_r, Z.ltb_irrefl. reflexivity.
  - assert (H : (Z.of_nat (String.length pre)
                 <? Z.of_nat (String.length pre + String.length (String c rest')))%Z = true)
      by (apply Z.ltb_lt; simpl; lia).
    rewrite H. unfold getitem.
    assert (H0 : (Z.of_nat (String.length pre) <? 0)%Z = false) by (apply Z.ltb_ge; lia).
    rewrite H0. cbv zeta. cbv iota. rewrite ?H0, Nat2Z.id, string_get_app. simpl.
    rewrite ?H0.
    destruct (Ascii.eqb c mark); [|reflexivity].
    unfold CodeRepresentation.tickDitDah, CodeRepresentation.disabledchars,
      CodeRepresentation.code, CodeRepresentation.is_enabled, Py.len.
    rewrite string_app_length.
    assert (H1 : (Z.of_nat (String.length pre + String.length (String c rest'))
                  <? Z.of_nat (String.length pre) + 1)%Z = false)
      by (apply Z.ltb_ge; simpl; lia).
    rewrite H1. reflexivity.
Qed.

Lemma symbol_mark_eqb (s : MorseSymbol) (c : ascii) :
  Ascii.eqb c (symbol_mark s) = if ascii_dec (symbol_mark s) c then true else false.
Proof.
  destruct (ascii_dec (symbol_mark s) c) as [<-|H].
  - apply Ascii.eqb_refl.
  - apply Ascii.eqb_neq. congruence.
Qed.

Lemma cell_run_from (syms : list MorseSymbol) (pre rest : string) :
  exists d,
    cell_run (map symbol_call syms)
      (CodeRepresentation.mk (pre +:+ rest) (Z.of_nat (String.length pre)) true) =
    Returns (CodeRepresentation.mk (pre +:+ rest) d (String.prefix (marks syms) rest)) /\
    (String.prefix (marks syms) rest = true ->
     d = Z.of_nat (String.length pre + length syms)).
Proof.
  revert pre rest. induction syms as [|s syms IH]; intros pre rest.
  - exists (Z.of_nat (String.length pre)). simpl. split.
    + destruct rest; reflexivity.
    + intros _. f_equal. lia.
  - assert (E : cell_run (map symbol_call (s :: syms))
                  (CodeRepresentation.mk (pre +:+ rest) (Z.of_nat (String.length pre)) true) =
                match CodeRepresentation.tick_if (symbol_mark s)
                        (CodeRepresentation.mk (pre +:+ rest)
                           (Z.of_nat (String.length pre)) true) with
                | Returns cr' => cell_run (map symbol_call syms) cr'
                | Raises e => Raises e
                end) by (destruct s; reflexivity).
    rewrite E, tick_if_at. clear E.
    change (marks (s :: syms)) with (String (symbol_mark s) (marks syms)).
    destruct rest as [|c rest'].
    + exists (Z.of_nat (String.length pre)). rewrite cell_run_disabled.
      split; [reflexivity|discriminate].
    + simpl String.prefix. rewrite symbol_mark_eqb.
      destruct (ascii_dec (symbol_mark s) c) as [Hc|Hc].
      * destruct (IH (pre +:+ String c "") rest') as (d & Hrun & Hd).
        rewrite string_app_assoc in Hrun. simpl in Hrun.
        rewrite string_app_length in Hrun, Hd. simpl in Hrun, Hd.
        replace (Z.of_nat (String.length pre + 1)) with (Z.of_nat (String.length pre) + 1)%Z
          in Hrun by lia.
        exists d. split; [exact Hrun|].
        intros Hp. rewrite (Hd Hp). f_equal. simpl. lia.
      * exists (Z.of_nat (String.length pre)). rewrite cell_run_disabled.
        split; [reflexivity|discriminate].
Qed.

Lemma cell_run_after_reset (syms : list MorseSymbol) (cr : CodeRepresentation.t) :
  exists cr',
    cell_run (view_reset :: map symbol_call syms) cr = Returns cr' /\
    CodeRepresentation.code cr' = CodeRepresentation.code cr /\
    CodeRepresentation.is_enabled cr'
      = String.prefix (marks syms) (CodeRepresentation.code cr) /\
    (CodeRepresentation.is_enabled cr' = true ->
     CodeRepresentation.disabledchars cr' = Z.of_nat (length syms)).
Proof.
  destruct cr as [c d0 e0].
  destruct (cell_run_from syms "" c) as (d & Hrun & Hd). simpl in Hrun, Hd.
  exists (CodeRepresentation.mk c d (String.prefix (marks syms) c)).
  split; [|split; [reflexivity|split; [reflexivity|exact Hd]]].
  simpl cell_run.
  assert (R : CodeRepresentation.reset (CodeRepresentation.mk c d0 e0)
              = CodeRepresentation.mk c 0 true).
  { unfold CodeRepresentation.reset, CodeRepresentation.tickDitDah,
      CodeRepresentation.enable. simpl.
    change (-1 + 1)%Z with 0%Z.
    assert (H : (Py.len c <? 0)%Z = false) by (apply Z.ltb_ge; unfold Py.len; lia).
    rewrite H. reflexivity. }
  rewrite R. exact Hrun.
Qed.

(** X22: A cell of the keypad follows the symbols keyed since the last
    reset: it stays in the running exactly as long as the marks keyed so
    far are a prefix of its code, and then the number of marks it shows
    as keyed is the number of symbols.  No call raises, whatever the code
    and whatever state the cell was reset from. *)
Theorem cell_tracks_keyed_prefix (syms : list MorseSymbol) (cr : CodeRepresentation.t) :
  exists cr',
    cell_run (view_reset :: map symbol_call syms) cr = Returns cr' /\
    CodeRepresentation.code cr' = CodeRepresentation.code cr /\
    CodeRepresentation.is_enabled cr'
      = String.prefix (marks syms) (CodeRepresentation.code cr) /\
    (CodeRepresentation.is_enabled cr' = true ->
     CodeRepresentation.disabledchars cr' = Z.of_nat (length syms)).
Proof. exact (cell_run_after_reset syms cr). Qed.

Lemma calls_deliver_all_app es1 es2 m :
  calls (deliver_all (es1 ++ es2)) m =
    calls (deliver_all es1) m ++ calls (deliver_all es2) (exec (deliver_all es1) m).
Proof.
  revert m. induction es1 as [|e es1 IH]; intros m; [reflexivity|].
  simpl app. rewrite !calls_deliver_all_cons, exec_deliver_all_cons, IH.
  rewrite app_assoc. reflexivity.
Qed.

Lemma view_calls_stroke (s : Stroke) (sym : MorseSymbol) (m : Machine) :
  stroke_key s <> "P" ->
  inputDisabled (window m) = false ->
  lastKeyDownTime (window m) = None ->
  stroke_symbol (window m) s = Some sym ->
  omap view_call (calls (deliver_all (stroke_events s)) m) = [symbol_call sym].
Proof.
  intros HP Hd Hl Hs. apply String.eqb_neq in HP.
  unfold stroke_events.
  rewrite !calls_deliver_all_cons, !exec_deliver_key, !calls_deliver_key.
  cbv iota. unfold exec, calls. rewrite on_press_eq, HP, Hd, Hl. cbn zeta.
  unfold stroke_symbol in Hs.
  open_machine m.
  destruct mode; simpl in Hs |- *.
  - injection Hs as <-. rewrite on_release_eq. simpl.
    destruct (classify cfg _); destruct (withsound cfg); reflexivity.
  - destruct (stroke_role s) as [|[|r]]; try discriminate; injection Hs as <-;
      simpl; rewrite ?addDit_eq, ?addDah_eq; simpl;
      rewrite on_release_eq; destruct (fastMorseMode cfg); simpl;
      destruct (withsound cfg); reflexivity.
  - destruct (stroke_role s) as [|[|r]]; try discriminate; injection Hs as <-;
      simpl; rewrite ?addDit_eq, ?addDah_eq; simpl;
      rewrite on_release_eq; destruct (fastMorseMode cfg); simpl;
      destruct (withsound cfg); reflexivity.
Qed.

Lemma view_calls_keying (ss : list Stroke) (syms : list MorseSymbol) (m : Machine) :
  Forall (fun s => stroke_key s <> "P") ss ->
  inputDisabled (window m) = false ->
  lastKeyDownTime (window m) = None ->
  map (stroke_symbol (window m)) ss = map Some syms ->
  omap view_call (calls (deliver_all (keying ss)) m) = map symbol_call syms.
Proof.
  revert syms m. induction ss as [|s ss IH]; intros syms m HP Hd Hl Hs.
  - destruct syms; [reflexivity|discriminate].
  - destruct syms as [|sym syms]; [discriminate|].
    simpl in Hs. injection Hs as Hs Hss.
    inversion HP as [|? ? HP1 HP2]; subst.
    change (keying (s :: ss)) with (stroke_events s ++ keying ss).
    rewrite calls_deliver_all_app, omap_app.
    rewrite (view_calls_stroke s sym m HP1 Hd Hl Hs).
    rewrite (exec_stroke s sym m HP1 Hd Hl Hs).
    rewrite (IH syms); try assumption; reflexivity.
Qed.

(** X23: The keypad follows the engine: the calls that the keying of a
    sequence of strokes makes on the keypad are one [Dit] or [Dah] for
    each symbol, in order.  A cell that was reset before is in the running
    afterwards exactly when the marks of these symbols are a prefix of
    its code; and the cell of an item whose code is the digits of the
    symbols -- the item the resolver would match -- shows its whole code
    as keyed. *)
Theorem keypad_follows_keying
    (ss : list Stroke) (syms : list MorseSymbol) (m : Machine)
    (cr : CodeRepresentation.t) :
  Forall (fun s => stroke_key s <> "P") ss ->
  inputDisabled (window m) = false ->
  lastKeyDownTime (window m) = None ->
  map (stroke_symbol (window m)) ss = map Some syms ->
  let seen := omap view_call (calls (deliver_all (keying ss)) m) in
  seen = map symbol_call syms /\
  (exists cr',
     cell_run (view_reset :: seen) cr = Returns cr' /\
     CodeRepresentation.is_enabled cr'
       = String.prefix (marks syms) (CodeRepresentation.code cr)) /\
  cell_run seen (CodeRepresentation.init (digits syms))
    = Returns (CodeRepresentation.mk (marks syms) (Z.of_nat (length syms)) true).
Proof.
  intros HP Hd Hl Hs seen.
  assert (E : seen = map symbol_call syms) by (apply view_calls_keying; assumption).
  rewrite E. split; [reflexivity|]. split.
  - destruct (cell_run_after_reset syms cr) as (cr' & Hrun & _ & Hen & _).
    exists cr'. split; assumption.
  - unfold CodeRepresentation.init. rewrite codetocode_digits.
    destruct (cell_run_from syms "" (marks syms)) as (d & Hrun & Hlen).
    change ("" +:+ marks syms) with (marks syms) in Hrun.
    change (Z.of_nat (String.length "")) with 0%Z in Hrun.
    simpl in Hlen. rewrite Hrun.
    assert (P : String.prefix (marks syms) (marks syms) = true).
    { clear. induction (marks syms) as [|a s IH]; [reflexivity|].
      simpl. destruct (ascii_dec a a); [exact IH|contradiction]. }
    rewrite P, (Hlen P). reflexivity.
Qed.

Lemma keypad_follows_keying_witness :
  let m := boot DEFAULT_CONFIG TwoKey sample_layouts None in
  let ss := [mkStroke "space" 0 0%Q (1 # 10)%Q; mkStroke "enter" 1 1%Q (3 # 2)%Q] in
  cell_run (omap view_call (calls (deliver_all (keying ss)) m))
    (CodeRepresentation.init "12")
    = Returns (CodeRepresentation.mk ".-" 2 true).
Proof.
  intros m ss.
  refine (proj2 (proj2 (keypad_follows_keying ss [Dit; Dah] m (CodeRepresentation.init "12")
                          _ eq_refl eq_refl eq_refl))).
  repeat constructor; discriminate.
Defined.

(** ** Key bindings *)

Lemma configured_key_raises (config_key : string) (e : Py.Exn) :
  configured_key config_key = Raises e -> e = ValueError.
Proof.
  unfold configured_key.
  destruct (dict_get (upper config_key) ConfigManager.keystrokemap); congruence.
Qed.

(** X24: [get_configured_keys] falls back on the names [SPACE], [ENTER] and
    [RIGHT CTRL] for keys the configuration does not hold; the last of
    these is no key of [key_data] (the right control key is [RCTRL]
    there), so a configuration without [keythree] is rejected with
    [ValueError], whatever its other two keys.  The names of
    [DEFAULT_CONFIG] give the key codes [space], [enter], [right ctrl]. *)
Theorem configured_keys_need_a_third_key (key_one key_two : option string) :
  get_configured_keys (mkKeyConfig key_one key_two None) = Raises ValueError /\
  get_configured_keys (mkKeyConfig (Some "SPACE") (Some "ENTER") (Some "RCTRL"))
    = Returns ["space"; "enter"; "right ctrl"].
Proof.
  split; [|vm_compute; reflexivity].
  unfold get_configured_keys. simpl.
  destruct (configured_key (default "SPACE" key_one)) as [c1|e1] eqn:E1;
    [|rewrite (configured_key_raises _ _ E1); reflexivity].
  destruct (configured_key (default "ENTER" key_two)) as [c2|e2] eqn:E2;
    [|rewrite (configured_key_raises _ _ E2); reflexivity].
  vm_compute. reflexivity.
Qed.

Lemma forallb_In {A} (f : A -> bool) (xs : list A) (x : A) :
  forallb f xs = true -> In x xs -> f x = true.
Proof. intros H Hin. rewrite forallb_forall in H. exact (H x Hin). Qed.

Lemma roles_in_order_checked :
  forallb (fun mode =>
    forallb (fun k1 =>
      forallb (fun k2 =>
        forallb (fun k3 => warn_user mode k1 k2 k3 || roles_in_order mode k1 k2 k3)
          morse_keys) morse_keys) morse_keys) [OneKey; TwoKey; ThreeKey] = true.
Proof. vm_compute. reflexivity. Qed.

(** X25: Settings that [goForIt] accepts give the switches their roles in
    order: for names chosen among those the dialog offers, the key codes
    exist and the listener emits its events with role 0 for the first
    key, role 1 for the second in the two- and three-key modes, and
    role 2 for the third in three-key mode. *)
Theorem accepted_keys_get_their_own_role
    (mode : InputMode) (key_one key_two key_three : string) :
  In key_one morse_keys -> In key_two morse_keys -> In key_three morse_keys ->
  warn_user mode key_one key_two key_three = false ->
  exists c1 c2 c3,
    get_configured_keys (mkKeyConfig (Some key_one) (Some key_two) (Some key_three))
      = Returns [c1; c2; c3] /\
    forall is_press now,
      listener_event [c1; c2; c3] c1 is_press now = Some (keyEvent c1 is_press 0 now) /\
      (mode <> OneKey ->
       listener_event [c1; c2; c3] c2 is_press now = Some (keyEvent c2 is_press 1 now)) /\
      (mode = ThreeKey ->
       listener_event [c1; c2; c3] c3 is_press now = Some (keyEvent c3 is_press 2 now)).
Proof.
  intros H1 H2 H3 Hwarn.
  assert (Hmode : In mode [OneKey; TwoKey; ThreeKey])
    by (destruct mode; simpl; auto).
  pose proof (forallb_In _ _ _ roles_in_order_checked Hmode) as C. cbv beta in C.
  pose proof (forallb_In _ _ _ C H1) as C1. cbv beta in C1.
  pose proof (forallb_In _ _ _ C1 H2) as C2. cbv beta in C2.
  pose proof (forallb_In _ _ _ C2 H3) as C3. cbv beta in C3.
  rewrite Hwarn in C3. simpl in C3. clear C C1 C2.
  unfold roles_in_order in C3.
  destruct (get_configured_keys _) as [[|c1 [|c2 [|c3 [|? ?]]]]|e]; try discriminate.
  exists c1, c2, c3. split; [reflexivity|].
  apply andb_prop in C3 as [C3 Cc]. apply andb_prop in C3 as [Ca Cb].
  apply bool_decide_eq_true in Ca.
  intros is_press now. unfold listener_event. split; [rewrite Ca; reflexivity|]. split.
  - intros Hm. destruct mode; [congruence| |];
      (apply orb_prop in Cb as [Cb|Cb]; [discriminate|]);
      apply bool_decide_eq_true in Cb; rewrite Cb; reflexivity.
  - intros ->. apply orb_prop in Cc as [Cc|Cc]; [discriminate|].
    apply bool_decide_eq_true in Cc. rewrite Cc. reflexivity.
Qed.

Lemma accepted_keys_get_their_own_role_witness :
  exists c1 c2 c3,
    get_configured_keys (mkKeyConfig (Some "SPACE") (Some "ENTER") (Some "RCTRL"))
      = Returns [c1; c2; c3] /\
    listener_event [c1; c2; c3] c3 true 0%Q = Some (keyEvent c3 true 2 0%Q).
Proof.
  destruct (accepted_keys_get_their_own_role ThreeKey "SPACE" "ENTER" "RCTRL")
    as (c1 & c2 & c3 & E & R).
  - simpl. auto.
  - simpl. auto.
  - simpl. auto 10.
  - reflexivity.
  - exists c1, c2, c3. split; [exact E | exact (proj2 (proj2 (R true 0%Q)) eq_refl)].
Defined.

(** ** Mouse keys *)

Lemma dict_get_In {A} (key : string) (entries : list (string * A)) (v : A) :
  dict_get key entries = Some v -> In (key, v) entries.
Proof.
  induction entries as [|[k w] rest IH]; simpl; [discriminate|].
  destruct (dict_get key rest) as [v'|].
  - intros [= ->]. right. apply IH. reflexivity.
  - destruct (String.eqb k key) eqn:E; [|discriminate].
    intros [= ->]. apply String.eqb_eq in E. subst. left. reflexivity.
Qed.

(** X26: The actions [initActions] stores for the mouse keys of [key_data]:
    each is an [ActionLegacy] on the key code and leaves the machine as
    it is.  It makes one call of the [mouse] module, announced by one log
    line -- except for the normal-mode key and the two double-click keys,
    whose key codes [ActionLegacy.perform] has no entry for: these do
    nothing. *)
Theorem mouse_keys_make_at_most_one_call
    (name : string) (factory : ConfigManager.ActionFactory) (m : Machine) :
  dict_get name ConfigManager.initActions = Some factory ->
  String.prefix "MOUSE" name = true ->
  let idle := ["NORMALMODE"; "MOUSEDBLCLICKLEFT"; "MOUSEDBLCLICKRIGHT"] in
  exists key_code,
    factory = ConfigManager.fixed (ActionLegacy (Some key_code)) /\
    exec (perform (ActionLegacy (Some key_code))) m = m /\
    match calls (perform (ActionLegacy (Some key_code))) m with
    | [] => In key_code idle
    | [logging INFO _ None; call] => is_mouse_call call = true /\ ~ In key_code idle
    | _ => False
    end.
Proof.
  intros Hget Hname idle. subst idle. apply dict_get_In in Hget.
  assert (H : Forall (fun entry : string * ConfigManager.ActionFactory =>
                String.prefix "MOUSE" (fst entry) = true ->
                exists key_code,
                  snd entry = ConfigManager.fixed (ActionLegacy (Some key_code)) /\
                  forall m,
                    exec (perform (ActionLegacy (Some key_code))) m = m /\
                    match calls (perform (ActionLegacy (Some key_code))) m with
                    | [] => In key_code ["NORMALMODE"; "MOUSEDBLCLICKLEFT"; "MOUSEDBLCLICKRIGHT"]
                    | [logging INFO _ None; call] =>
                        is_mouse_call call = true /\
                        ~ In key_code ["NORMALMODE"; "MOUSEDBLCLICKLEFT"; "MOUSEDBLCLICKRIGHT"]
                    | _ => False
                    end)
              ConfigManager.initActions).
  { let l := eval vm_compute in ConfigManager.initActions in
    change ConfigManager.initActions with l.
    repeat (constructor;
            [cbn [fst snd];
             first [ discriminate
                   | intros _; eexists; split; [reflexivity|];
                     intros m0; split; [reflexivity|];
                     vm_compute;
                     first [ tauto
                           | split; [reflexivity|]; intros Hin;
                             repeat (destruct Hin as [Hin|Hin]; [discriminate|]);
                             exact Hin ] ]|]).
    constructor. }
  rewrite List.Forall_forall in H.
  destruct (H _ Hget Hname) as (kc & Hk & Hrun). simpl in Hk. subst factory.
  exists kc. split; [reflexivity|]. exact (Hrun m).
Qed.

Lemma mouse_keys_make_at_most_one_call_witness :
  let m := boot DEFAULT_CONFIG TwoKey sample_layouts None in
  exec (perform (ActionLegacy (Some "MOUSEUP5"))) m = m.
Proof.
  intros m.
  destruct (mouse_keys_make_at_most_one_call "MOUSEUP5"
              (ConfigManager.fixed (ActionLegacy (Some "MOUSEUP5"))) m)
    as (kc & E & X & _).
  - vm_compute. reflexivity.
  - reflexivity.
  - injection E as <-. exact X.
Defined.

(** ** Sticky repeat *)

Lemma repeat_timeout_armed (t : QTimer) (m : Machine) :
  repeat_character_timer (window m) = Some t ->
  deliver repeat_character_timer_timeout m
    = handleMorseCode (previousCharacter (window m)) m.
Proof.
  intros H. simpl. cbv [mbind M_bind bind self]. rewrite H.
  destruct (handleMorseCode (previousCharacter (window m)) m) as [[r m'] out].
  reflexivity.
Qed.

(** X27: While the sticky-repeat timer is held, each of its expiries resolves
    the snapshot of the last completed character once more, exactly as
    [handleMorseCode] would, and leaves the timer, the snapshot and the
    buffer as they are: the repetition goes on until a key is pressed. *)
Theorem sticky_repeat_replays_snapshot (n : nat) (t : QTimer) (m : Machine) :
  repeat_character_timer (window m) = Some t ->
  let m' := exec (deliver_all (repeat repeat_character_timer_timeout n)) m in
  repeat_character_timer (window m') = Some t /\
  previousCharacter (window m') = previousCharacter (window m) /\
  currentCharacter (window m') = currentCharacter (window m) /\
  deliver repeat_character_timer_timeout m'
    = handleMorseCode (previousCharacter (window m)) m'.
Proof.
  intros Ht m'. subst m'.
  assert (H : repeat_character_timer
                (window (exec (deliver_all (repeat repeat_character_timer_timeout n)) m))
              = Some t /\
              previousCharacter
                (window (exec (deliver_all (repeat repeat_character_timer_timeout n)) m))
              = previousCharacter (window m) /\
              currentCharacter
                (window (exec (deliver_all (repeat repeat_character_timer_timeout n)) m))
              = currentCharacter (window m)).
  { revert m Ht. induction n as [|n IH]; intros m Ht; [auto|].
    change (repeat repeat_character_timer_timeout (S n))
      with (repeat_character_timer_timeout :: repeat repeat_character_timer_timeout n).
    rewrite exec_deliver_all_cons.
    assert (E : exec (deliver repeat_character_timer_timeout) m
                = exec (handleMorseCode (previousCharacter (window m))) m)
      by (unfold exec; rewrite (repeat_timeout_armed t m Ht); reflexivity).
    destruct (handleMorseCode_framed (previousCharacter (window m)) m)
      as [(_&_&F3&F4&_&_&_&_&F9&_) _].
    rewrite <- E in F3, F4, F9.
    destruct (IH (exec (deliver repeat_character_timer_timeout) m)) as (H1 & H2 & H3);
      [rewrite F9; exact Ht|].
    rewrite H1, H2, H3, F3, F4. auto. }
  destruct H as (H1 & H2 & H3). split; [exact H1|]. split; [exact H2|]. split; [exact H3|].
  rewrite <- H2. apply (repeat_timeout_armed t). exact H1.
Qed.

Lemma sticky_repeat_replays_snapshot_witness :
  let w := mkWindow DEFAULT_CONFIG ThreeKey sample_layouts None [] [1%Z] None None
             false None (Some (mkQTimer 300 false)) true [] in
  let m := mkMachine w None (fun _ => false) in
  repeat_character_timer
    (window (exec (deliver_all (repeat repeat_character_timer_timeout 3)) m))
    = Some (mkQTimer 300 false).
Proof.
  intros w m.
  exact (proj1 (sticky_repeat_replays_snapshot 3 (mkQTimer 300 false) m eq_refl)).
Defined.

(** ** Selecting a prediction, in general *)

Lemma substring_all (s : string) : substring 0 (String.length s) s = s.
Proof. induction s as [|c s IH]; [reflexivity|]. simpl. rewrite IH. reflexivity. Qed.

Lemma substring_none (n : nat) (s : string) : substring n 0 s = "".
Proof.
  revert n. induction s as [|c s IH]; intros [|n]; try reflexivity. simpl. apply IH.
Qed.

Lemma substring_prefix (a b : string) : substring 0 (String.length a) (a +:+ b) = a.
Proof.
  induction a as [|c a IH]; [apply substring_none|].
  change (String c (substring 0 (String.length a) (a +:+ b)) = String c a).
  rewrite IH. reflexivity.
Qed.

Lemma substring_suffix (a b : string) :
  substring (String.length a) (String.length b) (a +:+ b) = b.
Proof.
  induction a as [|c a IH]; [apply substring_all|].
  change (substring (String.length a) (String.length b) (a +:+ b) = b). exact IH.
Qed.

Lemma boundary_free_get (s : string) (i : nat) :
  boundary_free s = true -> i < String.length s ->
  is_word_boundary (String.get i s) = false.
Proof.
  revert i. induction s as [|c s IH]; intros i H Hi; [simpl in Hi; lia|].
  simpl in H. apply andb_prop in H as [Hc Hs].
  destruct i as [|i]; simpl.
  - apply negb_true_iff in Hc. exact Hc.
  - apply IH; [exact Hs | simpl in Hi; lia].
Qed.

(** The loop of [perform] finds the word the text ends with, provided
    it is shorter than the prediction; otherwise it finds nothing. *)
Lemma find_stripsuffix_word (base word : string) (fuel i : nat) :
  boundary_free word = true ->
  ends_at_boundary base = true ->
  i <= String.length word ->
  find_stripsuffix (base +:+ word) fuel (Z.of_nat i) =
    if String.length word - i <? fuel then word else "".
Proof.
  intros Hword Hbase. revert i. induction fuel as [|fuel IH]; intros i Hi.
  - simpl. destruct (String.length word - i <? 0) eqn:E; [|reflexivity].
    apply Nat.ltb_lt in E. lia.
  - simpl find_stripsuffix. unfold Py.len. rewrite string_app_length.
    destruct (Nat.eq_dec i (String.length word)) as [->|Hne].
    + replace (String.length word - String.length word <? S fuel) with true
        by (symmetry; apply Nat.ltb_lt; lia).
      replace (Z.of_nat (String.length base + String.length word)
               - Z.of_nat (String.length word))%Z
        with (Z.of_nat (String.length base)) by lia.
      destruct base as [|c base'].
      * simpl. unfold Py.slice_from. change ("" +:+ word) with word.
        change (Z.to_nat (Z.of_nat 0)) with 0. rewrite Nat.sub_0_r.
        apply substring_all.
      * assert (E0 : (Z.of_nat (String.length (String c base')) =? 0)%Z = false)
          by (apply Z.eqb_neq; simpl; lia).
        assert (E1 : (0 <? Z.of_nat (String.length (String c base')))%Z = true)
          by (apply Z.ltb_lt; simpl; lia).
        rewrite E0, E1. unfold Py.index.
        assert (E2 : (Z.of_nat (String.length (String c base')) - 1 <? 0)%Z = false)
          by (apply Z.ltb_ge; simpl; lia).
        rewrite E2.
        replace (Z.to_nat (Z.of_nat (String.length (String c base')) - 1))
          with (String.length (String c base') - 1) by lia.
        rewrite <- (append_correct1 (String c base') word) by (simpl; lia).
        unfold ends_at_boundary in Hbase. rewrite Hbase. simpl orb. cbv iota.
        unfold Py.slice_from. rewrite Nat2Z.id, string_app_length.
        replace (String.length (String c base') + String.length word
                 - String.length (String c base')) with (String.length word) by lia.
        apply substring_suffix.
    + assert (Hlt : i < String.length word) by lia.
      set (idx := (Z.of_nat (String.length base + String.length word) - Z.of_nat i)%Z).
      assert (E0 : (idx =? 0)%Z = false) by (apply Z.eqb_neq; unfold idx; lia).
      assert (E1 : (0 <? idx)%Z = true) by (apply Z.ltb_lt; unfold idx; lia).
      rewrite E0, E1. unfold Py.index.
      assert (E2 : (idx - 1 <? 0)%Z = false) by (apply Z.ltb_ge; unfold idx; lia).
      rewrite E2.
      replace (Z.to_nat (idx - 1))
        with ((String.length word - i - 1) + String.length base) by (unfold idx; lia).
      rewrite <- (append_correct2 base word).
      rewrite (boundary_free_get word _ Hword) by lia.
      simpl orb. cbv iota.
      replace (Z.of_nat i + 1)%Z with (Z.of_nat (S i)) by lia.
      rewrite (IH (S i)) by lia.
      replace (String.length word - S i <? fuel) with (String.length word - i <? S fuel);
        [reflexivity|].
      destruct (String.length word - S i <? fuel) eqn:E.
      * apply Nat.ltb_lt in E. apply Nat.ltb_lt. lia.
      * apply Nat.ltb_ge in E. apply Nat.ltb_ge. lia.
Qed.

(** X28: What selecting a prediction does once the module-level [typestate]
    is bound and a list of predictions is cached.  The text ends with
    a word (possibly empty) that follows a word boundary.  If the word
    is shorter than the prediction, the rest of the prediction and a
    space are typed, and the text buffer becomes the text before the
    word, that rest and the space -- the word itself is dropped from
    the buffer.  Otherwise the whole prediction and a space are typed
    and appended. *)
Theorem prediction_select_types_the_rest
    (target : Z) (p : list string) (pred base word : string)
    (ts : TypeState) (m : Machine) :
  global_typestate m = Some ts ->
  predictions ts = Some p ->
  (0 <= target)%Z ->
  p !! Z.to_nat target = Some pred ->
  text ts = base +:+ word ->
  boundary_free word = true ->
  ends_at_boundary base = true ->
  let shorter := String.length word <? String.length pred in
  let newchars :=
    Py.slice_from pred (if shorter then Py.len word else 0) +:+ " " in
  perform (PredictionSelectLayoutAction target) m =
    (Returns tt,
     set_global_typestate
       (Some (set_text ((if shorter then base else text ts) +:+ newchars) ts)) m,
     map keyboard_press_and_release (Py.chars newchars)).
Proof.
  intros Hg Hp Htarget Hpred Htext Hword Hbase shorter newchars.
  assert (Hrange : (0 <=? target)%Z && (target <? Z.of_nat (length p))%Z = true).
  { apply andb_true_intro. split; [apply Z.leb_le; exact Htarget|].
    apply Z.ltb_lt. apply lookup_lt_Some in Hpred. lia. }
  assert (Hstrip : find_stripsuffix (text ts) (String.length pred) 0
                   = if shorter then word else "").
  { rewrite Htext. change 0%Z with (Z.of_nat 0).
    rewrite (find_stripsuffix_word base word (String.length pred) 0 Hword Hbase)
      by lia.
    rewrite Nat.sub_0_r. reflexivity. }
  destruct m as [w g kp]. simpl in Hg. subst g.
  destruct ts as [txt preds predict table expanded klen]. simpl in *. subst preds.
  unfold PredictionSelectLayoutAction_perform, getpredictions, update, deref, read, write.
  cbv [mbind M_bind bind mret M_ret ret raise]. simpl.
  rewrite Hrange, Hpred. simpl. rewrite Hstrip.
  rewrite for_each_emit_eq.
  unfold set_global_typestate, set_text. simpl.
  subst newchars. fold shorter.
  destruct shorter.
  - replace (Py.slice_to txt (Py.len txt - Py.len word)) with base; [reflexivity|].
    rewrite Htext. unfold Py.slice_to, Py.len. rewrite string_app_length.
    replace (Z.to_nat (Z.of_nat (String.length base + String.length word)
                       - Z.of_nat (String.length word)))
      with (String.length base) by lia.
    symmetry. apply substring_prefix.
  - replace (Py.slice_to txt (Py.len txt - Py.len "")) with txt; [reflexivity|].
    unfold Py.slice_to, Py.len. simpl String.length.
    replace (Z.to_nat (Z.of_nat (String.length txt) - Z.of_nat 0))
      with (String.length txt) by lia.
    symmetry. apply substring_all.
Qed.

Lemma prediction_select_types_the_rest_witness :
  let ts := mkTypeState "say hel" (Some ["hello"; "help"]) (fun _ => Returns [])
              brb_table ExpNone None in
  let m := mkMachine (init DEFAULT_CONFIG TwoKey sample_layouts None) (Some ts)
             (fun _ => false) in
  perform (PredictionSelectLayoutAction 0) m =
    (Returns tt, set_global_typestate (Some (set_text "say lo " ts)) m,
     map keyboard_press_and_release ["l"; "o"; " "]).
Proof.
  intros ts m.
  refine (prediction_select_types_the_rest 0 ["hello"; "help"] "hello" "say " "hel" ts m
            eq_refl eq_refl _ eq_refl eq_refl eq_refl eq_refl).
  lia.
Defined.

(** ** Abbreviations *)

Lemma no_space_app (a : string) (c : ascii) :
  no_space a = true -> Py.isspace c = false -> no_space (a +:+ String c "") = true.
Proof.
  intros Ha Hc. induction a as [|x a IH].
  - simpl. rewrite Hc. reflexivity.
  - simpl in Ha. apply andb_prop in Ha as [Hx Ha].
    change (negb (Py.isspace x) && no_space (a +:+ String c "") = true).
    rewrite Hx, (IH Ha). reflexivity.
Qed.

Lemma split_from_words (s word w : string) :
  no_space word = true ->
  In w (Py.split_from word s) ->
  w <> "" /\ no_space w = true.
Proof.
  revert word. induction s as [|c rest IH]; intros word Hword Hin; simpl in Hin.
  - destruct (String.eqb word "") eqn:E; [contradiction|].
    destruct Hin as [<-|[]]. split; [|exact Hword].
    apply String.eqb_neq. exact E.
  - destruct (Py.isspace c) eqn:Hc.
    + destruct (String.eqb word "") eqn:E.
      * apply (IH ""); [reflexivity | exact Hin].
      * destruct Hin as [<-|Hin].
        -- split; [apply String.eqb_neq; exact E | exact Hword].
        -- apply (IH ""); [reflexivity | exact Hin].
    + apply (IH (word +:+ String c "")); [|exact Hin].
      apply no_space_app; assumption.
Qed.

(** X29: [expand_abbreviation] looks up the last word of the text, as
    [str.split()] cuts it out: whenever it finds an expansion, the key it
    found it under is a non-empty word without white space, and the
    length it reports is that of the key.  An entry of the table whose
    key holds white space is never used. *)
Theorem expanded_word_has_no_space
    (keys : string) (abbreviations : gmap string string)
    (expansion : string) (n : option nat) :
  expand_abbreviation keys abbreviations = Returns (Some expansion, n) ->
  exists word,
    abbreviations !! word = Some expansion /\
    n = Some (String.length word) /\
    word <> "" /\
    no_space word = true.
Proof.
  unfold expand_abbreviation, Py.split.
  destruct (last (Py.split_from "" keys)) as [word|] eqn:Hlast; [|discriminate].
  destruct (abbreviations !! word) as [e|] eqn:Hlookup; [|discriminate].
  intros [= <- <-]. exists word. split; [exact Hlookup|]. split; [reflexivity|].
  apply last_Some in Hlast as [l' Hl].
  apply (split_from_words keys "" word); [reflexivity|].
  rewrite Hl. apply in_or_app. right. left. reflexivity.
Qed.

Lemma expanded_word_has_no_space_witness :
  exists word,
    brb_table !! word = Some "be right back" /\
    no_space word = true.
Proof.
  destruct (expanded_word_has_no_space "see you brb" brb_table "be right back" (Some 3))
    as (word & Hlookup & _ & _ & Hns).
  - reflexivity.
  - exists word. split; assumption.
Defined.

(** ** Holding a switch *)

Lemma fast_ticks_append (n : nat) (sym : MorseSymbol) (m : Machine) (q : RepeatKeyTimer) :
  fast_morse_mode_timer (window m) = Some q ->
  role_symbol (captured_role q) = Some sym ->
  exec (deliver_all (repeat fast_morse_mode_timer_timeout n)) m =
    set_window
      (set_currentCharacter (currentCharacter (window m) ++ repeat (symbol_value sym) n)
         (window m)) m.
Proof.
  revert m. induction n as [|n IH]; intros m Hq Hrole.
  - simpl. rewrite app_nil_r. destruct m as [w ? ?]. destruct w. reflexivity.
  - change (repeat fast_morse_mode_timer_timeout (S n))
      with (fast_morse_mode_timer_timeout :: repeat fast_morse_mode_timer_timeout n).
    rewrite exec_deliver_all_cons.
    assert (E : exec (deliver fast_morse_mode_timer_timeout) m =
                set_window
                  (set_currentCharacter (currentCharacter (window m) ++ [symbol_value sym])
                     (window m)) m).
    { unfold exec. simpl. cbv [mbind M_bind bind self mret M_ret ret].
      rewrite Hq. unfold role_symbol in Hrole.
      destruct (captured_role q) as [|[|r]]; try discriminate;
        injection Hrole as <-; simpl; rewrite ?addDit_eq, ?addDah_eq; reflexivity. }
    rewrite E, IH; [|exact Hq|exact Hrole]. simpl.
    rewrite <- app_assoc. reflexivity.
Qed.

(** X30: Holding the Dit or the Dah switch in the two- or three-key mode keys
    its symbol once at the press and, with fast repeat on, once more at
    every expiry of the 100 ms timer that falls before the release;
    without fast repeat the hold keys one symbol however long it
    lasts.  (No fast-repeat timer is held before the press, as is the
    case whenever no press is open.) *)
Theorem hold_keys_press_and_expiries
    (key : string) (role : nat) (sym : MorseSymbol) (t0 : Q) (held : Z) (m : Machine) :
  keySelectionRadio (window m) <> OneKey ->
  inputDisabled (window m) = false ->
  lastKeyDownTime (window m) = None ->
  fast_morse_mode_timer (window m) = None ->
  key <> "P" ->
  role_symbol role = Some sym ->
  currentCharacter (window (exec (hold key role t0 held) m)) =
    currentCharacter (window m)
      ++ repeat (symbol_value sym)
           (S (if fastMorseMode (config (window m)) then expiries_before 100 held else 0)).
Proof.
  intros Hmode Hen Hopen Hnone Hkey Hrole. apply String.eqb_neq in Hkey.
  set (w1 := set_lastKeyDownTime (Some t0) (window (repeat_cleared m))).
  set (q := mkRepeatKeyTimer (mkQTimer 100 false) key role).
  set (w2 := if fastMorseMode (config (window m))
             then set_fast_morse_mode_timer (Some q) w1 else w1).
  set (m1 := set_window
               (set_currentCharacter (currentCharacter (window m) ++ [symbol_value sym]) w2)
               m).
  assert (Hone : keySelectionRadioOneKey_isChecked (keySelectionRadio (window m)) = false)
    by (destruct (keySelectionRadio (window m)); [congruence|reflexivity|reflexivity]).
  assert (Hexec : exec (on_press key role t0) m = m1 /\
                  outcome (on_press key role t0) m = Returns tt).
  { unfold exec, outcome. rewrite on_press_eq, Hkey, Hen, Hopen. cbn zeta. rewrite Hone.
    fold w1. fold q. fold w2. unfold role_symbol in Hrole.
    destruct role as [|[|r]]; try discriminate; injection Hrole as <-; simpl;
      rewrite ?addDit_eq, ?addDah_eq; unfold m1, w2, w1, repeat_cleared;
      destruct (fastMorseMode (config (window m)));
      split; reflexivity. }
  destruct Hexec as [Hexec Hout].
  unfold hold.
  rewrite (exec_bind _ _ tt) by exact Hout.
  rewrite Hexec.
  rewrite (exec_bind _ _ (fast_morse_mode_timer (window m1))) by reflexivity.
  change (exec (self fast_morse_mode_timer) m1) with m1.
  assert (Hmode1 : keySelectionRadio (window m1) = keySelectionRadio (window m)).
  { unfold m1, w2, w1. destruct (fastMorseMode (config (window m))); reflexivity. }
  assert (Hdown1 : lastKeyDownTime (window m1) = Some t0).
  { unfold m1, w2, w1. destruct (fastMorseMode (config (window m))); reflexivity. }
  assert (Hcur1 : currentCharacter (window m1)
                  = currentCharacter (window m) ++ [symbol_value sym]).
  { unfold m1, w2, w1. destruct (fastMorseMode (config (window m))); reflexivity. }
  assert (Hrel : forall x,
            keySelectionRadio (window x) = keySelectionRadio (window m) ->
            lastKeyDownTime (window x) = Some t0 ->
            currentCharacter
              (window (exec (on_release key role (t0 + inject_Z held / 1000)%Q) x))
            = currentCharacter (window x)).
  { intros x Hx Hd. unfold exec. rewrite on_release_eq, Hd, Hx. cbn zeta.
    destruct (keySelectionRadio (window m)); [congruence|reflexivity|reflexivity]. }
  destruct (fastMorseMode (config (window m))) eqn:Hfast.
  - assert (Hq : fast_morse_mode_timer (window m1) = Some q) by reflexivity.
    rewrite Hq.
    rewrite (exec_bind _ _ tt) by apply deliver_all_returns.
    change (interval (timer q)) with 100%Z.
    rewrite (fast_ticks_append _ sym m1 q Hq Hrole).
    assert (Hset : forall c x,
              currentCharacter
                (window (set_window (set_currentCharacter c (window x)) x)) = c)
      by reflexivity.
    rewrite Hrel; [|exact Hmode1|exact Hdown1].
    rewrite Hset, Hcur1, <- app_assoc. reflexivity.
  - assert (Hq : fast_morse_mode_timer (window m1) = None) by exact Hnone.
    rewrite Hq.
    rewrite (exec_bind _ _ tt) by reflexivity.
    change (exec (mret tt) m1) with m1.
    rewrite Hrel; [|exact Hmode1|exact Hdown1].
    rewrite Hcur1. reflexivity.
Qed.

Lemma hold_keys_press_and_expiries_witness :
  let cfg := mkConfig (Some 350%Q) 1000%Q true false None false in
  let m := boot cfg ThreeKey sample_layouts None in
  currentCharacter (window (exec (hold "enter" 1 0%Q 250) m)) = [2%Z; 2%Z; 2%Z].
Proof.
  intros cfg m.
  refine (hold_keys_press_and_expiries "enter" 1 Dah 0%Q 250 m _ eq_refl eq_refl eq_refl _
            eq_refl); discriminate.
Defined.
